(** * dad-controller: the activity-rule evaluation and duration-tracking engine

    A shallow embedding of [dad-controller.go] and the properties of its scan
    cycle: classification of running processes, duration counters with
    day rollover, and the per-activity enforcement decision.

    Conventions of the embedding.
    - Go maps are stdpp [gmap]s.  The controller's maps are always allocated
      by the constructors, so a [gmap] stands for a non-nil map.
    - [time.Duration] is an [int64]: a [Z] whose addition wraps around.
    - [time.Time] is kept as its civil reading (the only accessors the
      controller calls are [Year], [Month], [Day], [Weekday], [Hour] and
      [Minute]).
    - Methods on [*dadController] are actions of a small monad [Go] over the
      controller and the record of the calls made to the
      [KillRunningProcesses] hook; an action may panic.
    - Go ranges over a map in an unspecified order: every loop over a map
      takes the order of the keys as an argument, and the properties are
      proved for every order that enumerates the keys of the map.
    - Writes to standard output ([fmt.Print*]) are left out. *)

From Stdlib Require Import ZArith Lia.
From stdpp Require Import base gmap strings list fin_maps.
From Stdlib Require Import Ascii String.

Local Open Scope Z_scope.

(** ** The parts of Go's [time] package the controller uses *)

Module time.

Inductive Weekday :=
  | Sunday | Monday | Tuesday | Wednesday | Thursday | Friday | Saturday.

Definition Weekday_to_Z (d : Weekday) : Z :=
  match d with
  | Sunday => 0 | Monday => 1 | Tuesday => 2 | Wednesday => 3
  | Thursday => 4 | Friday => 5 | Saturday => 6
  end.

Definition Weekday_of_Z (z : Z) : Weekday :=
  match z with
  | 0 => Sunday | 1 => Monday | 2 => Tuesday | 3 => Wednesday
  | 4 => Thursday | 5 => Friday | _ => Saturday
  end.

(** [type Duration int64], a count of nanoseconds. *)
Abbreviation Duration := Z (only parsing).

Definition wrap64 (z : Z) : Z := (z + 2 ^ 63) mod 2 ^ 64 - 2 ^ 63.

(** [d1 + d2] on [int64]. *)
Definition add (d1 d2 : Duration) : Duration := wrap64 (d1 + d2).

Definition Minute_ns : Duration := 60 * 1000000000.

(** A [time.Time] read in its own location. *)
Record Time := {
  Year : Z;
  Month : Z;
  Day : Z;
  Hour : Z;
  Minute : Z;
  Second : Z
}.

(** Days between 1970-01-01 and the civil date (proleptic Gregorian). *)
Definition daysFromCivil (y m d : Z) : Z :=
  let y' := if m <=? 2 then y - 1 else y in
  let era := y' / 400 in
  let yoe := y' - era * 400 in
  let mp := (m + 9) mod 12 in
  let doy := (153 * mp + 2) / 5 + d - 1 in
  let doe := yoe * 365 + yoe / 4 - yoe / 100 + doy in
  era * 146097 + doe - 719468.

(** [t.Weekday()]; 1970-01-01 was a Thursday. *)
Definition WeekdayOf (t : Time) : Weekday :=
  Weekday_of_Z ((daysFromCivil (Year t) (Month t) (Day t) + 4) mod 7).

End time.

#[global] Instance Weekday_eq_dec : EqDecision time.Weekday.
Proof. solve_decision. Defined.

#[global] Instance Weekday_countable : Countable time.Weekday.
Proof.
  refine (inj_countable' time.Weekday_to_Z time.Weekday_of_Z _).
  intros []; reflexivity.
Defined.

(** ** Data model *)

Record timePeriod := {
  Begin : Z;
  End : Z
}.

Record schedule := {
  AllowedPeriods : list timePeriod;
  MaxDuration : time.Duration
}.

Record activityRule := {
  Name : string;
  ProcessPatterns : list string;
  AllowedSchedules : gmap time.Weekday schedule
}.

Record runningProcess := {
  Pid : Z;
  Path : string
}.

#[global] Instance runningProcess_eq_dec : EqDecision runningProcess.
Proof. solve_decision. Defined.

(** The hooks [GetTime] and [GetRunningProcesses] are functions without
    argument; [KillRunningProcesses] is modelled by the record of its calls
    ([KillCall], below). *)
Record dadController := {
  SamplingInterval : time.Duration;
  Activities : list activityRule;
  GetTime : unit -> time.Time;
  GetRunningProcesses : unit -> list runningProcess;
  LastControlTime : time.Time;
  ActivityDuration : gmap time.Weekday (gmap string time.Duration)
}.

Definition setActivities (acts : list activityRule) (c : dadController) :=
  {| SamplingInterval := SamplingInterval c; Activities := acts;
     GetTime := GetTime c; GetRunningProcesses := GetRunningProcesses c;
     LastControlTime := LastControlTime c;
     ActivityDuration := ActivityDuration c |}.

Definition setLastControlTime (t : time.Time) (c : dadController) :=
  {| SamplingInterval := SamplingInterval c; Activities := Activities c;
     GetTime := GetTime c; GetRunningProcesses := GetRunningProcesses c;
     LastControlTime := t;
     ActivityDuration := ActivityDuration c |}.

Definition setActivityDuration
    (m : gmap time.Weekday (gmap string time.Duration)) (c : dadController) :=
  {| SamplingInterval := SamplingInterval c; Activities := Activities c;
     GetTime := GetTime c; GetRunningProcesses := GetRunningProcesses c;
     LastControlTime := LastControlTime c;
     ActivityDuration := m |}.

(** ** The monad of controller methods *)

(** One call [c.KillRunningProcesses(activity, rp, reason)]. *)
Record KillCall := {
  killActivity : string;
  killProcesses : list runningProcess;
  killReason : string
}.

(** The controller behind the receiver pointer, and the calls made to the
    kill hook so far, oldest first. *)
Record World := {
  ctl : dadController;
  killed : list KillCall
}.

Inductive Outcome (A : Type) :=
  | Returned (a : A) (w : World)
  | Panicked.
Arguments Returned {A} a w.
Arguments Panicked {A}.

Definition Go (A : Type) := World -> Outcome A.

Definition ret {A} (a : A) : Go A := fun w => Returned a w.

Definition bind {A B} (m : Go A) (k : A -> Go B) : Go B :=
  fun w => match m w with
           | Returned a w' => k a w'
           | Panicked => Panicked
           end.

Notation "x <- m ;; k" := (bind m (fun x => k))
  (at level 100, m at next level, right associativity).
Notation "m ;;; k" := (bind m (fun _ => k))
  (at level 100, right associativity).

Definition panic {A} : Go A := fun _ => Panicked.

Definition getCtl : Go dadController := fun w => Returned (ctl w) w.

Definition modifyCtl (f : dadController -> dadController) : Go unit :=
  fun w => Returned tt {| ctl := f (ctl w); killed := killed w |}.

Definition KillRunningProcesses
    (activity : string) (rp : list runningProcess) (reason : string) : Go unit :=
  fun w => Returned tt
    {| ctl := ctl w;
       killed := killed w ++
         [{| killActivity := activity; killProcesses := rp;
             killReason := reason |}] |}.

(** [for _, x := range xs { body }] over a slice, or over the keys of a map
    in the order [xs]. *)
Fixpoint forRange {A} (xs : list A) (body : A -> Go unit) : Go unit :=
  match xs with
  | [] => ret tt
  | x :: xs' => body x ;;; forRange xs' body
  end.

(** The same loop when the body updates a local variable. *)
Fixpoint foldRange {A R} (xs : list A) (body : R -> A -> Go R) (r : R) : Go R :=
  match xs with
  | [] => ret r
  | x :: xs' => r' <- body r x ;; foldRange xs' body r'
  end.

(** An order in which [for k := range m] may visit the keys of [m]. *)
Definition rangeOf {V} (m : gmap string V) (order : list string) : Prop :=
  order ≡ₚ (map_to_list m).*1.

(** ** Duration counters *)

Definition GetActivityDuration (activity : string) : Go time.Duration :=
  c <- getCtl ;;
  let day := time.WeekdayOf (LastControlTime c) in
  match ActivityDuration c !! day with
  | None => ret 0
  | Some ad =>
      match ad !! activity with
      | None => ret 0
      | Some d => ret d
      end
  end.

(** [ad[activity] = d] where [ad] is the map stored at
    [c.ActivityDuration[day]]: the write goes to the shared map. *)
Definition writeCounter (day : time.Weekday) (activity : string)
    (d : time.Duration) (c : dadController) : dadController :=
  setActivityDuration
    (<[day := <[activity := d]> (default ∅ (ActivityDuration c !! day))]>
       (ActivityDuration c)) c.

(** [ad[activity]] with the "comma ok" flag. *)
Definition readCounter (day : time.Weekday) (activity : string)
    (c : dadController) : option time.Duration :=
  default ∅ (ActivityDuration c !! day) !! activity.

Definition updateActivityDuration (activity : string) (duration : time.Duration)
    : Go unit :=
  c <- getCtl ;;
  let day := time.WeekdayOf (LastControlTime c) in
  (match ActivityDuration c !! day with
   | Some _ => ret tt
   | None => modifyCtl (fun c =>
               setActivityDuration (<[day := ∅]> (ActivityDuration c)) c)
   end) ;;;
  modifyCtl (writeCounter day activity duration).

Definition dateDiffers (now last : time.Time) : bool :=
  negb (time.Year now =? time.Year last)
  || negb (time.Month now =? time.Month last)
  || negb (time.Day now =? time.Day last).

Definition dumpActivitiesDuration : Go unit := ret tt.

Definition updateActivityCounters (order : list string)
    (rp : gmap string (list runningProcess)) (now : time.Time) : Go unit :=
  c <- getCtl ;;
  (if dateDiffers now (LastControlTime c)
   then modifyCtl (fun c =>
          setActivityDuration (delete (time.WeekdayOf now) (ActivityDuration c)) c)
   else ret tt) ;;;
  modifyCtl (setLastControlTime now) ;;;
  (if 0 <? Z.of_nat (size rp) then
     c <- getCtl ;;
     let day := time.WeekdayOf (LastControlTime c) in
     (match ActivityDuration c !! day with
      | Some _ => ret tt
      | None => modifyCtl (fun c =>
                  setActivityDuration (<[day := ∅]> (ActivityDuration c)) c)
      end) ;;;
     forRange order (fun activity =>
       c <- getCtl ;;
       let d := match readCounter day activity c with
                | Some d => d
                | None => 0
                end in
       modifyCtl (writeCounter day activity
                    (time.add d (SamplingInterval c))))
   else ret tt) ;;;
  dumpActivitiesDuration.

(** ** Policy model *)

(** The search loop of [getOrCreateActivityRule]. *)
Fixpoint findActivityRule (acts : list activityRule) (activity : string)
    : option activityRule :=
  match acts with
  | [] => None
  | a :: acts' =>
      if String.eqb (Name a) activity then Some a
      else findActivityRule acts' activity
  end.

Definition getOrCreateActivityRule (activity : string) : Go activityRule :=
  c <- getCtl ;;
  match findActivityRule (Activities c) activity with
  | Some a => ret a
  | None =>
      let a := {| Name := activity; ProcessPatterns := [];
                  AllowedSchedules := ∅ |} in
      modifyCtl (fun c => setActivities (Activities c ++ [a]) c) ;;;
      ret a
  end.

(** ** Evaluation and decision *)

Definition reasonDay : string := "Activity not allowed to be done on this day".
Definition reasonDuration : string :=
  "Activity duration above threshold for this day".
Definition reasonTimeRange : string :=
  "Activity not allowed to be done during this time range".

(** The test [dayTime >= ap.Begin && dayTime < ap.End]. *)
Definition inPeriod (dayTime : Z) (ap : timePeriod) : bool :=
  (dayTime >=? Begin ap) && (dayTime <? End ap).

(** The loop that sets [foundValidPeriod]. *)
Definition foundValidPeriod (dayTime : Z) (periods : list timePeriod) : bool :=
  fold_left (fun found ap => if inPeriod dayTime ap then true else found)
            periods false.

(** The body of the loop of [controlActivities]; [ad] is the bucket of the
    current weekday, which the loop never writes. *)
Definition controlActivity (day : time.Weekday) (dayTime : Z)
    (ad : gmap string time.Duration)
    (rp : gmap string (list runningProcess)) (activity : string) : Go unit :=
  a <- getOrCreateActivityRule activity ;;
  match AllowedSchedules a !! day with
  | None =>
      KillRunningProcesses activity (default [] (rp !! activity)) reasonDay
  | Some schedule =>
      let maxDuration := MaxDuration schedule in
      if default 0 (ad !! activity) >? maxDuration then
        KillRunningProcesses activity (default [] (rp !! activity))
          reasonDuration
      else if negb (foundValidPeriod dayTime (AllowedPeriods schedule)) then
        KillRunningProcesses activity (default [] (rp !! activity))
          reasonTimeRange
      else ret tt
  end.

Definition dayTimeOf (t : time.Time) : Z := time.Hour t * 100 + time.Minute t.

Definition controlActivities (order : list string)
    (rp : gmap string (list runningProcess)) : Go unit :=
  c <- getCtl ;;
  let day := time.WeekdayOf (LastControlTime c) in
  let dayTime := dayTimeOf (LastControlTime c) in
  match ActivityDuration c !! day with
  | None => ret tt
  | Some ad => forRange order (controlActivity day dayTime ad rp)
  end.

(** ** Classification *)

(** The parts of Go's [regexp] package the controller uses: a type of
    compiled expressions, [Compile], which fails on a malformed pattern, and
    the method [MatchString]. *)
Module regexp.

Record Engine := {
  Regexp : Type;
  Compile : string -> option Regexp;
  MatchString : Regexp -> string -> bool
}.

End regexp.

Section Classification.

Variable engine : regexp.Engine.

(** [regex.MatchString(s)] on a [*Regexp]: the method reads the fields of its
    receiver, so a nil receiver is a nil pointer dereference. *)
Definition MatchStringPtr (regex : option (regexp.Regexp engine)) (s : string)
    : Go bool :=
  match regex with
  | Some r => ret (regexp.MatchString engine r s)
  | None => panic
  end.

(** The body of the innermost loop: [regex] against one running process. *)
Definition matchProcess (name : string)
    (regex : option (regexp.Regexp engine))
    (results : gmap string (list runningProcess)) (rp : runningProcess)
    : Go (gmap string (list runningProcess)) :=
  m <- MatchStringPtr regex (Path rp) ;;
  if m then
    let (r, results) :=
      match results !! name with
      | Some r => (r, results)
      | None => ([], <[name := []]> results)
      end in
    ret (<[name := r ++ [rp]]> results)
  else ret results.

(** The innermost loop. *)
Definition matchProcesses (name : string)
    (regex : option (regexp.Regexp engine)) (processes : list runningProcess)
    (results : gmap string (list runningProcess))
    : Go (gmap string (list runningProcess)) :=
  foldRange processes (matchProcess name regex) results.

Definition getRunningProcessesPerActivity
    : Go (gmap string (list runningProcess)) :=
  c <- getCtl ;;
  let processes := GetRunningProcesses c tt in
  foldRange (Activities c) (fun results activity =>
    foldRange (ProcessPatterns activity) (fun results processPattern =>
      (* regex, _ := regexp.Compile(processPattern) *)
      let regex := regexp.Compile engine processPattern in
      matchProcesses (Name activity) regex processes results) results) ∅.

(** ** One scan *)

(** [order1] and [order2] give the order in which the two loops over the
    classified map visit its keys. *)
Definition scan
    (order1 order2 : gmap string (list runningProcess) -> list string)
    : Go unit :=
  rp <- getRunningProcessesPerActivity ;;
  c <- getCtl ;;
  updateActivityCounters (order1 rp) rp (GetTime c tt) ;;;
  controlActivities (order2 rp) rp.

End Classification.

(** The keys of a map in the order of [map_to_list]. *)
Definition keysOf {V} (m : gmap string V) : list string := (map_to_list m).*1.

(** * Definitions used to state the properties *)

(** What [getOrCreateActivityRule] leaves in [c.Activities]. *)
Definition ensureRule (acts : list activityRule) (activity : string)
    : list activityRule :=
  match findActivityRule acts activity with
  | Some _ => acts
  | None => acts ++ [{| Name := activity; ProcessPatterns := [];
                        AllowedSchedules := ∅ |}]
  end.

(** The schedule the rule resolved for [activity] has for [day]: none when
    the rule has no entry for that day, and none when no rule has that name
    (the rule created for it has no schedule at all). *)
Definition scheduleOf (acts : list activityRule) (day : time.Weekday)
    (activity : string) : option schedule :=
  match findActivityRule acts activity with
  | Some a => AllowedSchedules a !! day
  | None => None
  end.

Definition mkKill (rp : gmap string (list runningProcess)) (activity reason : string)
    : KillCall :=
  {| killActivity := activity; killProcesses := default [] (rp !! activity);
     killReason := reason |}.

(** The calls one run of the loop body adds to the record. *)
Definition killsOf (day : time.Weekday) (dayTime : Z)
    (ad : gmap string time.Duration) (rp : gmap string (list runningProcess))
    (acts : list activityRule) (activity : string) : list KillCall :=
  match scheduleOf acts day activity with
  | None => [mkKill rp activity reasonDay]
  | Some s =>
      if default 0 (ad !! activity) >? MaxDuration s
      then [mkKill rp activity reasonDuration]
      else if negb (foundValidPeriod dayTime (AllowedPeriods s))
      then [mkKill rp activity reasonTimeRange]
      else []
  end.

Definition killsFor (activity : string) (l : list KillCall) : list KillCall :=
  filter (fun k => killActivity k = activity) l.

(** The calls added between two worlds. *)
Definition newKills (w w' : World) : list KillCall :=
  drop (List.length (killed w)) (killed w').

(** The bucket after the loop "update duration counters" has visited the
    keys in [order]. *)
Definition bump (si : time.Duration) (order : list string)
    (ad : gmap string time.Duration) : gmap string time.Duration :=
  fold_left
    (fun ad activity => <[activity := time.add (default 0 (ad !! activity)) si]> ad)
    order ad.

(** The counters after the day-rollover step. *)
Definition rolled (c : dadController) (now : time.Time)
    : gmap time.Weekday (gmap string time.Duration) :=
  if dateDiffers now (LastControlTime c)
  then delete (time.WeekdayOf now) (ActivityDuration c)
  else ActivityDuration c.

Definition countersAfter (order : list string)
    (rp : gmap string (list runningProcess)) (now : time.Time)
    (c : dadController) : gmap time.Weekday (gmap string time.Duration) :=
  if 0 <? Z.of_nat (size rp)
  then <[time.WeekdayOf now :=
           bump (SamplingInterval c) order
             (default ∅ (rolled c now !! time.WeekdayOf now))]> (rolled c now)
  else rolled c now.

(** The duration stored for [activity] on [day], zero when the bucket or the
    entry is missing. *)
Definition counterIn (m : gmap time.Weekday (gmap string time.Duration))
    (day : time.Weekday) (activity : string) : time.Duration :=
  default 0 (m !! day ≫= fun ad => ad !! activity).

(** [results[name]], the nil slice when the key is absent. *)
Definition listed (results : gmap string (list runningProcess)) (name : string)
    : list runningProcess :=
  default [] (results !! name).

(** [results] after the processes [ps] were appended, one by one, to the
    entry of [name]. *)
Definition record (name : string) (ps : list runningProcess)
    (results : gmap string (list runningProcess))
    : gmap string (list runningProcess) :=
  match ps with
  | [] => results
  | _ => <[name := listed results name ++ ps]> results
  end.

(** No key of a classified map is bound to the empty list. *)
Definition noEmptyEntry (results : gmap string (list runningProcess)) : Prop :=
  ∀ name, results !! name ≠ Some [].

Section ClassificationSpec.

Variable engine : regexp.Engine.

(** The processes a pattern matches, in the order of the process list; none
    for a pattern that does not compile. *)
Definition matchedBy (pattern : string) (processes : list runningProcess)
    : list runningProcess :=
  match regexp.Compile engine pattern with
  | Some r =>
      List.filter (fun rp => regexp.MatchString engine r (Path rp)) processes
  | None => []
  end.

(** The processes the patterns of the rules named [name] match: rule after
    rule, pattern after pattern. *)
Definition classifiedAs (acts : list activityRule)
    (processes : list runningProcess) (name : string) : list runningProcess :=
  flat_map (fun a =>
    if String.eqb (Name a) name
    then flat_map (fun p => matchedBy p processes) (ProcessPatterns a)
    else []) acts.

Definition compiles (pattern : string) : Prop :=
  is_Some (regexp.Compile engine pattern).

(** The classified map after the rules [acts], from [results]. *)
Definition recordAll (acts : list activityRule) (processes : list runningProcess)
    (results : gmap string (list runningProcess))
    : gmap string (list runningProcess) :=
  fold_left (fun results a =>
    record (Name a)
      (flat_map (fun p => matchedBy p processes) (ProcessPatterns a)) results)
    acts results.

End ClassificationSpec.

Definition occurrences (rp : runningProcess) (l : list runningProcess) : nat :=
  List.length (filter (fun x => x = rp) l).

(** ** A small concrete setting, used to run the definitions *)

Module Sample.

(** A stand-in engine: a pattern with an opening parenthesis that is never
    closed does not compile (as in Go: "missing closing )"); any other
    pattern is read as a literal and matches the paths that contain it. *)
Fixpoint balance (s : string) (depth : nat) : option nat :=
  match s with
  | EmptyString => Some depth
  | String "("%char s' => balance s' (S depth)
  | String ")"%char s' =>
      match depth with
      | O => None
      | S d => balance s' d
      end
  | String _ s' => balance s' depth
  end.

Fixpoint contains (fuel : nat) (pat s : string) : bool :=
  if String.prefix pat s then true
  else match fuel, s with
       | S fuel', String _ s' => contains fuel' pat s'
       | _, _ => false
       end.

Definition engine : regexp.Engine := {|
  regexp.Regexp := string;
  regexp.Compile := fun p =>
    match balance p 0 with
    | Some O => Some p
    | _ => None
    end;
  regexp.MatchString := fun r s => contains (String.length s) r s
|}.

Definition at_ (y m d hh mm : Z) : time.Time :=
  {| time.Year := y; time.Month := m; time.Day := d;
     time.Hour := hh; time.Minute := mm; time.Second := 0 |}.

Definition gta : runningProcess := {| Pid := 1; Path := "C:\GTA.exe" |}.

Definition everyDay (s : schedule) : gmap time.Weekday schedule :=
  list_to_map
    (map (fun d => (d, s))
       [time.Sunday; time.Monday; time.Tuesday; time.Wednesday;
        time.Thursday; time.Friday; time.Saturday]).

(** Rule "GTA": pattern [GTA.exe], every day, at most 15 minutes, between
    [begin] and [end_]. *)
Definition gtaRule (begin end_ : Z) : activityRule :=
  {| Name := "GTA"; ProcessPatterns := ["GTA.exe"];
     AllowedSchedules :=
       everyDay {| AllowedPeriods := [{| Begin := begin; End := end_ |}];
                   MaxDuration := 15 * time.Minute_ns |} |}.

Definition controller (acts : list activityRule) (procs : list runningProcess)
    (last now : time.Time)
    (counters : gmap time.Weekday (gmap string time.Duration)) : World :=
  {| ctl := {| SamplingInterval := time.Minute_ns; Activities := acts;
               GetTime := fun _ => now;
               GetRunningProcesses := fun _ => procs;
               LastControlTime := last;
               ActivityDuration := counters |};
     killed := [] |}.

Definition monday (hh mm : Z) : time.Time := at_ 2024 1 1 hh mm.

Definition tuesday (hh mm : Z) : time.Time := at_ 2024 1 2 hh mm.

Definition counted (day : time.Weekday) (activity : string) (minutes : Z)
    : gmap time.Weekday (gmap string time.Duration) :=
  {[ day := {[ activity := minutes * time.Minute_ns ]} ]}.

(** The process of "GTA", as the classification reports it. *)
Definition classified : gmap string (list runningProcess) :=
  {[ "GTA" := [gta] ]}.

(** Monday 18:00; "GTA" is allowed 20:00-21:00 and counted at 16 minutes. *)
Definition overBudgetOutsideWindow : World :=
  controller [gtaRule 2000 2100] [gta] (monday 18 0) (monday 18 0)
    (counted time.Monday "GTA" 16).

(** Monday 10:00; "GTA" is allowed all day and counted at 16 minutes. *)
Definition overBudgetInsideWindow : World :=
  controller [gtaRule 0 2359] [gta] (monday 10 0) (monday 10 0)
    (counted time.Monday "GTA" 16).

(** Monday 21:00 sharp; "GTA" is allowed 20:00-21:00. *)
Definition atWindowEnd : World :=
  controller [gtaRule 2000 2100] [gta] (monday 21 0) (monday 21 0)
    (counted time.Monday "GTA" 2).

(** A process classified under a name that no rule has. *)
Definition classifiedUnknown : gmap string (list runningProcess) :=
  {[ "Fortnite" := [gta] ]}.

Definition unknownActivity : World :=
  controller [gtaRule 0 2359] [gta] (monday 10 0) (monday 10 0)
    (counted time.Monday "Fortnite" 1).

(** Last controlled on Monday 23:59, with 30 minutes of "GTA" left in the
    bucket of Tuesday by the week before; the clock now reads Tuesday 0:00. *)
Definition staleTuesday : World :=
  controller [gtaRule 0 2359] [] (monday 23 59) (tuesday 0 0)
    (counted time.Tuesday "GTA" 30).

(** A fresh controller and one running process. *)
Definition firstScan : World :=
  controller [gtaRule 0 2359] [gta] (monday 10 0) (monday 10 1) ∅.

Definition brokenRule : activityRule :=
  {| Name := "Broken"; ProcessPatterns := ["("]; AllowedSchedules := ∅ |}.

Definition withBrokenPattern : World :=
  controller [gtaRule 0 2359; brokenRule] [gta] (monday 10 0) (monday 10 1) ∅.

(** Two patterns of "GTA" match the process, and so does "Games". *)
Definition twoPatternRule : activityRule :=
  {| Name := "GTA"; ProcessPatterns := ["GTA"; "exe"]; AllowedSchedules := ∅ |}.

Definition gamesRule : activityRule :=
  {| Name := "Games"; ProcessPatterns := ["GTA.exe"]; AllowedSchedules := ∅ |}.

Definition overlappingRules : World :=
  controller [twoPatternRule; gamesRule] [gta] (monday 10 0) (monday 10 1) ∅.

(** "GTA" allowed on Sundays only. *)
Definition gtaSundayRule : activityRule :=
  {| Name := "GTA"; ProcessPatterns := ["GTA.exe"];
     AllowedSchedules :=
       {[ time.Sunday :=
            {| AllowedPeriods := [{| Begin := 0; End := 2359 |}];
               MaxDuration := 15 * time.Minute_ns |} ]} |}.

(** The clock reads [now] and the record of kill calls is emptied, as the
    test suite does before each scan. *)
Definition setClock (now : time.Time) (w : World) : World :=
  {| ctl := {| SamplingInterval := SamplingInterval (ctl w);
               Activities := Activities (ctl w);
               GetTime := fun _ => now;
               GetRunningProcesses := GetRunningProcesses (ctl w);
               LastControlTime := LastControlTime (ctl w);
               ActivityDuration := ActivityDuration (ctl w) |};
     killed := [] |}.

Definition scanAt (now : time.Time) (w : World) : option World :=
  match scan engine keysOf keysOf (setClock now w) with
  | Returned _ w' => Some w'
  | Panicked => None
  end.

Definition run (m : Go unit) (w : World) : option World :=
  match m w with
  | Returned _ w' => Some w'
  | Panicked => None
  end.

(** What the test suite looks at: the duration of "GTA" and the kill calls. *)
Definition report (w : option World) : option (time.Duration * list KillCall) :=
  match w with
  | Some w =>
      match GetActivityDuration "GTA" w with
      | Returned d _ => Some (d, killed w)
      | Panicked => None
      end
  | None => None
  end.

Definition killGta (reason : string) : KillCall :=
  {| killActivity := "GTA"; killProcesses := [gta]; killReason := reason |}.

End Sample.

(** * The rest of the policy model and of the controller *)

(** [newDadController]; the production process lister is a parameter. *)
Definition newDadController (samplingInterval : time.Duration)
    (getTimeFunc : unit -> time.Time)
    (getRunningProcesses : unit -> list runningProcess) : dadController :=
  {| SamplingInterval := samplingInterval; Activities := [];
     GetTime := getTimeFunc; GetRunningProcesses := getRunningProcesses;
     LastControlTime := getTimeFunc tt;
     ActivityDuration := ∅ |}.

(** The methods of [*activityRule] act on the rule behind the pointer;
    the schedule map of the rule is allocated, as it is for every rule that
    [getOrCreateActivityRule] makes. *)

Definition AddProgramPattern (programPattern : string) (a : activityRule)
    : activityRule :=
  {| Name := Name a;
     ProcessPatterns := ProcessPatterns a ++ [programPattern];
     AllowedSchedules := AllowedSchedules a |}.

(** [a.AllowedSchedules[day] = s], and a write through the pointer to the
    schedule stored there. *)
Definition setSchedule (day : time.Weekday) (s : schedule) (a : activityRule)
    : activityRule :=
  {| Name := Name a; ProcessPatterns := ProcessPatterns a;
     AllowedSchedules := <[day := s]> (AllowedSchedules a) |}.

(** The schedule behind the pointer returned, and the rule afterwards. *)
Definition getOrCreateSchedule (day : time.Weekday) (a : activityRule)
    : schedule * activityRule :=
  match AllowedSchedules a !! day with
  | Some s => (s, a)
  | None =>
      let s := {| AllowedPeriods := []; MaxDuration := 0 |} in
      (s, setSchedule day s a)
  end.

Definition AddAllowedPeriod (days : list time.Weekday) (begin end_ : Z)
    (a : activityRule) : activityRule :=
  fold_left (fun a d =>
    let (s, a) := getOrCreateSchedule d a in
    setSchedule d
      {| AllowedPeriods :=
           AllowedPeriods s ++ [{| Begin := begin; End := end_ |}];
         MaxDuration := MaxDuration s |} a) days a.

Definition SetMaximumAllowedDurationPerDay (days : list time.Weekday)
    (maximumAllowedDurationPerDay : time.Duration) (a : activityRule)
    : activityRule :=
  fold_left (fun a d =>
    let (s, a) := getOrCreateSchedule d a in
    setSchedule d
      {| AllowedPeriods := AllowedPeriods s;
         MaxDuration := maximumAllowedDurationPerDay |} a) days a.

(** The pointer [getOrCreateActivityRule] returns is the one stored in
    [c.Activities], at the first rule of that name: a method called on it
    changes that rule of the list. *)
Fixpoint updateRule (activity : string) (method : activityRule -> activityRule)
    (acts : list activityRule) : list activityRule :=
  match acts with
  | [] => []
  | a :: acts' =>
      if String.eqb (Name a) activity then method a :: acts'
      else a :: updateRule activity method acts'
  end.

(** [ar := c.getOrCreateActivityRule(activity)] followed by methods called
    on [ar]. *)
Definition withActivityRule (activity : string)
    (methods : activityRule -> activityRule) : Go unit :=
  getOrCreateActivityRule activity ;;;
  modifyCtl (fun c => setActivities (updateRule activity methods (Activities c)) c).

(** The list of days of the test suite; Tuesday is there twice. *)
Definition everyDays : list time.Weekday :=
  [time.Sunday; time.Monday; time.Tuesday; time.Tuesday; time.Wednesday;
   time.Thursday; time.Friday; time.Saturday].

(** [GivenAnActivityRuleAllowedEveryDayOnInterval] of the test suite. *)
Definition GivenAnActivityRuleAllowedEveryDayOnInterval
    (activity program : string) (allowedDuration : time.Duration)
    (begin end_ : Z) : Go unit :=
  withActivityRule activity (fun ar =>
    AddAllowedPeriod everyDays begin end_
      (SetMaximumAllowedDurationPerDay everyDays allowedDuration
         (AddProgramPattern program ar))).

(** ** Definitions used to state the further properties *)

Definition emptyRule (activity : string) : activityRule :=
  {| Name := activity; ProcessPatterns := []; AllowedSchedules := ∅ |}.

(** The rules [controlActivities] appends when it visits [order]: one for
    each name that has no rule. *)
Definition newRules (acts : list activityRule) (order : list string)
    : list activityRule :=
  emptyRule <$> filter (fun a => findActivityRule acts a = None) order.

Definition emptySchedule : schedule :=
  {| AllowedPeriods := []; MaxDuration := 0 |}.

(** The loop of [AddAllowedPeriod] and of [SetMaximumAllowedDurationPerDay]
    with the write to the schedule as a parameter. *)
Definition onDays (write : schedule -> schedule) (days : list time.Weekday)
    (a : activityRule) : activityRule :=
  fold_left (fun a d =>
    let (s, a) := getOrCreateSchedule d a in setSchedule d (write s) a) days a.

Definition appendPeriod (begin end_ : Z) (s : schedule) : schedule :=
  {| AllowedPeriods := AllowedPeriods s ++ [{| Begin := begin; End := end_ |}];
     MaxDuration := MaxDuration s |}.

Definition setMaxDuration (d : time.Duration) (s : schedule) : schedule :=
  {| AllowedPeriods := AllowedPeriods s; MaxDuration := d |}.

(** How often [day] occurs in [days]. *)
Definition timesIn (day : time.Weekday) (days : list time.Weekday) : nat :=
  List.length (filter (fun d => d = day) days).

(** The world in which [scan] calls [controlActivities]. *)
Definition afterUpdate (order : list string)
    (rp : gmap string (list runningProcess)) (w : World) : World :=
  {| ctl := setActivityDuration
              (countersAfter order rp (GetTime (ctl w) tt) (ctl w))
              (setLastControlTime (GetTime (ctl w) tt) (ctl w));
     killed := killed w |}.

(** [updateActivityCounters] once for each time of [nows], with the same
    classified map. *)
Definition updatesAt (order : list string)
    (rp : gmap string (list runningProcess)) (nows : list time.Time) : Go unit :=
  forRange nows (fun now => updateActivityCounters order rp now).

(** * Properties *)

(** ** The monad *)

Lemma world_eta (w : World) : {| ctl := ctl w; killed := killed w |} = w.
Proof. by destruct w. Qed.

Lemma setActivities_same (c : dadController) : setActivities (Activities c) c = c.
Proof. by destruct c. Qed.

(** ** Rule lookup *)

Lemma findActivityRule_app (acts extra : list activityRule) (activity : string) :
  findActivityRule (acts ++ extra) activity =
  match findActivityRule acts activity with
  | Some a => Some a
  | None => findActivityRule extra activity
  end.
Proof.
  induction acts as [|a acts IH]; simpl; [done|].
  by destruct (String.eqb (Name a) activity).
Qed.

Lemma findActivityRule_ensureRule_ne (acts : list activityRule) (a b : string) :
  a ≠ b →
  findActivityRule (ensureRule acts a) b = findActivityRule acts b.
Proof.
  intros Hab. unfold ensureRule.
  destruct (findActivityRule acts a); [done|].
  rewrite findActivityRule_app. destruct (findActivityRule acts b); [done|].
  simpl. destruct (String.eqb a b) eqn:E; [|done].
  by apply String.eqb_eq in E.
Qed.

Lemma getOrCreateActivityRule_run (activity : string) (w : World) :
  getOrCreateActivityRule activity w =
  Returned
    (default {| Name := activity; ProcessPatterns := []; AllowedSchedules := ∅ |}
       (findActivityRule (Activities (ctl w)) activity))
    {| ctl := setActivities (ensureRule (Activities (ctl w)) activity) (ctl w);
       killed := killed w |}.
Proof.
  unfold getOrCreateActivityRule, ensureRule, bind, getCtl, modifyCtl, ret.
  destruct (findActivityRule (Activities (ctl w)) activity); simpl; [|done].
  by rewrite setActivities_same, world_eta.
Qed.

(** ** The decision taken for one activity *)

Lemma controlActivity_run day dayTime ad rp activity (w : World) :
  controlActivity day dayTime ad rp activity w =
  Returned tt
    {| ctl := setActivities (ensureRule (Activities (ctl w)) activity) (ctl w);
       killed := killed w ++ killsOf day dayTime ad rp (Activities (ctl w)) activity |}.
Proof.
  unfold controlActivity, bind. rewrite getOrCreateActivityRule_run.
  unfold killsOf, scheduleOf.
  destruct (findActivityRule (Activities (ctl w)) activity) as [a|]; simpl.
  - destruct (AllowedSchedules a !! day) as [s|]; [|done].
    destruct (default 0 (ad !! activity) >? MaxDuration s); [done|].
    destruct (foundValidPeriod dayTime (AllowedPeriods s)); simpl; [|done].
    unfold ret. by rewrite app_nil_r.
  - by rewrite lookup_empty.
Qed.

Lemma killsOf_ensureRule_ne day dayTime ad rp acts (a b : string) :
  a ≠ b →
  killsOf day dayTime ad rp (ensureRule acts a) b = killsOf day dayTime ad rp acts b.
Proof.
  intros Hab. unfold killsOf, scheduleOf.
  by rewrite findActivityRule_ensureRule_ne.
Qed.

Lemma flat_map_ext_elem {A B} (f g : A → list B) (l : list A) :
  (∀ x, x ∈ l → f x = g x) → flat_map f l = flat_map g l.
Proof.
  induction l as [|x l IH]; intros H; simpl; [done|].
  rewrite (H x) by apply list_elem_of_here.
  f_equal. apply IH. intros y Hy. apply H. by apply list_elem_of_further.
Qed.

Lemma controlLoop_run day dayTime ad rp (order : list string) :
  NoDup order →
  ∀ w : World, ∃ acts',
    forRange order (controlActivity day dayTime ad rp) w =
    Returned tt
      {| ctl := setActivities acts' (ctl w);
         killed := killed w ++
           flat_map (killsOf day dayTime ad rp (Activities (ctl w))) order |}.
Proof.
  induction 1 as [|a order Ha Hnd IH]; intros w; simpl.
  - exists (Activities (ctl w)). unfold ret.
    by rewrite app_nil_r, setActivities_same, world_eta.
  - unfold bind. rewrite controlActivity_run.
    destruct (IH {| ctl := setActivities (ensureRule (Activities (ctl w)) a) (ctl w);
                    killed := killed w ++
                      killsOf day dayTime ad rp (Activities (ctl w)) a |})
      as [acts' ->].
    exists acts'. simpl. rewrite <- app_assoc. do 4 f_equal.
    apply flat_map_ext_elem. intros b Hb.
    apply killsOf_ensureRule_ne. by intros ->.
Qed.

(** ** The calls of one activity in a record of kill calls *)

Lemma newKills_app (w w' : World) (new : list KillCall) :
  killed w' = killed w ++ new → newKills w w' = new.
Proof. intros H. unfold newKills. rewrite H. by rewrite drop_app_length. Qed.

Lemma killsOf_activity day dayTime ad rp acts (b : string) (k : KillCall) :
  k ∈ killsOf day dayTime ad rp acts b → killActivity k = b.
Proof.
  unfold killsOf.
  destruct (scheduleOf acts day b) as [s|].
  - destruct (default 0 (ad !! b) >? MaxDuration s).
    + by intros ->%list_elem_of_singleton.
    + destruct (foundValidPeriod dayTime (AllowedPeriods s)); simpl.
      * by intros ?%elem_of_nil.
      * by intros ->%list_elem_of_singleton.
  - by intros ->%list_elem_of_singleton.
Qed.

Lemma killsFor_all (a : string) (l : list KillCall) :
  (∀ k, k ∈ l → killActivity k = a) → killsFor a l = l.
Proof.
  induction l as [|k l IH]; intros H; [done|].
  unfold killsFor. rewrite filter_cons_True by (apply H, list_elem_of_here).
  f_equal. apply IH. intros k' Hk'. by apply H, list_elem_of_further.
Qed.

Lemma killsFor_none (a : string) (l : list KillCall) :
  (∀ k, k ∈ l → killActivity k ≠ a) → killsFor a l = [].
Proof.
  induction l as [|k l IH]; intros H; [done|].
  unfold killsFor. rewrite filter_cons_False by (apply H, list_elem_of_here).
  apply IH. intros k' Hk'. by apply H, list_elem_of_further.
Qed.

Lemma killsFor_flat_map day dayTime ad rp acts (a : string) (order : list string) :
  NoDup order →
  killsFor a (flat_map (killsOf day dayTime ad rp acts) order) =
  if decide (a ∈ order) then killsOf day dayTime ad rp acts a else [].
Proof.
  induction 1 as [|b order Hb Hnd IH].
  - destruct (decide (a ∈ [])) as [Hin|_]; [|done].
    by apply elem_of_nil in Hin.
  - change (flat_map (killsOf day dayTime ad rp acts) (b :: order))
      with (killsOf day dayTime ad rp acts b ++
            flat_map (killsOf day dayTime ad rp acts) order).
    unfold killsFor in *. rewrite filter_app, IH.
    fold (killsFor a (killsOf day dayTime ad rp acts b)).
    destruct (decide (a = b)) as [->|Hab].
    + rewrite killsFor_all by apply killsOf_activity.
      destruct (decide (b ∈ order)) as [|_]; [done|].
      destruct (decide (b ∈ b :: order)) as [_|Hn]; [by rewrite app_nil_r|].
      exfalso. apply Hn, list_elem_of_here.
    + rewrite killsFor_none.
      2:{ intros k Hk. apply killsOf_activity in Hk. congruence. }
      simpl. destruct (decide (a ∈ order)) as [Hin|Hin];
        destruct (decide (a ∈ b :: order)) as [Hin'|Hin']; try done.
      * exfalso. by apply Hin', list_elem_of_further.
      * apply elem_of_cons in Hin' as [?|?]; done.
Qed.

(** ** Orders of a range loop *)

Lemma rangeOf_NoDup {V} (m : gmap string V) (order : list string) :
  rangeOf m order → NoDup order.
Proof.
  unfold rangeOf. intros ->. apply NoDup_fst_map_to_list.
Qed.

Lemma rangeOf_elem {V} (m : gmap string V) (order : list string) (k : string) :
  rangeOf m order → k ∈ order ↔ is_Some (m !! k).
Proof.
  unfold rangeOf. intros ->. rewrite list_elem_of_fmap. split.
  - intros [[k' v] [-> Hkv]]. apply elem_of_map_to_list in Hkv. by exists v.
  - intros [v Hv]. exists (k, v). split; [done|]. by apply elem_of_map_to_list.
Qed.

Lemma rangeOf_keysOf {V} (m : gmap string V) : rangeOf m (keysOf m).
Proof. unfold rangeOf, keysOf. done. Qed.

(** ** [controlActivities] *)

Lemma controlActivities_no_bucket order rp (w : World) :
  ActivityDuration (ctl w) !! time.WeekdayOf (LastControlTime (ctl w)) = None →
  controlActivities order rp w = Returned tt w.
Proof.
  intros H. unfold controlActivities, bind, getCtl. by rewrite H.
Qed.

Lemma controlActivities_run order rp (w : World) (ad : gmap string time.Duration) :
  NoDup order →
  ActivityDuration (ctl w) !! time.WeekdayOf (LastControlTime (ctl w)) = Some ad →
  ∃ acts',
    controlActivities order rp w =
    Returned tt
      {| ctl := setActivities acts' (ctl w);
         killed := killed w ++
           flat_map (killsOf (time.WeekdayOf (LastControlTime (ctl w)))
                       (dayTimeOf (LastControlTime (ctl w))) ad rp
                       (Activities (ctl w))) order |}.
Proof.
  intros Hnd H. unfold controlActivities, bind, getCtl. rewrite H.
  apply controlLoop_run, Hnd.
Qed.

(** The calls [controlActivities] adds for one activity of the classified
    map, when the bucket of the current weekday exists. *)
Lemma controlActivities_killsFor order rp (w : World)
    (ad : gmap string time.Duration) :
  rangeOf rp order →
  ActivityDuration (ctl w) !! time.WeekdayOf (LastControlTime (ctl w)) = Some ad →
  ∃ w', controlActivities order rp w = Returned tt w' ∧
    killed w' = killed w ++ newKills w w' ∧
    ∀ activity,
      killsFor activity (newKills w w') =
      if decide (is_Some (rp !! activity))
      then killsOf (time.WeekdayOf (LastControlTime (ctl w)))
             (dayTimeOf (LastControlTime (ctl w))) ad rp
             (Activities (ctl w)) activity
      else [].
Proof.
  intros Hr Hb.
  destruct (controlActivities_run order rp w ad (rangeOf_NoDup _ _ Hr) Hb)
    as [acts' Hrun].
  eexists. split; [exact Hrun|]. simpl.
  set (new := flat_map _ order).
  assert (Hnew : newKills w
            {| ctl := setActivities acts' (ctl w); killed := killed w ++ new |}
          = new) by by apply newKills_app.
  rewrite Hnew. split; [done|].
  intros activity. unfold new.
  rewrite killsFor_flat_map by by eapply rangeOf_NoDup.
  destruct (decide (activity ∈ order)) as [Hin|Hin].
  - rewrite decide_True; [done|]. by apply (rangeOf_elem rp order).
  - rewrite decide_False; [done|]. by rewrite <- (rangeOf_elem rp order).
Qed.

Lemma GetActivityDuration_run (activity : string) (w : World) :
  GetActivityDuration activity w =
  Returned
    (default 0
       (ActivityDuration (ctl w) !! time.WeekdayOf (LastControlTime (ctl w))
          ≫= fun ad => ad !! activity))
    w.
Proof.
  unfold GetActivityDuration, bind, getCtl.
  destruct (ActivityDuration (ctl w) !! _) as [ad|]; simpl; [|done].
  by destruct (ad !! activity).
Qed.

(** ** Time windows *)

Lemma inPeriod_spec (t : Z) (ap : timePeriod) :
  inPeriod t ap = true ↔ Begin ap ≤ t ∧ t < End ap.
Proof.
  unfold inPeriod. rewrite andb_true_iff, Z.geb_le, Z.ltb_lt. done.
Qed.

Lemma foundValidPeriod_from (t : Z) (periods : list timePeriod) (found : bool) :
  fold_left (fun found ap => if inPeriod t ap then true else found) periods found
  = found || existsb (inPeriod t) periods.
Proof.
  revert found. induction periods as [|ap periods IH]; intros found; simpl.
  - by rewrite orb_false_r.
  - rewrite IH. destruct (inPeriod t ap), found; simpl; done.
Qed.

Lemma foundValidPeriod_spec (t : Z) (periods : list timePeriod) :
  foundValidPeriod t periods = true ↔
  ∃ ap, ap ∈ periods ∧ Begin ap ≤ t ∧ t < End ap.
Proof.
  unfold foundValidPeriod. rewrite foundValidPeriod_from. simpl.
  rewrite existsb_exists. split.
  - intros [ap [Hin Hap]]. exists ap. split; [by apply list_elem_of_In|].
    by apply inPeriod_spec.
  - intros [ap [Hin Hap]]. exists ap. split; [by apply list_elem_of_In|].
    by apply inPeriod_spec.
Qed.

(** ** [updateActivityCounters] *)

Lemma dateDiffers_spec (now last : time.Time) :
  dateDiffers now last = true ↔
  time.Year now ≠ time.Year last ∨ time.Month now ≠ time.Month last
  ∨ time.Day now ≠ time.Day last.
Proof.
  unfold dateDiffers.
  rewrite !orb_true_iff, !negb_true_iff, !Z.eqb_neq. tauto.
Qed.

Lemma dateDiffers_false_weekday (now last : time.Time) :
  dateDiffers now last = false → time.WeekdayOf now = time.WeekdayOf last.
Proof.
  unfold dateDiffers.
  rewrite !orb_false_iff, !negb_false_iff, !Z.eqb_eq.
  intros [[Hy Hm] Hd]. unfold time.WeekdayOf. by rewrite Hy, Hm, Hd.
Qed.

Lemma updateLoop_run (day : time.Weekday) (order : list string) :
  ∀ (w : World) (ad : gmap string time.Duration),
    ActivityDuration (ctl w) !! day = Some ad →
    forRange order (fun activity =>
      c <- getCtl ;;
      let d := match readCounter day activity c with
               | Some d => d
               | None => 0
               end in
      modifyCtl (writeCounter day activity (time.add d (SamplingInterval c)))) w
    = Returned tt
        {| ctl := setActivityDuration
                    (<[day := bump (SamplingInterval (ctl w)) order ad]>
                       (ActivityDuration (ctl w))) (ctl w);
           killed := killed w |}.
Proof.
  induction order as [|a order IH]; intros w ad Hb; simpl.
  - unfold ret. rewrite insert_id by done.
    destruct w as [c k]; by destruct c.
  - unfold bind at 1. unfold bind at 1. unfold getCtl, modifyCtl.
    erewrite IH.
    2:{ simpl. apply lookup_insert_eq. }
    simpl. rewrite insert_insert_eq. unfold readCounter. rewrite Hb. simpl.
    done.
Qed.

Lemma updateActivityCounters_run order rp now (w : World) :
  updateActivityCounters order rp now w =
  Returned tt
    {| ctl := setActivityDuration (countersAfter order rp now (ctl w))
                (setLastControlTime now (ctl w));
       killed := killed w |}.
Proof.
  unfold updateActivityCounters, countersAfter, rolled, dumpActivitiesDuration.
  unfold bind at 1. unfold getCtl at 1.
  set (base := if dateDiffers now (LastControlTime (ctl w))
               then delete (time.WeekdayOf now) (ActivityDuration (ctl w))
               else ActivityDuration (ctl w)).
  assert (Hroll :
    (if dateDiffers now (LastControlTime (ctl w))
     then modifyCtl (fun c =>
            setActivityDuration
              (delete (time.WeekdayOf now) (ActivityDuration c)) c)
     else ret tt) w
    = Returned tt {| ctl := setActivityDuration base (ctl w);
                     killed := killed w |}).
  { unfold base. destruct (dateDiffers now (LastControlTime (ctl w))).
    - done.
    - unfold ret. destruct w as [c k]; by destruct c. }
  unfold bind at 1. rewrite Hroll.
  unfold bind at 1. unfold modifyCtl at 1. simpl.
  unfold bind at 1.
  destruct (0 <? Z.of_nat (size rp)); simpl.
  - unfold bind at 1. unfold getCtl at 1. simpl.
    unfold bind at 1.
    destruct (base !! time.WeekdayOf now) as [ad|] eqn:Hb; simpl.
    + unfold ret at 1.
      erewrite (updateLoop_run (time.WeekdayOf now) order); [|simpl; exact Hb].
      done.
    + unfold modifyCtl at 1. simpl.
      erewrite (updateLoop_run (time.WeekdayOf now) order);
        [|simpl; apply lookup_insert_eq].
      simpl. by rewrite insert_insert_eq.
  - done.
Qed.

Lemma bump_lookup (si : time.Duration) (order : list string) :
  NoDup order →
  ∀ (ad : gmap string time.Duration) (a : string),
    bump si order ad !! a =
    if decide (a ∈ order) then Some (time.add (default 0 (ad !! a)) si)
    else ad !! a.
Proof.
  induction 1 as [|b order Hb Hnd IH]; intros ad a.
  - destruct (decide (a ∈ [])) as [Hin|_]; [|done].
    by apply elem_of_nil in Hin.
  - change (bump si (b :: order) ad)
      with (bump si order (<[b := time.add (default 0 (ad !! b)) si]> ad)).
    rewrite IH.
    destruct (decide (a = b)) as [->|Hab].
    + destruct (decide (b ∈ order)) as [|_]; [done|].
      destruct (decide (b ∈ b :: order)) as [_|Hn].
      * by rewrite lookup_insert_eq.
      * exfalso. apply Hn, list_elem_of_here.
    + destruct (decide (a ∈ order)) as [Hin|Hin];
        destruct (decide (a ∈ b :: order)) as [Hin'|Hin'];
        rewrite ?lookup_insert_ne by done; try done.
      * exfalso. by apply Hin', list_elem_of_further.
      * apply elem_of_cons in Hin' as [?|?]; done.
Qed.

Lemma size_positive_iff {V} (m : gmap string V) :
  (0 <? Z.of_nat (size m)) = true ↔ m ≠ ∅.
Proof.
  rewrite Z.ltb_lt. rewrite <- (map_size_empty_iff m). lia.
Qed.

Lemma wrap64_id (z : Z) : - 2 ^ 63 ≤ z < 2 ^ 63 → time.wrap64 z = z.
Proof.
  intros H. unfold time.wrap64. rewrite Z.mod_small; lia.
Qed.

Lemma add_no_overflow (d1 d2 : time.Duration) :
  - 2 ^ 63 ≤ d1 + d2 < 2 ^ 63 → time.add d1 d2 = d1 + d2.
Proof. apply wrap64_id. Qed.

(** The order in which the loop visits the classified map does not show in
    the counters. *)
Lemma countersAfter_order order1 order2 rp now (c : dadController) :
  rangeOf rp order1 → rangeOf rp order2 →
  countersAfter order1 rp now c = countersAfter order2 rp now c.
Proof.
  intros H1 H2. unfold countersAfter.
  destruct (0 <? Z.of_nat (size rp)); [|done].
  f_equal. apply map_eq. intros a.
  rewrite !bump_lookup by by eapply rangeOf_NoDup.
  destruct (decide (a ∈ order1)) as [Hin|Hin];
    destruct (decide (a ∈ order2)) as [Hin'|Hin']; try done.
  - exfalso. apply Hin'. apply (rangeOf_elem rp order2); [done|].
    by apply (rangeOf_elem rp order1).
  - exfalso. apply Hin. apply (rangeOf_elem rp order1); [done|].
    by apply (rangeOf_elem rp order2).
Qed.

Lemma countersAfter_empty order now (c : dadController) :
  countersAfter order ∅ now c = rolled c now.
Proof. reflexivity. Qed.

Lemma countersAfter_nonempty order rp now (c : dadController) :
  rp ≠ ∅ →
  countersAfter order rp now c =
  <[time.WeekdayOf now :=
      bump (SamplingInterval c) order
        (default ∅ (rolled c now !! time.WeekdayOf now))]> (rolled c now).
Proof.
  intros H. unfold countersAfter.
  by rewrite (proj2 (size_positive_iff rp) H).
Qed.

Lemma counterIn_default (m : gmap time.Weekday (gmap string time.Duration))
    (day : time.Weekday) (activity : string) :
  default 0 (default ∅ (m !! day) !! activity) = counterIn m day activity.
Proof.
  unfold counterIn. destruct (m !! day) as [ad|]; simpl; [done|].
  by rewrite lookup_empty.
Qed.

(** ** Classification *)

Lemma record_cons name rp ps results :
  record name (rp :: ps) results =
  record name ps (<[name := listed results name ++ [rp]]> results).
Proof.
  destruct ps as [|p ps]; [done|]. unfold record, listed.
  rewrite lookup_insert_eq, insert_insert_eq. simpl.
  by rewrite <- app_assoc.
Qed.

Lemma record_app name ps1 ps2 results :
  record name ps2 (record name ps1 results) = record name (ps1 ++ ps2) results.
Proof.
  revert results. induction ps1 as [|p ps1 IH]; intros results; [done|].
  change ((p :: ps1) ++ ps2) with (p :: (ps1 ++ ps2)).
  by rewrite !record_cons, IH.
Qed.

Lemma listed_record name ps results (n : string) :
  listed (record name ps results) n =
  if decide (name = n) then listed results n ++ ps else listed results n.
Proof.
  unfold record. destruct ps as [|p ps].
  - destruct (decide (name = n)); [by rewrite app_nil_r|done].
  - unfold listed. destruct (decide (name = n)) as [->|Hne].
    + by rewrite lookup_insert_eq.
    + by rewrite lookup_insert_ne.
Qed.

Lemma noEmptyEntry_record name ps results :
  noEmptyEntry results → noEmptyEntry (record name ps results).
Proof.
  intros H n. unfold record. destruct ps as [|p ps]; [apply H|].
  destruct (decide (name = n)) as [->|Hne].
  - rewrite lookup_insert_eq. intros [= Heq].
    by apply app_eq_nil in Heq as [_ ?].
  - rewrite lookup_insert_ne by done. apply H.
Qed.

Lemma noEmptyEntry_lookup results (n : string) :
  noEmptyEntry results →
  results !! n = match listed results n with [] => None | l => Some l end.
Proof.
  intros H. unfold listed. specialize (H n).
  destruct (results !! n) as [[|p l]|]; simpl; done.
Qed.

(** ** Counting a process in a result list *)

Lemma occurrences_app rp (l1 l2 : list runningProcess) :
  occurrences rp (l1 ++ l2) = (occurrences rp l1 + occurrences rp l2)%nat.
Proof. unfold occurrences. by rewrite filter_app, length_app. Qed.

Lemma occurrences_elem rp (l : list runningProcess) :
  rp ∈ l → (1 ≤ occurrences rp l)%nat.
Proof.
  induction l as [|x l IH]; [by intros ?%elem_of_nil|].
  change (x :: l) with ([x] ++ l). rewrite occurrences_app.
  intros [->|Hin]%elem_of_cons.
  - unfold occurrences at 1. rewrite filter_cons_True by done. simpl. lia.
  - specialize (IH Hin). lia.
Qed.

Lemma occurrences_flat_map_elem {A} (F : A → list runningProcess) rp
    (x : A) (l : list A) :
  x ∈ l → (occurrences rp (F x) ≤ occurrences rp (flat_map F l))%nat.
Proof.
  induction l as [|y l IH]; [by intros ?%elem_of_nil|].
  simpl. rewrite occurrences_app.
  intros [->|Hin]%elem_of_cons; [lia|]. specialize (IH Hin). lia.
Qed.

Lemma occurrences_flat_map_two {A} (F : A → list runningProcess) rp (l : list A) :
  ∀ (i j : nat) (x y : A),
    i ≠ j → l !! i = Some x → l !! j = Some y →
    (occurrences rp (F x) + occurrences rp (F y)
     ≤ occurrences rp (flat_map F l))%nat.
Proof.
  induction l as [|z l IH]; intros i j x y Hij Hi Hj; [done|].
  simpl. rewrite occurrences_app.
  destruct i as [|i], j as [|j]; simpl in Hi, Hj.
  - done.
  - injection Hi as ->.
    pose proof (occurrences_flat_map_elem F rp y l
                  (proj2 (list_elem_of_lookup l y) (ex_intro _ j Hj))). lia.
  - injection Hj as ->.
    pose proof (occurrences_flat_map_elem F rp x l
                  (proj2 (list_elem_of_lookup l x) (ex_intro _ i Hi))). lia.
  - assert (i ≠ j) as Hij' by congruence.
    specialize (IH i j x y Hij' Hi Hj). lia.
Qed.

Section ClassificationProperties.

Variable engine : regexp.Engine.

Lemma matchProcess_compiled name r results rp (w : World) :
  matchProcess engine name (Some r) results rp w =
  Returned
    (if regexp.MatchString engine r (Path rp)
     then <[name := listed results name ++ [rp]]> results
     else results) w.
Proof.
  unfold matchProcess, bind, MatchStringPtr, ret, listed.
  destruct (regexp.MatchString engine r (Path rp)); [|done].
  destruct (results !! name) as [l|]; simpl; [done|].
  by rewrite insert_insert_eq.
Qed.

Lemma matchProcesses_compiled name r processes :
  ∀ results (w : World),
    matchProcesses engine name (Some r) processes results w =
    Returned
      (record name
         (List.filter (fun rp => regexp.MatchString engine r (Path rp)) processes)
         results) w.
Proof.
  unfold matchProcesses.
  induction processes as [|rp processes IH]; intros results w; [done|].
  cbn [foldRange List.filter]. unfold bind.
  rewrite matchProcess_compiled, IH.
  destruct (regexp.MatchString engine r (Path rp)); [|done].
  by rewrite record_cons.
Qed.

Lemma matchProcesses_no_process name regex results (w : World) :
  matchProcesses engine name regex [] results w = Returned results w.
Proof. reflexivity. Qed.

Lemma patternLoop_run name processes (patterns : list string) :
  Forall (compiles engine) patterns →
  ∀ results (w : World),
    foldRange patterns (fun results processPattern =>
      matchProcesses engine name (regexp.Compile engine processPattern)
        processes results) results w =
    Returned
      (record name (flat_map (fun p => matchedBy engine p processes) patterns) results) w.
Proof.
  induction 1 as [|p patterns [r Hr] Hall IH]; intros results w; simpl; [done|].
  unfold bind. rewrite Hr, matchProcesses_compiled, IH, record_app.
  unfold matchedBy at 2. by rewrite Hr.
Qed.

Lemma ruleLoop_run processes (acts : list activityRule) :
  Forall (fun a => Forall (compiles engine) (ProcessPatterns a)) acts →
  ∀ results (w : World),
    foldRange acts (fun results activity =>
      foldRange (ProcessPatterns activity) (fun results processPattern =>
        matchProcesses engine (Name activity)
          (regexp.Compile engine processPattern) processes results) results)
      results w =
    Returned (recordAll engine acts processes results) w.
Proof.
  induction 1 as [|a acts Ha Hall IH]; intros results w; simpl; [done|].
  unfold bind. by rewrite patternLoop_run, IH.
Qed.

Lemma listed_recordAll processes (acts : list activityRule) (n : string) :
  ∀ results,
    listed (recordAll engine acts processes results) n =
    listed results n ++ classifiedAs engine acts processes n.
Proof.
  induction acts as [|a acts IH]; intros results; simpl.
  - by rewrite app_nil_r.
  - unfold recordAll in *. simpl. rewrite IH, listed_record.
    destruct (decide (Name a = n)) as [Heq|Hne].
    + apply String.eqb_eq in Heq. rewrite Heq. by rewrite <- app_assoc.
    + apply String.eqb_neq in Hne. by rewrite Hne.
Qed.

Lemma noEmptyEntry_recordAll processes (acts : list activityRule) :
  ∀ results, noEmptyEntry results → noEmptyEntry (recordAll engine acts processes results).
Proof.
  induction acts as [|a acts IH]; intros results H; [done|].
  apply IH. by apply noEmptyEntry_record.
Qed.

Lemma getRunningProcessesPerActivity_run (w : World) :
  Forall (fun a => Forall (compiles engine) (ProcessPatterns a)) (Activities (ctl w)) →
  getRunningProcessesPerActivity engine w =
  Returned
    (recordAll engine (Activities (ctl w)) (GetRunningProcesses (ctl w) tt) ∅) w.
Proof.
  intros H. unfold getRunningProcessesPerActivity, bind, getCtl.
  by apply ruleLoop_run.
Qed.

(** A pattern that does not compile, met while a process is running. *)
Lemma patternLoop_panics name rp processes (patterns : list string) :
  Exists (fun p => regexp.Compile engine p = None) patterns →
  ∀ results (w : World),
    foldRange patterns (fun results processPattern =>
      matchProcesses engine name (regexp.Compile engine processPattern)
        (rp :: processes) results) results w = Panicked.
Proof.
  induction patterns as [|p patterns IH]; intros Hex results w.
  - by apply Exists_nil in Hex.
  - simpl. unfold bind.
    destruct (regexp.Compile engine p) as [r|] eqn:Hp.
    + rewrite matchProcesses_compiled. apply IH.
      apply Exists_cons in Hex as [Hex|Hex]; [congruence|done].
    + done.
Qed.

Lemma patternLoop_returns_same_world name processes (patterns : list string) :
  ∀ results (w : World) results' (w' : World),
    foldRange patterns (fun results processPattern =>
      matchProcesses engine name (regexp.Compile engine processPattern)
        processes results) results w = Returned results' w' →
    w' = w.
Proof.
  induction patterns as [|p patterns IH]; intros results w results' w'; simpl.
  - by intros [= _ ->].
  - unfold bind.
    destruct (regexp.Compile engine p) as [r|].
    + rewrite matchProcesses_compiled. apply IH.
    + destruct processes as [|rp processes]; [|done].
      rewrite matchProcesses_no_process. apply IH.
Qed.

Lemma ruleLoop_returns_same_world processes (acts : list activityRule) :
  ∀ results (w : World) results' (w' : World),
    foldRange acts (fun results activity =>
      foldRange (ProcessPatterns activity) (fun results processPattern =>
        matchProcesses engine (Name activity)
          (regexp.Compile engine processPattern) processes results) results)
      results w = Returned results' w' →
    w' = w.
Proof.
  induction acts as [|a acts IH]; intros results w results' w'; simpl.
  - by intros [= _ ->].
  - unfold bind.
    destruct (foldRange (ProcessPatterns a) _ results w) as [r1 w1|] eqn:Hp;
      [|done].
    apply patternLoop_returns_same_world in Hp. subst w1. apply IH.
Qed.

(** The classification reads the controller and writes nothing. *)
Lemma getRunningProcessesPerActivity_same_world (w w' : World) results :
  getRunningProcessesPerActivity engine w = Returned results w' → w' = w.
Proof.
  unfold getRunningProcessesPerActivity, bind, getCtl.
  apply ruleLoop_returns_same_world.
Qed.

Lemma ruleLoop_panics rp processes (acts : list activityRule) :
  Exists (fun a => Exists (fun p => regexp.Compile engine p = None)
                     (ProcessPatterns a)) acts →
  ∀ results (w : World),
    foldRange acts (fun results activity =>
      foldRange (ProcessPatterns activity) (fun results processPattern =>
        matchProcesses engine (Name activity)
          (regexp.Compile engine processPattern) (rp :: processes) results)
        results)
      results w = Panicked.
Proof.
  induction acts as [|a acts IH]; intros Hex results w.
  - by apply Exists_nil in Hex.
  - simpl. unfold bind.
    destruct (foldRange (ProcessPatterns a) _ results w) as [results' w'|] eqn:Hp;
      [|done].
    apply Exists_cons in Hex as [Hex|Hex].
    + by rewrite patternLoop_panics in Hp.
    + by apply IH.
Qed.

Lemma elem_of_matchedBy (p : string) (r : regexp.Regexp engine)
    (processes : list runningProcess) (rp : runningProcess) :
  regexp.Compile engine p = Some r →
  rp ∈ processes →
  regexp.MatchString engine r (Path rp) = true →
  rp ∈ matchedBy engine p processes.
Proof.
  intros Hc Hin Hm. unfold matchedBy. rewrite Hc.
  apply list_elem_of_In, filter_In. split; [by apply list_elem_of_In|done].
Qed.

Lemma classifiedAs_rule (acts : list activityRule)
    (processes : list runningProcess) (a : activityRule) (rp : runningProcess) :
  a ∈ acts →
  (occurrences rp
     (flat_map (fun p => matchedBy engine p processes) (ProcessPatterns a))
   ≤ occurrences rp (classifiedAs engine acts processes (Name a)))%nat.
Proof.
  intros Ha. unfold classifiedAs.
  etransitivity; [|apply (occurrences_flat_map_elem _ rp a acts Ha)].
  simpl. by rewrite String.eqb_refl.
Qed.

End ClassificationProperties.

(** ** The decision of [controlActivities], activity by activity *)

Lemma elem_of_killsFor (a : string) (l : list KillCall) (k : KillCall) :
  k ∈ killsFor a l ↔ k ∈ l ∧ killActivity k = a.
Proof. unfold killsFor. rewrite list_elem_of_filter. tauto. Qed.

Lemma newKills_same (w : World) : newKills w w = [].
Proof. unfold newKills. by rewrite drop_all. Qed.

(** With the bucket of the current weekday at hand, the calls added for an
    activity of the classified map are those of the first check that fails. *)
Lemma controlActivities_decision order rp (w : World)
    (ad : gmap string time.Duration) :
  rangeOf rp order →
  ActivityDuration (ctl w) !! time.WeekdayOf (LastControlTime (ctl w)) = Some ad →
  ∃ w', controlActivities order rp w = Returned tt w' ∧
    killed w' = killed w ++ newKills w w' ∧
    ∀ activity procs, rp !! activity = Some procs →
      killsFor activity (newKills w w') =
      match scheduleOf (Activities (ctl w))
              (time.WeekdayOf (LastControlTime (ctl w))) activity with
      | None =>
          [{| killActivity := activity; killProcesses := procs;
              killReason := reasonDay |}]
      | Some s =>
          if default 0 (ad !! activity) >? MaxDuration s
          then [{| killActivity := activity; killProcesses := procs;
                   killReason := reasonDuration |}]
          else if foundValidPeriod (dayTimeOf (LastControlTime (ctl w)))
                    (AllowedPeriods s)
          then []
          else [{| killActivity := activity; killProcesses := procs;
                   killReason := reasonTimeRange |}]
      end.
Proof.
  intros Hr Hb.
  destruct (controlActivities_killsFor order rp w ad Hr Hb) as (w' & Hrun & Hk & Hfor).
  exists w'. split; [done|]. split; [done|].
  intros activity procs Hp. rewrite Hfor.
  rewrite decide_True by (by exists procs).
  unfold killsOf, mkKill. rewrite Hp. simpl.
  destruct (scheduleOf _ _ activity) as [s|]; [|done].
  destruct (default 0 (ad !! activity) >? MaxDuration s); [done|].
  by destruct (foundValidPeriod _ (AllowedPeriods s)).
Qed.

Lemma reasons_distinct :
  reasonDay ≠ reasonDuration ∧ reasonDay ≠ reasonTimeRange
  ∧ reasonDuration ≠ reasonTimeRange.
Proof. repeat split; discriminate. Qed.

(** ** The scenarios of the test suite *)

Example test_ProcessAreProperlyMappedToActivity :
  Sample.report (Sample.scanAt (Sample.monday 10 1) Sample.firstScan)
  = Some (1 * time.Minute_ns, []).
Proof. vm_compute. reflexivity. Qed.

Example test_ActivityCountersMustBeResettedWhenChangingDay :
  let given :=
    Sample.run (updateActivityDuration "GTA" (14 * time.Minute_ns))
      Sample.firstScan in
  Sample.report given = Some (14 * time.Minute_ns, []) ∧
  Sample.report
    (given ≫= Sample.run (updateActivityCounters [] ∅ (Sample.tuesday 10 0)))
  = Some (0, []).
Proof. split; vm_compute; reflexivity. Qed.

Example test_RunningProcessIsKilledIfRunningOnANonAllowedDay :
  Sample.report
    (Sample.scanAt (Sample.monday 10 1)
       (Sample.controller [Sample.gtaSundayRule] [Sample.gta]
          (Sample.monday 10 0) (Sample.monday 10 0) ∅))
  = Some (1 * time.Minute_ns, [Sample.killGta reasonDay]).
Proof. vm_compute. reflexivity. Qed.

Example test_RunningProcessIsKilledIfRunningLongerThanAllowed :
  let scan1 :=
    Sample.scanAt (Sample.monday 10 1)
      (Sample.controller [Sample.gtaRule 0 2359] [Sample.gta]
         (Sample.monday 10 0) (Sample.monday 10 0)
         (Sample.counted time.Monday "GTA" 14)) in
  Sample.report scan1 = Some (15 * time.Minute_ns, []) ∧
  Sample.report (scan1 ≫= Sample.scanAt (Sample.monday 10 2))
  = Some (16 * time.Minute_ns, [Sample.killGta reasonDuration]).
Proof. split; vm_compute; reflexivity. Qed.

Example test_RunningProcessIsKilledIfRunningOutsideOfAllowedPeriods :
  let scan1 :=
    Sample.scanAt (Sample.monday 18 0)
      (Sample.controller [Sample.gtaRule 2000 2100] [Sample.gta]
         (Sample.monday 10 0) (Sample.monday 10 0) ∅) in
  Sample.report scan1
  = Some (1 * time.Minute_ns, [Sample.killGta reasonTimeRange]) ∧
  Sample.report (scan1 ≫= Sample.scanAt (Sample.monday 21 0))
  = Some (2 * time.Minute_ns, [Sample.killGta reasonTimeRange]).
Proof. split; vm_compute; reflexivity. Qed.

(** * The claims *)

(** C1. For every activity of the classified map, [controlActivities] runs
    the checks in the order day-validity, duration, time window and stops at
    the first one that fails: it calls the kill hook at most once for that
    activity, with the activity name, the full list of processes classified
    under it and the reason of that first failing check, whatever other
    checks would fail too. *)
Theorem controlActivities_one_kill_in_check_order
    (order : list string) (rp : gmap string (list runningProcess)) (w : World) :
  rangeOf rp order →
  ∃ w', controlActivities order rp w = Returned tt w' ∧
    killed w' = killed w ++ newKills w w' ∧
    ∀ activity procs, rp !! activity = Some procs →
      let day := time.WeekdayOf (LastControlTime (ctl w)) in
      let dayTime := dayTimeOf (LastControlTime (ctl w)) in
      let kill reason :=
        {| killActivity := activity; killProcesses := procs;
           killReason := reason |} in
      (List.length (killsFor activity (newKills w w')) ≤ 1)%nat ∧
      (∀ k, k ∈ killsFor activity (newKills w w') →
         killProcesses k = procs ∧
         killReason k ∈ [reasonDay; reasonDuration; reasonTimeRange]) ∧
      ∀ ad, ActivityDuration (ctl w) !! day = Some ad →
        killsFor activity (newKills w w') =
        match scheduleOf (Activities (ctl w)) day activity with
        | None => [kill reasonDay]
        | Some s =>
            if default 0 (ad !! activity) >? MaxDuration s
            then [kill reasonDuration]
            else if foundValidPeriod dayTime (AllowedPeriods s) then []
            else [kill reasonTimeRange]
        end.
Proof.
  intros Hr.
  destruct (ActivityDuration (ctl w) !! time.WeekdayOf (LastControlTime (ctl w)))
    as [ad|] eqn:Hb.
  - destruct (controlActivities_decision order rp w ad Hr Hb)
      as (w' & Hrun & Hk & Hdec).
    exists w'. split; [done|]. split; [done|].
    intros activity procs Hp. simpl. specialize (Hdec activity procs Hp).
    split; [|split].
    + rewrite Hdec.
      destruct (scheduleOf _ _ activity) as [s|]; [|simpl; lia].
      destruct (_ >? _); [simpl; lia|].
      destruct (foundValidPeriod _ _); simpl; lia.
    + intros k. rewrite Hdec.
      destruct (scheduleOf _ _ activity) as [s|].
      * destruct (_ >? _).
        { intros ->%list_elem_of_singleton. simpl. split; [done|].
          apply list_elem_of_further, list_elem_of_here. }
        destruct (foundValidPeriod _ _).
        { by intros ?%elem_of_nil. }
        intros ->%list_elem_of_singleton. simpl. split; [done|].
        do 2 apply list_elem_of_further. apply list_elem_of_here.
      * intros ->%list_elem_of_singleton. simpl. split; [done|].
        apply list_elem_of_here.
    + intros ad' Heq. rewrite Hb in Heq. injection Heq as <-. exact Hdec.
  - exists w. rewrite controlActivities_no_bucket by done.
    split; [done|]. rewrite newKills_same. split; [by rewrite app_nil_r|].
    intros activity procs Hp. simpl. split; [simpl; lia|].
    split; [by intros k ?%elem_of_nil|].
    intros ad Heq. rewrite Hb in Heq. discriminate.
Qed.

(** A scan on a Monday at 18:00 where "GTA" is both above its duration and
    outside its window 20:00-21:00: one call, with the duration reason. *)
Lemma controlActivities_one_kill_in_check_order_witness :
  ∃ w', controlActivities (keysOf Sample.classified) Sample.classified
          Sample.overBudgetOutsideWindow = Returned tt w' ∧
    killsFor "GTA" (newKills Sample.overBudgetOutsideWindow w') =
    [{| killActivity := "GTA"; killProcesses := [Sample.gta];
        killReason := reasonDuration |}].
Proof.
  destruct (controlActivities_one_kill_in_check_order
              (keysOf Sample.classified) Sample.classified
              Sample.overBudgetOutsideWindow
              (rangeOf_keysOf Sample.classified)) as (w' & Hrun & _ & H).
  exists w'. split; [exact Hrun|].
  destruct (H "GTA" [Sample.gta] eq_refl) as (_ & _ & Hd).
  exact (Hd {[ "GTA" := 16 * time.Minute_ns ]} eq_refl).
Defined.

(** C2. For an activity whose rule has a schedule for the current weekday,
    the duration check kills if and only if the accumulated duration of the
    current weekday is strictly greater than the maximum of the schedule:
    at the maximum exactly no call carries the duration reason, and strictly
    above it the one call for the activity carries the duration reason,
    whatever the time windows of the schedule are. *)
Theorem duration_kill_iff_strictly_above
    (order : list string) (rp : gmap string (list runningProcess)) (w : World)
    (activity : string) (procs : list runningProcess) (s : schedule) :
  rangeOf rp order →
  is_Some (ActivityDuration (ctl w)
             !! time.WeekdayOf (LastControlTime (ctl w))) →
  rp !! activity = Some procs →
  scheduleOf (Activities (ctl w))
    (time.WeekdayOf (LastControlTime (ctl w))) activity = Some s →
  ∃ w' d, controlActivities order rp w = Returned tt w' ∧
    GetActivityDuration activity w = Returned d w ∧
    let killDuration :=
      {| killActivity := activity; killProcesses := procs;
         killReason := reasonDuration |} in
    (killDuration ∈ newKills w w' ↔ MaxDuration s < d) ∧
    (d = MaxDuration s →
       ∀ k, k ∈ newKills w w' → killActivity k = activity →
            killReason k ≠ reasonDuration) ∧
    (MaxDuration s < d → killsFor activity (newKills w w') = [killDuration]).
Proof.
  intros Hr [ad Hb] Hp Hs.
  destruct (controlActivities_decision order rp w ad Hr Hb)
    as (w' & Hrun & Hk & Hdec).
  exists w', (default 0 (ad !! activity)).
  split; [done|]. split.
  { rewrite GetActivityDuration_run, Hb. done. }
  specialize (Hdec activity procs Hp). rewrite Hs in Hdec. simpl.
  destruct reasons_distinct as (_ & _ & Hdt).
  destruct (default 0 (ad !! activity) >? MaxDuration s) eqn:Hgt.
  - apply Z.gtb_lt in Hgt. split; [|split].
    + split; [done|]. intros _.
      assert (Hin : {| killActivity := activity; killProcesses := procs;
                       killReason := reasonDuration |}
                    ∈ killsFor activity (newKills w w')).
      { rewrite Hdec. apply list_elem_of_here. }
      by apply elem_of_killsFor in Hin as [? _].
    + intros Heq. rewrite Heq in Hgt. lia.
    + done.
  - assert (Hle : default 0 (ad !! activity) ≤ MaxDuration s).
    { destruct (Z.gtb_spec (default 0 (ad !! activity)) (MaxDuration s));
        [done|lia]. }
    split; [|split].
    + split; [|lia]. intros Hin. exfalso.
      assert (Hin' : {| killActivity := activity; killProcesses := procs;
                        killReason := reasonDuration |}
                     ∈ killsFor activity (newKills w w'))
        by by apply elem_of_killsFor.
      rewrite Hdec in Hin'.
      destruct (foundValidPeriod _ _).
      * by apply elem_of_nil in Hin'.
      * apply list_elem_of_singleton in Hin'. by injection Hin'.
    + intros _ k Hin Hact Hreason.
      assert (Hin' : k ∈ killsFor activity (newKills w w'))
        by by apply elem_of_killsFor.
      rewrite Hdec in Hin'.
      destruct (foundValidPeriod _ _).
      * by apply elem_of_nil in Hin'.
      * apply list_elem_of_singleton in Hin'. subst k. simpl in Hreason.
        by symmetry in Hreason.
    + lia.
Qed.

(** "GTA" allowed every day at every time for 15 minutes, counted at 16
    minutes: killed for its duration although 10:00 is inside the window. *)
Lemma duration_kill_iff_strictly_above_witness :
  ∃ w', controlActivities (keysOf Sample.classified) Sample.classified
          Sample.overBudgetInsideWindow = Returned tt w' ∧
    killsFor "GTA" (newKills Sample.overBudgetInsideWindow w') =
    [{| killActivity := "GTA"; killProcesses := [Sample.gta];
        killReason := reasonDuration |}].
Proof.
  destruct (duration_kill_iff_strictly_above
              (keysOf Sample.classified) Sample.classified
              Sample.overBudgetInsideWindow "GTA" [Sample.gta]
              {| AllowedPeriods := [{| Begin := 0; End := 2359 |}];
                 MaxDuration := 15 * time.Minute_ns |}
              (rangeOf_keysOf Sample.classified)
              (ex_intro _ {[ "GTA" := 16 * time.Minute_ns ]} eq_refl)
              eq_refl eq_refl)
    as (w' & d & Hrun & Hd & _ & _ & Habove).
  exists w'. split; [exact Hrun|].
  apply Habove. injection Hd as <-. vm_compute. reflexivity.
Defined.

(** C3, as the code has it.  With a classified map that is not empty, every
    activity that is a key of the map has its counter for [now.Weekday()]
    set to one sampling interval ([int64] addition) above the value the
    day-rollover step left (the stored value when the calendar date is that
    of [LastControlTime], zero when it differs), however many processes are
    listed under it, and no other entry of that bucket changes (the weekday
    of [now] is that of [LastControlTime] when the date is the same, and the
    addition is that of the integers when it does not overflow); with an
    empty classified map no bucket is created and the counters are those the
    day-rollover step left: the stored ones when the date is the same, the
    stored ones without the bucket of [now.Weekday()] when it differs. *)
Theorem counters_add_one_interval_after_rollover
    (order : list string) (rp : gmap string (list runningProcess))
    (now : time.Time) (w : World) :
  rangeOf rp order →
  ∃ w', updateActivityCounters order rp now w = Returned tt w' ∧
    let day := time.WeekdayOf now in
    let base := rolled (ctl w) now in
    (rp ≠ ∅ →
     ∀ activity,
       (is_Some (rp !! activity) →
        ActivityDuration (ctl w') !! day ≫= (fun ad => ad !! activity) =
        Some (time.add (counterIn base day activity)
                (SamplingInterval (ctl w)))) ∧
       (rp !! activity = None →
        ActivityDuration (ctl w') !! day ≫= (fun ad => ad !! activity) =
        base !! day ≫= (fun ad => ad !! activity))) ∧
    (rp = ∅ → ActivityDuration (ctl w') = base) ∧
    (dateDiffers now (LastControlTime (ctl w)) = false →
     base = ActivityDuration (ctl w) ∧
     day = time.WeekdayOf (LastControlTime (ctl w))) ∧
    (dateDiffers now (LastControlTime (ctl w)) = true →
     base = delete day (ActivityDuration (ctl w))) ∧
    (∀ activity,
       - 2 ^ 63 ≤ counterIn base day activity + SamplingInterval (ctl w) < 2 ^ 63 →
       time.add (counterIn base day activity) (SamplingInterval (ctl w)) =
       counterIn base day activity + SamplingInterval (ctl w)).
Proof.
  intros Hr.
  eexists. split; [apply updateActivityCounters_run|]. simpl.
  split; [|split; [|split; [|split]]].
  - intros Hne activity. rewrite countersAfter_nonempty by done.
    rewrite lookup_insert_eq. simpl.
    rewrite bump_lookup by by eapply rangeOf_NoDup.
    split.
    + intros Hin. rewrite decide_True by by apply (rangeOf_elem rp order).
      by rewrite counterIn_default.
    + intros Hnone.
      rewrite decide_False.
      2:{ rewrite (rangeOf_elem rp order) by done. rewrite Hnone.
          by intros [? ?]. }
      destruct (rolled (ctl w) now !! time.WeekdayOf now); simpl; [done|].
      apply lookup_empty.
  - intros ->. apply countersAfter_empty.
  - intros H. split; [unfold rolled; by rewrite H|].
    by apply dateDiffers_false_weekday.
  - intros H. unfold rolled. by rewrite H.
  - intros activity. apply add_no_overflow.
Qed.

(** From Monday 23:59 to Tuesday 0:00 with "GTA" running: one minute above
    the zero the rollover left, not above the 30 minutes stored before. *)
Lemma counters_add_one_interval_after_rollover_witness :
  ∃ w', updateActivityCounters (keysOf Sample.classified) Sample.classified
          (Sample.tuesday 0 0) Sample.staleTuesday = Returned tt w' ∧
    ActivityDuration (ctl w') !! time.Tuesday ≫= (fun ad => ad !! "GTA")
    = Some time.Minute_ns.
Proof.
  destruct (counters_add_one_interval_after_rollover
              (keysOf Sample.classified) Sample.classified
              (Sample.tuesday 0 0) Sample.staleTuesday
              (rangeOf_keysOf Sample.classified))
    as (w' & Hrun & Hne & _).
  exists w'. split; [exact Hrun|].
  assert (Hnonempty : Sample.classified ≠ ∅).
  { intros H. apply (f_equal (fun m => m !! "GTA")) in H.
    vm_compute in H. discriminate H. }
  destruct (Hne Hnonempty "GTA") as [Hin _].
  exact (Hin (ex_intro _ [Sample.gta] eq_refl)).
Defined.

(** C3, as stated, fails when the calendar date changes.  With an empty
    classified map the 30 minutes stored for "GTA" in the bucket of Tuesday
    are discarded: a counter changes.  With "GTA" classified the same
    counter becomes one minute, not 30 minutes plus one sampling interval. *)
Lemma counters_change_on_rollover_even_with_empty_map :
  (∃ w', updateActivityCounters [] ∅ (Sample.tuesday 0 0) Sample.staleTuesday
           = Returned tt w' ∧
     counterIn (ActivityDuration (ctl Sample.staleTuesday)) time.Tuesday "GTA"
       = 30 * time.Minute_ns ∧
     counterIn (ActivityDuration (ctl w')) time.Tuesday "GTA" = 0 ∧
     ActivityDuration (ctl w') ≠ ActivityDuration (ctl Sample.staleTuesday)) ∧
  (∃ w', updateActivityCounters ["GTA"] Sample.classified (Sample.tuesday 0 0)
           Sample.staleTuesday = Returned tt w' ∧
     counterIn (ActivityDuration (ctl w')) time.Tuesday "GTA"
       = 1 * time.Minute_ns ∧
     counterIn (ActivityDuration (ctl w')) time.Tuesday "GTA"
       ≠ time.add
           (counterIn (ActivityDuration (ctl Sample.staleTuesday))
              time.Tuesday "GTA")
           (SamplingInterval (ctl Sample.staleTuesday))).
Proof.
  split.
  - eexists. split; [apply updateActivityCounters_run|].
    split; [vm_compute; reflexivity|]. split; [vm_compute; reflexivity|].
    intros H. apply (f_equal (fun m => m !! time.Tuesday)) in H.
    vm_compute in H. discriminate H.
  - eexists. split; [apply updateActivityCounters_run|].
    split; [vm_compute; reflexivity|]. vm_compute. discriminate.
Qed.

(** C4. [updateActivityCounters] always leaves [LastControlTime] at [now];
    and when the calendar date of [now] differs from that of
    [LastControlTime], the bucket of [now.Weekday()] is discarded before the
    counters are increased, every other bucket is left as it was, and the
    durations of the new weekday restart from zero: after the call that
    bucket is absent when nothing was classified, and otherwise holds one
    sampling interval for each classified activity and nothing else. *)
Theorem rollover_discards_bucket_of_new_weekday
    (order : list string) (rp : gmap string (list runningProcess))
    (now : time.Time) (w : World) :
  ∃ w', updateActivityCounters order rp now w = Returned tt w' ∧
    LastControlTime (ctl w') = now ∧
    (time.Year now ≠ time.Year (LastControlTime (ctl w))
     ∨ time.Month now ≠ time.Month (LastControlTime (ctl w))
     ∨ time.Day now ≠ time.Day (LastControlTime (ctl w)) →
     rangeOf rp order →
     (∀ d, d ≠ time.WeekdayOf now →
           ActivityDuration (ctl w') !! d = ActivityDuration (ctl w) !! d) ∧
     (rp = ∅ → ActivityDuration (ctl w') !! time.WeekdayOf now = None) ∧
     (rp ≠ ∅ →
      ∃ ad, ActivityDuration (ctl w') !! time.WeekdayOf now = Some ad ∧
        ∀ activity,
          ad !! activity =
          if decide (is_Some (rp !! activity))
          then Some (time.add 0 (SamplingInterval (ctl w)))
          else None)).
Proof.
  eexists. split; [apply updateActivityCounters_run|]. simpl.
  split; [done|]. intros Hdate Hr.
  apply dateDiffers_spec in Hdate.
  assert (Hrolled : rolled (ctl w) now =
                    delete (time.WeekdayOf now) (ActivityDuration (ctl w))).
  { unfold rolled. by rewrite Hdate. }
  split; [|split].
  - intros d Hd. destruct (decide (rp = ∅)) as [->|Hne].
    + rewrite countersAfter_empty, Hrolled. by rewrite lookup_delete_ne.
    + rewrite countersAfter_nonempty by done.
      rewrite lookup_insert_ne by done. rewrite Hrolled.
      by rewrite lookup_delete_ne.
  - intros ->. rewrite countersAfter_empty, Hrolled. apply lookup_delete_eq.
  - intros Hne. rewrite countersAfter_nonempty by done.
    rewrite lookup_insert_eq. eexists. split; [done|].
    intros activity. rewrite Hrolled, lookup_delete_eq. simpl.
    rewrite bump_lookup by by eapply rangeOf_NoDup.
    destruct (decide (activity ∈ order)) as [Hin|Hin].
    + rewrite decide_True by by apply (rangeOf_elem rp order).
      by rewrite lookup_empty.
    + rewrite decide_False by by rewrite <- (rangeOf_elem rp order).
      apply lookup_empty.
Qed.

(** From Monday 23:59 to Tuesday 0:00 with "GTA" running: the 30 minutes of
    the Tuesday before are gone, the bucket holds one minute. *)
Lemma rollover_discards_bucket_of_new_weekday_witness :
  ∃ w', updateActivityCounters (keysOf Sample.classified) Sample.classified
          (Sample.tuesday 0 0) Sample.staleTuesday = Returned tt w' ∧
    LastControlTime (ctl w') = Sample.tuesday 0 0 ∧
    ∃ ad, ActivityDuration (ctl w') !! time.Tuesday = Some ad ∧
      ad !! "GTA" = Some time.Minute_ns.
Proof.
  destruct (rollover_discards_bucket_of_new_weekday
              (keysOf Sample.classified) Sample.classified
              (Sample.tuesday 0 0) Sample.staleTuesday)
    as (w' & Hrun & Hnow & Hroll).
  exists w'. split; [exact Hrun|]. split; [exact Hnow|].
  assert (Hday : time.Day (Sample.tuesday 0 0)
                 ≠ time.Day (LastControlTime (ctl Sample.staleTuesday)))
    by (vm_compute; discriminate).
  destruct (Hroll (or_intror (or_intror Hday))
              (rangeOf_keysOf Sample.classified)) as (_ & _ & Hne).
  destruct Hne as (ad & Had & Hent).
  { intros H. apply (f_equal (fun m => m !! "GTA")) in H.
    vm_compute in H. discriminate H. }
  exists ad. split; [exact Had|]. rewrite Hent. vm_compute. reflexivity.
Defined.

(** C5. A time of day is inside a window exactly when it is at or after its
    begin and strictly before its end, so a window whose end is not after
    its begin contains no time; and the time-window check of
    [controlActivities], reached when the schedule exists and the duration is
    not above the maximum, kills exactly when the time of day is inside none
    of the windows of the current weekday. *)
Theorem time_window_half_open_and_kill_when_outside_all :
  (∀ (t : Z) (ap : timePeriod),
     inPeriod t ap = true ↔ Begin ap ≤ t ∧ t < End ap) ∧
  (∀ (t : Z) (ap : timePeriod), End ap ≤ Begin ap → inPeriod t ap = false) ∧
  (∀ ap : timePeriod, inPeriod (End ap) ap = false) ∧
  ∀ (order : list string) (rp : gmap string (list runningProcess)) (w : World)
    (ad : gmap string time.Duration) (activity : string)
    (procs : list runningProcess) (s : schedule),
    rangeOf rp order →
    ActivityDuration (ctl w) !! time.WeekdayOf (LastControlTime (ctl w))
      = Some ad →
    rp !! activity = Some procs →
    scheduleOf (Activities (ctl w))
      (time.WeekdayOf (LastControlTime (ctl w))) activity = Some s →
    ∃ w', controlActivities order rp w = Returned tt w' ∧
      ({| killActivity := activity; killProcesses := procs;
          killReason := reasonTimeRange |} ∈ newKills w w'
       ↔ default 0 (ad !! activity) ≤ MaxDuration s ∧
         ∀ ap, ap ∈ AllowedPeriods s →
           ¬ (Begin ap ≤ dayTimeOf (LastControlTime (ctl w))
              ∧ dayTimeOf (LastControlTime (ctl w)) < End ap)).
Proof.
  split; [apply inPeriod_spec|]. split.
  { intros t ap Hle. destruct (inPeriod t ap) eqn:E; [|done].
    apply inPeriod_spec in E. lia. }
  split.
  { intros ap. destruct (inPeriod (End ap) ap) eqn:E; [|done].
    apply inPeriod_spec in E. lia. }
  intros order rp w ad activity procs s Hr Hb Hp Hs.
  destruct (controlActivities_decision order rp w ad Hr Hb)
    as (w' & Hrun & Hk & Hdec).
  exists w'. split; [done|].
  specialize (Hdec activity procs Hp). rewrite Hs in Hdec.
  destruct reasons_distinct as (_ & _ & Hdt).
  set (kt := {| killActivity := activity; killProcesses := procs;
                killReason := reasonTimeRange |}) in *.
  assert (Hmem : kt ∈ newKills w w' ↔ kt ∈ killsFor activity (newKills w w')).
  { rewrite elem_of_killsFor. simpl. tauto. }
  rewrite Hmem, Hdec.
  destruct (default 0 (ad !! activity) >? MaxDuration s) eqn:Hgt.
  - apply Z.gtb_lt in Hgt. split.
    + intros Hin%list_elem_of_singleton. by injection Hin.
    + lia.
  - assert (Hle : default 0 (ad !! activity) ≤ MaxDuration s).
    { destruct (Z.gtb_spec (default 0 (ad !! activity)) (MaxDuration s));
        [done|lia]. }
    destruct (foundValidPeriod _ (AllowedPeriods s)) eqn:Hf.
    + apply foundValidPeriod_spec in Hf as (ap & Hin & Hap). split.
      * by intros ?%elem_of_nil.
      * intros [_ Hnone]. exfalso. by apply (Hnone ap).
    + split; [|intros _; apply list_elem_of_here].
      intros _. split; [done|]. intros ap Hin Hap.
      assert (foundValidPeriod (dayTimeOf (LastControlTime (ctl w)))
                (AllowedPeriods s) = true) as Ht
        by (apply foundValidPeriod_spec; by exists ap).
      congruence.
Qed.

(** "GTA" allowed between 20:00 and 21:00, seen at 21:00 sharp: the end of
    the window is outside, the kill carries the time-range reason. *)
Lemma time_window_half_open_and_kill_when_outside_all_witness :
  inPeriod 2100 {| Begin := 2000; End := 2100 |} = false ∧
  ∃ w', controlActivities (keysOf Sample.classified) Sample.classified
          Sample.atWindowEnd = Returned tt w' ∧
    {| killActivity := "GTA"; killProcesses := [Sample.gta];
       killReason := reasonTimeRange |} ∈ newKills Sample.atWindowEnd w'.
Proof.
  destruct time_window_half_open_and_kill_when_outside_all
    as (_ & _ & Hend & Hkill).
  split; [exact (Hend {| Begin := 2000; End := 2100 |})|].
  destruct (Hkill (keysOf Sample.classified) Sample.classified
              Sample.atWindowEnd {[ "GTA" := 2 * time.Minute_ns ]} "GTA"
              [Sample.gta]
              {| AllowedPeriods := [{| Begin := 2000; End := 2100 |}];
                 MaxDuration := 15 * time.Minute_ns |}
              (rangeOf_keysOf Sample.classified) eq_refl eq_refl eq_refl)
    as (w' & Hrun & Hiff).
  exists w'. split; [exact Hrun|].
  apply Hiff. split; [vm_compute; discriminate|].
  intros ap Hin. apply list_elem_of_singleton in Hin. subst ap.
  vm_compute. intros [_ H]. discriminate H.
Defined.

(** C6. An activity that [controlActivities] evaluates and whose resolved
    rule has no schedule for the current weekday is killed with the day
    reason and nothing else; this is the case of every activity without a
    rule, for which [getOrCreateActivityRule] appends and returns a rule
    with no schedule at all. *)
Theorem no_schedule_for_day_is_kill_by_default :
  (∀ (activity : string) (w : World),
     findActivityRule (Activities (ctl w)) activity = None →
     ∃ a w', getOrCreateActivityRule activity w = Returned a w' ∧
       Name a = activity ∧ ProcessPatterns a = [] ∧ AllowedSchedules a = ∅ ∧
       Activities (ctl w') = Activities (ctl w) ++ [a] ∧
       ∀ day, scheduleOf (Activities (ctl w)) day activity = None) ∧
  ∀ (order : list string) (rp : gmap string (list runningProcess)) (w : World)
    (activity : string) (procs : list runningProcess),
    rangeOf rp order →
    is_Some (ActivityDuration (ctl w)
               !! time.WeekdayOf (LastControlTime (ctl w))) →
    rp !! activity = Some procs →
    scheduleOf (Activities (ctl w))
      (time.WeekdayOf (LastControlTime (ctl w))) activity = None →
    ∃ w', controlActivities order rp w = Returned tt w' ∧
      killsFor activity (newKills w w') =
      [{| killActivity := activity; killProcesses := procs;
          killReason := reasonDay |}].
Proof.
  split.
  - intros activity w Hnone. rewrite getOrCreateActivityRule_run.
    do 2 eexists. split; [reflexivity|]. rewrite Hnone. simpl.
    repeat split; try done.
    + unfold ensureRule. by rewrite Hnone.
    + intros day. unfold scheduleOf. by rewrite Hnone.
  - intros order rp w activity procs Hr [ad Hb] Hp Hs.
    destruct (controlActivities_decision order rp w ad Hr Hb)
      as (w' & Hrun & Hk & Hdec).
    exists w'. split; [done|].
    specialize (Hdec activity procs Hp). by rewrite Hs in Hdec.
Qed.

(** A process classified under "Fortnite", a name no rule has, on a day
    whose bucket exists: one call with the day reason. *)
Lemma no_schedule_for_day_is_kill_by_default_witness :
  (∃ a w', getOrCreateActivityRule "Fortnite" Sample.unknownActivity
             = Returned a w' ∧
     AllowedSchedules a = ∅) ∧
  ∃ w', controlActivities (keysOf Sample.classifiedUnknown)
          Sample.classifiedUnknown Sample.unknownActivity = Returned tt w' ∧
    killsFor "Fortnite" (newKills Sample.unknownActivity w') =
    [{| killActivity := "Fortnite"; killProcesses := [Sample.gta];
        killReason := reasonDay |}].
Proof.
  destruct no_schedule_for_day_is_kill_by_default as (Hcreate & Hkill).
  split.
  - destruct (Hcreate "Fortnite" Sample.unknownActivity eq_refl)
      as (a & w' & Hrun & _ & _ & He & _).
    exists a, w'. split; [exact Hrun | exact He].
  - exact (Hkill (keysOf Sample.classifiedUnknown) Sample.classifiedUnknown
             Sample.unknownActivity "Fortnite" [Sample.gta]
             (rangeOf_keysOf Sample.classifiedUnknown)
             (ex_intro _ {[ "Fortnite" := 1 * time.Minute_ns ]} eq_refl)
             eq_refl eq_refl).
Defined.

(** C7, what the code does.  The error of [regexp.Compile] is dropped and
    the nil [*Regexp] it returns with the error is used all the same: when a
    rule has a pattern that does not compile and at least one process is
    running, the classification panics, and the scan with it; the pattern is
    not treated as matching nothing. *)
Theorem malformed_pattern_panics
    (engine : regexp.Engine) (w : World) (a : activityRule) (pattern : string) :
  a ∈ Activities (ctl w) →
  pattern ∈ ProcessPatterns a →
  regexp.Compile engine pattern = None →
  GetRunningProcesses (ctl w) tt ≠ [] →
  getRunningProcessesPerActivity engine w = Panicked ∧
  ∀ order1 order2, scan engine order1 order2 w = Panicked.
Proof.
  intros Ha Hp Hc Hprocs.
  assert (Hcl : getRunningProcessesPerActivity engine w = Panicked).
  { unfold getRunningProcessesPerActivity, bind, getCtl.
    destruct (GetRunningProcesses (ctl w) tt) as [|rp processes]; [done|].
    apply ruleLoop_panics. apply Exists_exists. exists a. split; [done|].
    apply Exists_exists. by exists pattern. }
  split; [done|]. intros order1 order2. unfold scan, bind. by rewrite Hcl.
Qed.

(** The pattern "(" with one process running. *)
Lemma malformed_pattern_panics_witness :
  getRunningProcessesPerActivity Sample.engine Sample.withBrokenPattern
    = Panicked ∧
  scan Sample.engine keysOf keysOf Sample.withBrokenPattern = Panicked.
Proof.
  destruct (malformed_pattern_panics Sample.engine Sample.withBrokenPattern
              Sample.brokenRule "(") as [Hc Hs].
  - apply list_elem_of_further, list_elem_of_here.
  - apply list_elem_of_here.
  - reflexivity.
  - vm_compute. discriminate.
  - split; [exact Hc | exact (Hs keysOf keysOf)].
Defined.

(** C8. When the patterns compile, the classification returns a map that
    lists under each name the processes matched by the patterns of the rules
    of that name, rule after rule and pattern after pattern: a process is
    listed under every activity one of whose patterns matches it, and a
    process matched by two patterns of one activity is listed once for each
    of them under it, hence twice. *)
Theorem classification_lists_every_match
    (engine : regexp.Engine) (w : World) :
  Forall (fun a => Forall (compiles engine) (ProcessPatterns a))
    (Activities (ctl w)) →
  ∃ results, getRunningProcessesPerActivity engine w = Returned results w ∧
    let acts := Activities (ctl w) in
    let processes := GetRunningProcesses (ctl w) tt in
    (∀ name,
       results !! name =
       match classifiedAs engine acts processes name with
       | [] => None
       | l => Some l
       end) ∧
    (∀ a p r rp,
       a ∈ acts → p ∈ ProcessPatterns a →
       regexp.Compile engine p = Some r →
       rp ∈ processes → regexp.MatchString engine r (Path rp) = true →
       rp ∈ listed results (Name a)) ∧
    (∀ a i j p1 p2 r1 r2 rp,
       a ∈ acts → i ≠ j →
       ProcessPatterns a !! i = Some p1 → ProcessPatterns a !! j = Some p2 →
       regexp.Compile engine p1 = Some r1 →
       regexp.Compile engine p2 = Some r2 →
       rp ∈ processes →
       regexp.MatchString engine r1 (Path rp) = true →
       regexp.MatchString engine r2 (Path rp) = true →
       (2 ≤ occurrences rp (listed results (Name a)))%nat) ∧
    (∀ a p1 p2 r1 r2 rp,
       acts = [a] → ProcessPatterns a = [p1; p2] → processes = [rp] →
       regexp.Compile engine p1 = Some r1 →
       regexp.Compile engine p2 = Some r2 →
       regexp.MatchString engine r1 (Path rp) = true →
       regexp.MatchString engine r2 (Path rp) = true →
       results !! Name a = Some [rp; rp]).
Proof.
  intros Hall. eexists. split; [by apply getRunningProcessesPerActivity_run|].
  simpl.
  set (acts := Activities (ctl w)).
  set (processes := GetRunningProcesses (ctl w) tt).
  assert (Hlisted : ∀ name, listed (recordAll engine acts processes ∅) name
                            = classifiedAs engine acts processes name).
  { intros name. rewrite listed_recordAll. unfold listed.
    by rewrite lookup_empty. }
  assert (Hlookup : ∀ name,
            recordAll engine acts processes ∅ !! name =
            match classifiedAs engine acts processes name with
            | [] => None
            | l => Some l
            end).
  { intros name. rewrite <- Hlisted. apply noEmptyEntry_lookup.
    apply noEmptyEntry_recordAll. intros n. by rewrite lookup_empty. }
  split; [exact Hlookup|]. split; [|split].
  - intros a p r rp Ha Hp Hc Hin Hm. rewrite Hlisted.
    pose proof (elem_of_matchedBy engine p r processes rp Hc Hin Hm) as Hmatch.
    apply occurrences_elem in Hmatch.
    pose proof (occurrences_flat_map_elem
                  (fun p => matchedBy engine p processes) rp p
                  (ProcessPatterns a) Hp) as Hpat.
    pose proof (classifiedAs_rule engine acts processes a rp Ha) as Hrule.
    assert (Hpos : (1 ≤ occurrences rp
                          (classifiedAs engine acts processes (Name a)))%nat)
      by lia.
    unfold occurrences in Hpos.
    destruct (filter (λ x, x = rp) (classifiedAs engine acts processes (Name a)))
      as [|x l] eqn:Hf; [simpl in Hpos; lia|].
    assert (Hx : x ∈ filter (λ x, x = rp)
                   (classifiedAs engine acts processes (Name a)))
      by (rewrite Hf; apply list_elem_of_here).
    apply list_elem_of_filter in Hx as [-> Hx]. done.
  - intros a i j p1 p2 r1 r2 rp Ha Hij Hi Hj Hc1 Hc2 Hin Hm1 Hm2.
    rewrite Hlisted.
    pose proof (occurrences_elem rp _
                  (elem_of_matchedBy engine p1 r1 processes rp Hc1 Hin Hm1)) as H1.
    pose proof (occurrences_elem rp _
                  (elem_of_matchedBy engine p2 r2 processes rp Hc2 Hin Hm2)) as H2.
    pose proof (occurrences_flat_map_two
                  (fun p => matchedBy engine p processes) rp
                  (ProcessPatterns a) i j p1 p2 Hij Hi Hj) as Hpat.
    pose proof (classifiedAs_rule engine acts processes a rp Ha) as Hrule.
    lia.
  - intros a p1 p2 r1 r2 rp Hacts Hpats Hprocs Hc1 Hc2 Hm1 Hm2.
    rewrite Hlookup, Hacts, Hprocs. unfold classifiedAs. simpl.
    rewrite String.eqb_refl, Hpats. simpl. unfold matchedBy.
    rewrite Hc1, Hc2. simpl. by rewrite Hm1, Hm2.
Qed.

(** One process matched by both patterns of "GTA" and by the pattern of
    "Games": twice under "GTA", once under "Games". *)
Lemma classification_lists_every_match_witness :
  ∃ results,
    getRunningProcessesPerActivity Sample.engine Sample.overlappingRules
      = Returned results Sample.overlappingRules ∧
    results !! "GTA" = Some [Sample.gta; Sample.gta] ∧
    results !! "Games" = Some [Sample.gta].
Proof.
  destruct (classification_lists_every_match Sample.engine
              Sample.overlappingRules) as (results & Hrun & Hlook & _).
  - repeat (apply Forall_cons_2 || apply Forall_nil_2);
      (eexists; vm_compute; reflexivity).
  - exists results. split; [exact Hrun|].
    rewrite !Hlook. split; vm_compute; reflexivity.
Defined.

(** C9. When the classified map is not empty, [updateActivityCounters]
    leaves a bucket for the weekday of [LastControlTime], so
    [controlActivities], run next, goes into its loop and does not return
    early; this is what [scan] does whenever the classification returned a
    map that is not empty. *)
Theorem bucket_exists_when_control_runs :
  (∀ (order : list string) (rp : gmap string (list runningProcess))
     (now : time.Time) (w : World),
     rp ≠ ∅ →
     ∃ w1 ad,
       updateActivityCounters order rp now w = Returned tt w1 ∧
       ActivityDuration (ctl w1) !! time.WeekdayOf (LastControlTime (ctl w1))
         = Some ad ∧
       ∀ order2,
         controlActivities order2 rp w1 =
         forRange order2
           (controlActivity (time.WeekdayOf (LastControlTime (ctl w1)))
              (dayTimeOf (LastControlTime (ctl w1))) ad rp) w1) ∧
  ∀ (engine : regexp.Engine)
    (order1 order2 : gmap string (list runningProcess) → list string)
    (w w0 : World) (rp : gmap string (list runningProcess)),
    getRunningProcessesPerActivity engine w = Returned rp w0 →
    rp ≠ ∅ →
    w0 = w ∧
    ∃ w1 ad,
      updateActivityCounters (order1 rp) rp (GetTime (ctl w0) tt) w0
        = Returned tt w1 ∧
      ActivityDuration (ctl w1) !! time.WeekdayOf (LastControlTime (ctl w1))
        = Some ad ∧
      scan engine order1 order2 w =
      forRange (order2 rp)
        (controlActivity (time.WeekdayOf (LastControlTime (ctl w1)))
           (dayTimeOf (LastControlTime (ctl w1))) ad rp) w1.
Proof.
  assert (Hupd : ∀ (order : list string) (rp : gmap string (list runningProcess))
     (now : time.Time) (w : World),
     rp ≠ ∅ →
     ∃ w1 ad,
       updateActivityCounters order rp now w = Returned tt w1 ∧
       ActivityDuration (ctl w1) !! time.WeekdayOf (LastControlTime (ctl w1))
         = Some ad ∧
       ∀ order2,
         controlActivities order2 rp w1 =
         forRange order2
           (controlActivity (time.WeekdayOf (LastControlTime (ctl w1)))
              (dayTimeOf (LastControlTime (ctl w1))) ad rp) w1).
  { intros order rp now w Hne.
    do 2 eexists. split; [apply updateActivityCounters_run|]. simpl.
    rewrite countersAfter_nonempty by done. rewrite lookup_insert_eq.
    split; [done|]. intros order2.
    unfold controlActivities, bind, getCtl. simpl.
    by rewrite lookup_insert_eq. }
  split; [exact Hupd|].
  intros engine order1 order2 w w0 rp Hcl Hne.
  split; [by eapply getRunningProcessesPerActivity_same_world|].
  destruct (Hupd (order1 rp) rp (GetTime (ctl w0) tt) w0 Hne)
    as (w1 & ad & Hrun & Hb & Hloop).
  exists w1, ad. split; [done|]. split; [done|].
  unfold scan. unfold bind at 1. rewrite Hcl.
  unfold bind at 1. unfold getCtl at 1.
  unfold bind at 1. rewrite Hrun. apply Hloop.
Qed.

(** The first scan of a fresh controller with one process of "GTA". *)
Lemma bucket_exists_when_control_runs_witness :
  ∃ w1 ad,
    ActivityDuration (ctl w1) !! time.WeekdayOf (LastControlTime (ctl w1))
      = Some ad ∧
    scan Sample.engine keysOf keysOf Sample.firstScan =
    forRange (keysOf Sample.classified)
      (controlActivity (time.WeekdayOf (LastControlTime (ctl w1)))
         (dayTimeOf (LastControlTime (ctl w1))) ad Sample.classified) w1.
Proof.
  destruct bucket_exists_when_control_runs as (_ & Hscan).
  destruct (Hscan Sample.engine keysOf keysOf Sample.firstScan Sample.firstScan
              Sample.classified) as (_ & w1 & ad & _ & Hb & Hs).
  - vm_compute. reflexivity.
  - intros H. apply (f_equal (fun m => m !! "GTA")) in H.
    vm_compute in H. discriminate H.
  - exists w1, ad. split; [exact Hb | exact Hs].
Defined.

(** C10. [GetActivityDuration] returns zero when the bucket of the weekday
    of [LastControlTime] does not exist, zero when the bucket has no entry
    for the activity, and the stored duration otherwise; it always returns,
    and leaves the controller and the record of kill calls as they were. *)
Theorem GetActivityDuration_reads_counter_or_zero (activity : string) (w : World) :
  ∃ d, GetActivityDuration activity w = Returned d w ∧
    (ActivityDuration (ctl w) !! time.WeekdayOf (LastControlTime (ctl w)) = None →
       d = 0) ∧
    (∀ ad, ActivityDuration (ctl w) !! time.WeekdayOf (LastControlTime (ctl w))
             = Some ad →
           ad !! activity = None → d = 0) ∧
    (∀ ad stored,
       ActivityDuration (ctl w) !! time.WeekdayOf (LastControlTime (ctl w))
         = Some ad →
       ad !! activity = Some stored → d = stored).
Proof.
  eexists. split; [apply GetActivityDuration_run|].
  split; [|split].
  - by intros ->.
  - intros ad -> Ha. simpl. by rewrite Ha.
  - intros ad stored -> Ha. simpl. by rewrite Ha.
Qed.

(** The 16 minutes stored for "GTA" on Monday are read back. *)
Lemma GetActivityDuration_reads_counter_or_zero_witness :
  ∃ d, GetActivityDuration "GTA" Sample.overBudgetInsideWindow
         = Returned d Sample.overBudgetInsideWindow ∧
    d = 16 * time.Minute_ns.
Proof.
  destruct (GetActivityDuration_reads_counter_or_zero "GTA"
              Sample.overBudgetInsideWindow) as (d & Hrun & _ & _ & Hstored).
  exists d. split; [exact Hrun|].
  exact (Hstored {[ "GTA" := 16 * time.Minute_ns ]} (16 * time.Minute_ns)
           eq_refl eq_refl).
Defined.

(** * Further properties *)

(** ** Provisioning a rule *)

Lemma activityRule_eq (a b : activityRule) :
  Name a = Name b → ProcessPatterns a = ProcessPatterns b →
  AllowedSchedules a = AllowedSchedules b → a = b.
Proof. destruct a, b; simpl; by intros -> -> ->. Qed.

Lemma schedule_eta (s : schedule) :
  {| AllowedPeriods := AllowedPeriods s; MaxDuration := MaxDuration s |} = s.
Proof. by destruct s. Qed.

Lemma AddAllowedPeriod_onDays days b e (a : activityRule) :
  AddAllowedPeriod days b e a = onDays (appendPeriod b e) days a.
Proof. reflexivity. Qed.

Lemma SetMaximumAllowedDurationPerDay_onDays days m (a : activityRule) :
  SetMaximumAllowedDurationPerDay days m a = onDays (setMaxDuration m) days a.
Proof. reflexivity. Qed.

Lemma onDays_cons write d days (a : activityRule) :
  onDays write (d :: days) a =
  onDays write days
    (setSchedule d
       (write (default emptySchedule (AllowedSchedules a !! d)))
       (getOrCreateSchedule d a).2).
Proof.
  unfold onDays. simpl. f_equal. unfold getOrCreateSchedule.
  by destruct (AllowedSchedules a !! d).
Qed.

Lemma setSchedule_getOrCreateSchedule d s (a : activityRule) :
  setSchedule d s (getOrCreateSchedule d a).2 = setSchedule d s a.
Proof.
  unfold getOrCreateSchedule. destruct (AllowedSchedules a !! d); [done|].
  unfold setSchedule. simpl. by rewrite insert_insert_eq.
Qed.

Lemma onDays_name write days : ∀ a : activityRule,
  Name (onDays write days a) = Name a
  ∧ ProcessPatterns (onDays write days a) = ProcessPatterns a.
Proof.
  induction days as [|d days IH]; intros a; [done|].
  rewrite onDays_cons, setSchedule_getOrCreateSchedule.
  destruct (IH (setSchedule d
                  (write (default emptySchedule (AllowedSchedules a !! d))) a))
    as [-> ->]. done.
Qed.

Lemma timesIn_cons_eq (d : time.Weekday) days :
  timesIn d (d :: days) = S (timesIn d days).
Proof. unfold timesIn. by rewrite filter_cons_True. Qed.

Lemma timesIn_cons_ne (d day : time.Weekday) days :
  d ≠ day → timesIn day (d :: days) = timesIn day days.
Proof. intros H. unfold timesIn. by rewrite filter_cons_False. Qed.


(** The schedule of [day] after the loop: the write applied once for each
    occurrence of [day] in [days], to the schedule that was there or to an
    empty one. *)
Lemma onDays_lookup write days : ∀ (a : activityRule) (day : time.Weekday),
  AllowedSchedules (onDays write days a) !! day =
  match timesIn day days with
  | O => AllowedSchedules a !! day
  | S n =>
      Some (Nat.iter (S n) write
              (default emptySchedule (AllowedSchedules a !! day)))
  end.
Proof.
  induction days as [|d days IH]; intros a day; [done|].
  rewrite onDays_cons, setSchedule_getOrCreateSchedule, IH.
  destruct (decide (d = day)) as [->|Hne].
  - rewrite timesIn_cons_eq. simpl. rewrite lookup_insert_eq. simpl.
    destruct (timesIn day days) as [|n]; [done|].
    f_equal. by rewrite <- !Nat.iter_succ_r.
  - rewrite timesIn_cons_ne by done. simpl.
    by rewrite lookup_insert_ne.
Qed.

Lemma iter_appendPeriod b e (n : nat) (s : schedule) :
  Nat.iter n (appendPeriod b e) s =
  {| AllowedPeriods :=
       AllowedPeriods s ++ replicate n {| Begin := b; End := e |};
     MaxDuration := MaxDuration s |}.
Proof.
  revert s. induction n as [|n IH]; intros s.
  - simpl. by rewrite app_nil_r, schedule_eta.
  - rewrite Nat.iter_succ_r, IH. unfold appendPeriod. simpl.
    by rewrite <- app_assoc.
Qed.

Lemma iter_setMaxDuration m (n : nat) (s : schedule) :
  Nat.iter (S n) (setMaxDuration m) s =
  {| AllowedPeriods := AllowedPeriods s; MaxDuration := m |}.
Proof.
  induction n as [|n IH]; [done|].
  change (Nat.iter (S (S n)) (setMaxDuration m) s)
    with (setMaxDuration m (Nat.iter (S n) (setMaxDuration m) s)).
  by rewrite IH.
Qed.

Lemma foundValidPeriod_existsb (t : Z) (periods : list timePeriod) :
  foundValidPeriod t periods = existsb (inPeriod t) periods.
Proof. unfold foundValidPeriod. by rewrite foundValidPeriod_from. Qed.

Lemma foundValidPeriod_app_replicate (t : Z) periods (n : nat) (ap : timePeriod) :
  foundValidPeriod t (periods ++ replicate (S n) ap) =
  foundValidPeriod t periods || inPeriod t ap.
Proof.
  rewrite !foundValidPeriod_existsb, existsb_app. f_equal.
  induction n as [|n IH]; simpl; [by rewrite orb_false_r|].
  simpl in IH. rewrite IH. by destruct (inPeriod t ap).
Qed.





(** X3. Windows and maximum durations are independent: adding a window on
    some days and setting the maximum on some days give the same rule in
    either order. *)
Theorem AddAllowedPeriod_SetMaximum_commute
    (days1 days2 : list time.Weekday) (b e : Z) (m : time.Duration)
    (a : activityRule) :
  AddAllowedPeriod days1 b e (SetMaximumAllowedDurationPerDay days2 m a) =
  SetMaximumAllowedDurationPerDay days2 m (AddAllowedPeriod days1 b e a).
Proof.
  rewrite !AddAllowedPeriod_onDays, !SetMaximumAllowedDurationPerDay_onDays.
  destruct (onDays_name (setMaxDuration m) days2 a) as [Hn2 Hp2].
  destruct (onDays_name (appendPeriod b e) days1 a) as [Hn1 Hp1].
  destruct (onDays_name (appendPeriod b e) days1
              (onDays (setMaxDuration m) days2 a)) as [Hn12 Hp12].
  destruct (onDays_name (setMaxDuration m) days2
              (onDays (appendPeriod b e) days1 a)) as [Hn21 Hp21].
  apply activityRule_eq; [congruence|congruence|].
  apply map_eq. intros d. rewrite !onDays_lookup.
  destruct (timesIn d days1) as [|n1], (timesIn d days2) as [|n2]; try done.
  cbn [default].
  by rewrite !iter_appendPeriod, !iter_setMaxDuration.
Qed.

(** ** Rules of the controller *)

Lemma findActivityRule_name (acts : list activityRule) (activity : string)
    (a : activityRule) :
  findActivityRule acts activity = Some a → Name a = activity ∧ a ∈ acts.
Proof.
  induction acts as [|b acts IH]; simpl; [done|].
  destruct (String.eqb (Name b) activity) eqn:E.
  - intros [= ->]. apply String.eqb_eq in E. split; [done|].
    apply list_elem_of_here.
  - intros H. destruct (IH H) as [? ?]. split; [done|].
    by apply list_elem_of_further.
Qed.

Lemma findActivityRule_ensureRule_same (acts : list activityRule) (a : string) :
  findActivityRule (ensureRule acts a) a =
  Some (default (emptyRule a) (findActivityRule acts a)).
Proof.
  unfold ensureRule. destruct (findActivityRule acts a) as [r|] eqn:E.
  - by rewrite E.
  - rewrite findActivityRule_app, E. simpl. by rewrite String.eqb_refl.
Qed.

Lemma ensureRule_found (acts : list activityRule) (a : string) :
  is_Some (findActivityRule acts a) → ensureRule acts a = acts.
Proof. intros [r Hr]. unfold ensureRule. by rewrite Hr. Qed.

Lemma findActivityRule_updateRule_same (activity : string)
    (method : activityRule → activityRule) (acts : list activityRule) :
  (∀ a, Name (method a) = Name a) →
  findActivityRule (updateRule activity method acts) activity =
  method <$> findActivityRule acts activity.
Proof.
  intros Hname. induction acts as [|a acts IH]; simpl; [done|].
  destruct (String.eqb (Name a) activity) eqn:E; simpl.
  - by rewrite Hname, E.
  - by rewrite E.
Qed.

Lemma findActivityRule_updateRule_ne (activity other : string)
    (method : activityRule → activityRule) (acts : list activityRule) :
  (∀ a, Name (method a) = Name a) → other ≠ activity →
  findActivityRule (updateRule activity method acts) other =
  findActivityRule acts other.
Proof.
  intros Hname Hne. induction acts as [|a acts IH]; simpl; [done|].
  destruct (String.eqb (Name a) activity) eqn:E; simpl.
  - rewrite Hname. apply String.eqb_eq in E.
    assert (String.eqb (Name a) other = false) as ->; [|done].
    apply String.eqb_neq. congruence.
  - by rewrite IH.
Qed.

Lemma withActivityRule_run (activity : string)
    (methods : activityRule → activityRule) (w : World) :
  withActivityRule activity methods w =
  Returned tt
    {| ctl := setActivities
                (updateRule activity methods
                   (ensureRule (Activities (ctl w)) activity)) (ctl w);
       killed := killed w |}.
Proof.
  unfold withActivityRule, bind. by rewrite getOrCreateActivityRule_run.
Qed.

Lemma everyDays_all (day : time.Weekday) : ∃ n, timesIn day everyDays = S n.
Proof. destruct day; eexists; vm_compute; reflexivity. Qed.

(** X4. [getOrCreateActivityRule] returns a rule of the name asked for, and
    asking again returns the same rule without growing the list; a name that
    has a rule leaves the controller as it is, a name without one appends
    exactly the empty rule; the rules found under other names, the counters,
    [LastControlTime] and the record of kill calls never change. *)
Theorem getOrCreateActivityRule_finds_or_appends_once
    (activity : string) (w : World) :
  ∃ a w1,
    getOrCreateActivityRule activity w = Returned a w1 ∧
    Name a = activity ∧
    getOrCreateActivityRule activity w1 = Returned a w1 ∧
    (is_Some (findActivityRule (Activities (ctl w)) activity) → w1 = w) ∧
    (findActivityRule (Activities (ctl w)) activity = None →
     a = emptyRule activity ∧
     Activities (ctl w1) = Activities (ctl w) ++ [emptyRule activity]) ∧
    (∀ other, other ≠ activity →
       findActivityRule (Activities (ctl w1)) other =
       findActivityRule (Activities (ctl w)) other) ∧
    ActivityDuration (ctl w1) = ActivityDuration (ctl w) ∧
    LastControlTime (ctl w1) = LastControlTime (ctl w) ∧
    killed w1 = killed w.
Proof.
  do 2 eexists. split; [apply getOrCreateActivityRule_run|].
  split; [|split; [|split; [|split; [|split]]]].
  - destruct (findActivityRule (Activities (ctl w)) activity) as [r|] eqn:E;
      simpl; [|done].
    by apply findActivityRule_name in E as [? _].
  - rewrite getOrCreateActivityRule_run. simpl.
    rewrite findActivityRule_ensureRule_same. simpl.
    rewrite (ensureRule_found (ensureRule _ _)).
    2:{ rewrite findActivityRule_ensureRule_same. by eexists. }
    done.
  - intros Hsome. rewrite ensureRule_found by done.
    by rewrite setActivities_same, world_eta.
  - intros Hnone. rewrite Hnone. simpl. split; [done|].
    unfold ensureRule. by rewrite Hnone.
  - intros other Hne. simpl. by apply findActivityRule_ensureRule_ne.
  - done.
Qed.

(** "Fortnite" has no rule in the sample controller: it gets the empty one,
    and "GTA" is found as before. *)
Lemma getOrCreateActivityRule_finds_or_appends_once_witness :
  ∃ w1,
    getOrCreateActivityRule "Fortnite" Sample.firstScan
      = Returned (emptyRule "Fortnite") w1 ∧
    findActivityRule (Activities (ctl w1)) "GTA"
      = findActivityRule (Activities (ctl Sample.firstScan)) "GTA".
Proof.
  destruct (getOrCreateActivityRule_finds_or_appends_once "Fortnite"
              Sample.firstScan)
    as (a & w1 & Hrun & _ & _ & _ & Hnew & Hother & _).
  exists w1. destruct (Hnew eq_refl) as [-> _].
  split; [exact Hrun|]. apply Hother. discriminate.
Defined.

(** X5. After [GivenAnActivityRuleAllowedEveryDayOnInterval] the activity
    has a rule: the one it had, or a new one, with the program appended to
    its patterns and, on every weekday, a schedule with the allowed duration
    as maximum in which a time of day is allowed exactly when it was before
    or is inside the interval (Tuesday, listed twice, gets the window twice,
    which changes nothing to that).  The rules of the other names, the
    counters and [LastControlTime] are untouched and nothing is killed. *)
Theorem provisioned_rule_allows_interval_every_day
    (activity program : string) (allowedDuration : time.Duration)
    (b e : Z) (w : World) :
  ∃ w' r,
    GivenAnActivityRuleAllowedEveryDayOnInterval activity program
      allowedDuration b e w = Returned tt w' ∧
    let before :=
      default (emptyRule activity)
        (findActivityRule (Activities (ctl w)) activity) in
    findActivityRule (Activities (ctl w')) activity = Some r ∧
    Name r = activity ∧
    ProcessPatterns r = ProcessPatterns before ++ [program] ∧
    (∀ day, ∃ s,
       scheduleOf (Activities (ctl w')) day activity = Some s ∧
       MaxDuration s = allowedDuration ∧
       ∀ t, foundValidPeriod t (AllowedPeriods s) =
            foundValidPeriod t
              (AllowedPeriods
                 (default emptySchedule (AllowedSchedules before !! day)))
            || inPeriod t {| Begin := b; End := e |}) ∧
    (∀ other, other ≠ activity →
       findActivityRule (Activities (ctl w')) other =
       findActivityRule (Activities (ctl w)) other) ∧
    ActivityDuration (ctl w') = ActivityDuration (ctl w) ∧
    LastControlTime (ctl w') = LastControlTime (ctl w) ∧
    killed w' = killed w.
Proof.
  unfold GivenAnActivityRuleAllowedEveryDayOnInterval.
  set (methods := fun ar =>
         AddAllowedPeriod everyDays b e
           (SetMaximumAllowedDurationPerDay everyDays allowedDuration
              (AddProgramPattern program ar))).
  assert (Hshape : ∀ ar,
            Name (methods ar) = Name ar
            ∧ ProcessPatterns (methods ar) = ProcessPatterns ar ++ [program]).
  { intros ar. unfold methods.
    rewrite AddAllowedPeriod_onDays, SetMaximumAllowedDurationPerDay_onDays.
    destruct (onDays_name (appendPeriod b e) everyDays
                (onDays (setMaxDuration allowedDuration) everyDays
                   (AddProgramPattern program ar))) as [-> ->].
    destruct (onDays_name (setMaxDuration allowedDuration) everyDays
                (AddProgramPattern program ar)) as [-> ->]. done. }
  assert (Hname : ∀ ar, Name (methods ar) = Name ar) by (intros; apply Hshape).
  set (before := default (emptyRule activity)
                   (findActivityRule (Activities (ctl w)) activity)).
  assert (Hfind : findActivityRule
                    (updateRule activity methods
                       (ensureRule (Activities (ctl w)) activity)) activity
                  = Some (methods before)).
  { rewrite findActivityRule_updateRule_same by done.
    by rewrite findActivityRule_ensureRule_same. }
  exists {| ctl := setActivities
                     (updateRule activity methods
                        (ensureRule (Activities (ctl w)) activity)) (ctl w);
            killed := killed w |}, (methods before).
  split; [apply withActivityRule_run|].
  cbn [ctl killed Activities setActivities ActivityDuration LastControlTime].
  split; [exact Hfind|]. split.
  { rewrite Hname. unfold before.
    destruct (findActivityRule (Activities (ctl w)) activity) as [r|] eqn:E;
      simpl; [|done].
    by apply findActivityRule_name in E as [? _]. }
  split; [apply Hshape|]. split; [|split; [|done]].
  - intros day. unfold scheduleOf. rewrite Hfind. unfold methods.
    rewrite AddAllowedPeriod_onDays, SetMaximumAllowedDurationPerDay_onDays.
    rewrite !onDays_lookup.
    destruct (everyDays_all day) as [n ->]. cbn [default].
    rewrite iter_appendPeriod, iter_setMaxDuration.
    eexists. split; [reflexivity|]. split; [done|].
    intros t. cbn [AllowedPeriods]. apply foundValidPeriod_app_replicate.
  - intros other Hne.
    rewrite findActivityRule_updateRule_ne by done.
    by apply findActivityRule_ensureRule_ne.
Qed.

(** A new controller is given "GTA" between 20:00 and 21:00: on Tuesday
    20:30 is allowed and 21:00 is not. *)
Lemma provisioned_rule_allows_interval_every_day_witness :
  ∃ w' s,
    GivenAnActivityRuleAllowedEveryDayOnInterval "GTA" "GTA.exe"
      (15 * time.Minute_ns) 2000 2100
      {| ctl := newDadController time.Minute_ns
                  (fun _ => Sample.monday 10 0) (fun _ => [Sample.gta]);
         killed := [] |} = Returned tt w' ∧
    scheduleOf (Activities (ctl w')) time.Tuesday "GTA" = Some s ∧
    MaxDuration s = 15 * time.Minute_ns ∧
    foundValidPeriod 2030 (AllowedPeriods s) = true ∧
    foundValidPeriod 2100 (AllowedPeriods s) = false.
Proof.
  destruct (provisioned_rule_allows_interval_every_day "GTA" "GTA.exe"
              (15 * time.Minute_ns) 2000 2100
              {| ctl := newDadController time.Minute_ns
                          (fun _ => Sample.monday 10 0) (fun _ => [Sample.gta]);
                 killed := [] |})
    as (w' & r & Hrun & _ & _ & _ & Hday & _).
  destruct (Hday time.Tuesday) as (s & Hs & Hmax & Hfound).
  exists w', s. split; [exact Hrun|]. split; [exact Hs|].
  split; [exact Hmax|]. split; rewrite Hfound; vm_compute; reflexivity.
Defined.

(** ** Counters across calls *)

Lemma updateActivityDuration_run (activity : string) (d : time.Duration)
    (w : World) :
  updateActivityDuration activity d w =
  Returned tt
    {| ctl := writeCounter (time.WeekdayOf (LastControlTime (ctl w)))
                activity d (ctl w);
       killed := killed w |}.
Proof.
  unfold updateActivityDuration, bind, getCtl, modifyCtl, ret.
  destruct (ActivityDuration (ctl w)
              !! time.WeekdayOf (LastControlTime (ctl w))) as [ad|] eqn:Hb.
  - done.
  - cbn [ctl killed]. do 2 f_equal. unfold writeCounter.
    cbn [ActivityDuration setActivityDuration LastControlTime].
    by rewrite lookup_insert_eq, insert_insert_eq, Hb.
Qed.

Lemma counterIn_insert_bucket
    (m : gmap time.Weekday (gmap string time.Duration))
    (day : time.Weekday) (ad : gmap string time.Duration) (activity : string) :
  counterIn (<[day := ad]> m) day activity = default 0 (ad !! activity).
Proof. unfold counterIn. by rewrite lookup_insert_eq. Qed.

Lemma GetActivityDuration_counterIn (activity : string) (w : World) :
  GetActivityDuration activity w =
  Returned
    (counterIn (ActivityDuration (ctl w))
       (time.WeekdayOf (LastControlTime (ctl w))) activity) w.
Proof. apply GetActivityDuration_run. Qed.

(** X6. [GetActivityDuration] reads back what [updateActivityDuration]
    wrote, whether or not the bucket of the weekday existed; the durations
    of the other activities, the buckets of the other weekdays, the rules,
    [LastControlTime] and the record of kill calls are as before, and a
    second write replaces the first. *)
Theorem updateActivityDuration_then_read
    (activity : string) (d : time.Duration) (w : World) :
  ∃ w', updateActivityDuration activity d w = Returned tt w' ∧
    GetActivityDuration activity w' = Returned d w' ∧
    (∀ other, other ≠ activity →
       ∃ x, GetActivityDuration other w = Returned x w ∧
            GetActivityDuration other w' = Returned x w') ∧
    (∀ day, day ≠ time.WeekdayOf (LastControlTime (ctl w)) →
       ActivityDuration (ctl w') !! day = ActivityDuration (ctl w) !! day) ∧
    Activities (ctl w') = Activities (ctl w) ∧
    LastControlTime (ctl w') = LastControlTime (ctl w) ∧
    killed w' = killed w ∧
    ∀ d0 w0, updateActivityDuration activity d0 w = Returned tt w0 →
             updateActivityDuration activity d w0 = Returned tt w'.
Proof.
  eexists. split; [apply updateActivityDuration_run|].
  split; [|split; [|split; [|split; [|split; [|split]]]]]; try done.
  - rewrite GetActivityDuration_counterIn.
    cbn [ctl LastControlTime writeCounter setActivityDuration ActivityDuration].
    by rewrite counterIn_insert_bucket, lookup_insert_eq.
  - intros other Hne. eexists. split; [apply GetActivityDuration_counterIn|].
    rewrite GetActivityDuration_counterIn.
    cbn [ctl LastControlTime writeCounter setActivityDuration ActivityDuration].
    rewrite counterIn_insert_bucket, lookup_insert_ne by done.
    by rewrite counterIn_default.
  - intros day Hne.
    cbn [ctl writeCounter setActivityDuration ActivityDuration].
    by rewrite lookup_insert_ne.
  - intros d0 w0. rewrite updateActivityDuration_run. intros [= <-].
    rewrite updateActivityDuration_run. unfold writeCounter.
    cbn [ctl killed LastControlTime setActivityDuration ActivityDuration].
    do 2 f_equal. unfold setActivityDuration.
    cbn [SamplingInterval Activities GetTime GetRunningProcesses
         LastControlTime ActivityDuration].
    f_equal. rewrite lookup_insert_eq, !insert_insert_eq. cbn [default].
    f_equal. apply insert_insert_eq.
Qed.

(** The test suite seeds 14 minutes of "GTA" in a fresh controller. *)
Lemma updateActivityDuration_then_read_witness :
  ∃ w', updateActivityDuration "GTA" (14 * time.Minute_ns) Sample.firstScan
          = Returned tt w' ∧
    GetActivityDuration "GTA" w' = Returned (14 * time.Minute_ns) w' ∧
    GetActivityDuration "Fortnite" w' = Returned 0 w'.
Proof.
  destruct (updateActivityDuration_then_read "GTA" (14 * time.Minute_ns)
              Sample.firstScan) as (w' & Hrun & Hread & Hother & _).
  exists w'. split; [exact Hrun|]. split; [exact Hread|].
  destruct (Hother "Fortnite" ltac:(discriminate)) as (x & Hx & Hx').
  vm_compute in Hx. injection Hx as <-. exact Hx'.
Defined.

(** X7. The order in which Go visits the classified map does not show in
    [updateActivityCounters]: two orders of the same map leave the same
    controller. *)
Theorem updateActivityCounters_any_order
    (order1 order2 : list string) (rp : gmap string (list runningProcess))
    (now : time.Time) (w : World) :
  rangeOf rp order1 → rangeOf rp order2 →
  updateActivityCounters order1 rp now w = updateActivityCounters order2 rp now w.
Proof.
  intros H1 H2. rewrite !updateActivityCounters_run.
  by rewrite (countersAfter_order order1 order2).
Qed.

Lemma updateActivityCounters_any_order_witness :
  updateActivityCounters ["GTA"; "Fortnite"]
    {[ "GTA" := [Sample.gta]; "Fortnite" := [Sample.gta] ]}
    (Sample.monday 10 1) Sample.firstScan =
  updateActivityCounters ["Fortnite"; "GTA"]
    {[ "GTA" := [Sample.gta]; "Fortnite" := [Sample.gta] ]}
    (Sample.monday 10 1) Sample.firstScan.
Proof.
  apply updateActivityCounters_any_order.
  - unfold rangeOf. vm_compute. first [reflexivity | apply perm_swap].
  - unfold rangeOf. vm_compute. first [reflexivity | apply perm_swap].
Defined.

Lemma dateDiffers_false_trans (t1 t2 t3 : time.Time) :
  dateDiffers t1 t3 = false → dateDiffers t2 t3 = false →
  dateDiffers t1 t2 = false.
Proof.
  unfold dateDiffers.
  rewrite !orb_false_iff, !negb_false_iff, !Z.eqb_eq. lia.
Qed.

(** The counters one call leaves when the date has not changed. *)
Lemma countersAfter_same_date order rp now (c : dadController)
    (activity : string) :
  rangeOf rp order → rp ≠ ∅ →
  dateDiffers now (LastControlTime c) = false →
  counterIn (countersAfter order rp now c)
    (time.WeekdayOf (LastControlTime c)) activity =
  if decide (is_Some (rp !! activity))
  then time.add
         (counterIn (ActivityDuration c)
            (time.WeekdayOf (LastControlTime c)) activity)
         (SamplingInterval c)
  else counterIn (ActivityDuration c)
         (time.WeekdayOf (LastControlTime c)) activity.
Proof.
  intros Hr Hne Hdate. rewrite <- (dateDiffers_false_weekday _ _ Hdate).
  rewrite countersAfter_nonempty by done.
  unfold rolled. rewrite Hdate. rewrite counterIn_insert_bucket.
  rewrite bump_lookup by by eapply rangeOf_NoDup.
  destruct (decide (activity ∈ order)) as [Hin|Hin].
  - rewrite decide_True by by apply (rangeOf_elem rp order).
    cbn [default]. by rewrite counterIn_default.
  - rewrite decide_False by by rewrite <- (rangeOf_elem rp order).
    apply counterIn_default.
Qed.

Lemma updatesAt_run order rp (activity : string) :
  rangeOf rp order → rp ≠ ∅ →
  ∀ (nows : list time.Time) (w : World),
    Forall (fun now => dateDiffers now (LastControlTime (ctl w)) = false) nows →
    ∃ w', updatesAt order rp nows w = Returned tt w' ∧
      SamplingInterval (ctl w') = SamplingInterval (ctl w) ∧
      time.WeekdayOf (LastControlTime (ctl w'))
        = time.WeekdayOf (LastControlTime (ctl w)) ∧
      counterIn (ActivityDuration (ctl w'))
        (time.WeekdayOf (LastControlTime (ctl w))) activity =
      if decide (is_Some (rp !! activity))
      then Nat.iter (List.length nows)
             (fun d => time.add d (SamplingInterval (ctl w)))
             (counterIn (ActivityDuration (ctl w))
                (time.WeekdayOf (LastControlTime (ctl w))) activity)
      else counterIn (ActivityDuration (ctl w))
             (time.WeekdayOf (LastControlTime (ctl w))) activity.
Proof.
  intros Hr Hne. induction nows as [|now nows IH]; intros w Hall.
  - exists w. split; [done|]. split; [done|]. split; [done|].
    by destruct (decide (is_Some (rp !! activity))).
  - apply Forall_cons in Hall as [Hnow Hall].
    unfold updatesAt. cbn [forRange]. unfold bind.
    rewrite updateActivityCounters_run.
    set (w1 := {| ctl := setActivityDuration
                           (countersAfter order rp now (ctl w))
                           (setLastControlTime now (ctl w));
                  killed := killed w |}).
    assert (Hday : time.WeekdayOf (LastControlTime (ctl w1))
                   = time.WeekdayOf (LastControlTime (ctl w)))
      by by apply dateDiffers_false_weekday.
    destruct (IH w1) as (w' & Hrun & Hsi & Hwd & Hcount).
    { eapply Forall_impl; [exact Hall|]. intros t Ht. cbn in Ht. cbn.
      exact (dateDiffers_false_trans t now _ Ht Hnow). }
    exists w'. split; [exact Hrun|]. split; [by rewrite Hsi|].
    split; [by rewrite Hwd|].
    rewrite Hday in Hcount. rewrite Hcount.
    change (ActivityDuration (ctl w1))
      with (countersAfter order rp now (ctl w)).
    change (SamplingInterval (ctl w1)) with (SamplingInterval (ctl w)).
    rewrite countersAfter_same_date by done.
    destruct (decide (is_Some (rp !! activity))); [|done].
    cbn [List.length]. by rewrite Nat.iter_succ_r.
Qed.

Lemma iter_add_exact (si : time.Duration) (n : nat) (d : time.Duration) :
  0 ≤ si → - 2 ^ 63 ≤ d → d + Z.of_nat n * si < 2 ^ 63 →
  Nat.iter n (fun d => time.add d si) d = d + Z.of_nat n * si.
Proof.
  intros Hsi Hd. induction n as [|n IH]; intros Hub.
  - simpl. lia.
  - rewrite Nat.iter_succ, IH by nia. rewrite add_no_overflow by nia. nia.
Qed.

(** X8. Durations accumulate: after [updateActivityCounters] has run once
    for each of [n] times that fall on the calendar date of
    [LastControlTime], with the same classified map, [GetActivityDuration]
    of a classified activity is its former value with the sampling interval
    added [n] times ([int64] additions), that is the former value plus [n]
    intervals as long as this does not overflow; the duration of an activity
    that is not classified does not move. *)
Theorem durations_accumulate_over_a_day
    (order : list string) (rp : gmap string (list runningProcess))
    (nows : list time.Time) (w : World) (activity : string) :
  rangeOf rp order → rp ≠ ∅ →
  Forall (fun now => dateDiffers now (LastControlTime (ctl w)) = false) nows →
  ∃ w' before after,
    updatesAt order rp nows w = Returned tt w' ∧
    GetActivityDuration activity w = Returned before w ∧
    GetActivityDuration activity w' = Returned after w' ∧
    (is_Some (rp !! activity) →
     after = Nat.iter (List.length nows)
               (fun d => time.add d (SamplingInterval (ctl w))) before ∧
     (0 ≤ SamplingInterval (ctl w) → - 2 ^ 63 ≤ before →
      before + Z.of_nat (List.length nows) * SamplingInterval (ctl w) < 2 ^ 63 →
      after = before + Z.of_nat (List.length nows) * SamplingInterval (ctl w))) ∧
    (rp !! activity = None → after = before).
Proof.
  intros Hr Hne Hall.
  destruct (updatesAt_run order rp activity Hr Hne nows w Hall)
    as (w' & Hrun & Hsi & Hwd & Hcount).
  exists w'. do 2 eexists. split; [exact Hrun|].
  split; [apply GetActivityDuration_counterIn|].
  split; [apply GetActivityDuration_counterIn|].
  rewrite Hwd, Hcount. split.
  - intros Hin. rewrite decide_True by done. split; [done|].
    intros. by apply iter_add_exact.
  - intros Hnone. rewrite decide_False; [done|].
    rewrite Hnone. by intros [? ?].
Qed.

(** Three scans of one minute on Monday morning take "GTA" from 14 to 17
    minutes. *)
Lemma durations_accumulate_over_a_day_witness :
  ∃ w', updatesAt (keysOf Sample.classified) Sample.classified
          [Sample.monday 10 1; Sample.monday 10 2; Sample.monday 10 3]
          (Sample.controller [Sample.gtaRule 0 2359] [Sample.gta]
             (Sample.monday 10 0) (Sample.monday 10 0)
             (Sample.counted time.Monday "GTA" 14)) = Returned tt w' ∧
    GetActivityDuration "GTA" w' = Returned (17 * time.Minute_ns) w'.
Proof.
  destruct (durations_accumulate_over_a_day
              (keysOf Sample.classified) Sample.classified
              [Sample.monday 10 1; Sample.monday 10 2; Sample.monday 10 3]
              (Sample.controller [Sample.gtaRule 0 2359] [Sample.gta]
                 (Sample.monday 10 0) (Sample.monday 10 0)
                 (Sample.counted time.Monday "GTA" 14)) "GTA"
              (rangeOf_keysOf Sample.classified))
    as (w' & before & after & Hrun & Hbefore & Hafter & Hin & _).
  - intros H. apply (f_equal (fun m => m !! "GTA")) in H.
    vm_compute in H. discriminate H.
  - repeat (apply Forall_cons_2 || apply Forall_nil_2); reflexivity.
  - exists w'. split; [exact Hrun|].
    destruct (Hin (ex_intro _ [Sample.gta] eq_refl)) as [_ Hexact].
    vm_compute in Hbefore. injection Hbefore as <-.
    rewrite Hafter. f_equal. rewrite Hexact; [reflexivity| | |];
      vm_compute; congruence.
Defined.

(** ** What [controlActivities] changes *)

Lemma newRules_cons (acts : list activityRule) (a : string) (order : list string) :
  newRules acts (a :: order) =
  match findActivityRule acts a with
  | Some _ => newRules acts order
  | None => emptyRule a :: newRules acts order
  end.
Proof.
  unfold newRules. destruct (findActivityRule acts a) as [r|] eqn:E.
  - rewrite filter_cons_False; [done|]. by rewrite E.
  - by rewrite filter_cons_True.
Qed.

Lemma newRules_ensureRule (acts : list activityRule) (a : string)
    (order : list string) :
  a ∉ order → newRules (ensureRule acts a) order = newRules acts order.
Proof.
  induction order as [|b order IH]; intros Hnot; [done|].
  apply not_elem_of_cons in Hnot as [Hne Hnot].
  rewrite !newRules_cons, IH by done.
  by rewrite findActivityRule_ensureRule_ne by done.
Qed.

Lemma findActivityRule_newRules (acts : list activityRule) (a : string)
    (order : list string) :
  a ∈ order → findActivityRule acts a = None →
  findActivityRule (newRules acts order) a = Some (emptyRule a).
Proof.
  intros Hin Hnone. induction order as [|b order IH].
  - by apply elem_of_nil in Hin.
  - rewrite newRules_cons. destruct (decide (b = a)) as [->|Hne].
    + rewrite Hnone. simpl. by rewrite String.eqb_refl.
    + apply elem_of_cons in Hin as [?|Hin]; [congruence|].
      destruct (findActivityRule acts b); [by apply IH|].
      simpl. apply String.eqb_neq in Hne. rewrite Hne. by apply IH.
Qed.

(** The loop of [controlActivities], with the rules it leaves. *)
Lemma controlLoop_full day dayTime ad rp (order : list string) :
  NoDup order →
  ∀ w : World,
    forRange order (controlActivity day dayTime ad rp) w =
    Returned tt
      {| ctl := setActivities
                  (Activities (ctl w) ++ newRules (Activities (ctl w)) order)
                  (ctl w);
         killed := killed w ++
           flat_map (killsOf day dayTime ad rp (Activities (ctl w))) order |}.
Proof.
  induction 1 as [|a order Ha Hnd IH]; intros w.
  - cbn [forRange flat_map]. unfold ret, newRules.
    rewrite filter_nil, fmap_nil, !app_nil_r.
    by rewrite setActivities_same, world_eta.
  - cbn [forRange]. unfold bind. rewrite controlActivity_run, IH.
    cbn [ctl killed Activities setActivities flat_map].
    rewrite newRules_ensureRule by done.
    rewrite (flat_map_ext_elem
               (killsOf day dayTime ad rp (ensureRule (Activities (ctl w)) a))
               (killsOf day dayTime ad rp (Activities (ctl w)))).
    2:{ intros b Hb. apply killsOf_ensureRule_ne. by intros ->. }
    rewrite <- app_assoc. do 2 f_equal.
    unfold setActivities.
    cbn [SamplingInterval GetTime GetRunningProcesses LastControlTime
         ActivityDuration]. f_equal.
    rewrite newRules_cons. unfold ensureRule.
    destruct (findActivityRule (Activities (ctl w)) a); [done|].
    by rewrite <- app_assoc.
Qed.

Lemma killsOf_length day dayTime ad rp acts (a : string) :
  (List.length (killsOf day dayTime ad rp acts a) ≤ 1)%nat.
Proof.
  unfold killsOf. destruct (scheduleOf acts day a) as [s|]; [|simpl; lia].
  destruct (_ >? _); [simpl; lia|].
  destruct (foundValidPeriod _ _); simpl; lia.
Qed.

Lemma flat_map_killsOf_length day dayTime ad rp acts (order : list string) :
  (List.length (flat_map (killsOf day dayTime ad rp acts) order)
   ≤ List.length order)%nat.
Proof.
  induction order as [|a order IH]; [done|].
  cbn [flat_map]. rewrite length_app. cbn [List.length].
  pose proof (killsOf_length day dayTime ad rp acts a). lia.
Qed.

Lemma rangeOf_length {V} (m : gmap string V) (order : list string) :
  rangeOf m order → List.length order = size m.
Proof.
  unfold rangeOf. intros ->. by rewrite length_fmap, length_map_to_list.
Qed.

Lemma rangeOf_perm {V} (m : gmap string V) (order1 order2 : list string) :
  rangeOf m order1 → rangeOf m order2 → order1 ≡ₚ order2.
Proof. unfold rangeOf. by intros -> ->. Qed.

(** X9. An activity that [controlActivities] evaluates, with a schedule for
    the current weekday, a duration not above the maximum and the time of
    day inside one of the windows, is left alone: no call of the kill hook
    names it. *)
Theorem allowed_activity_is_not_killed
    (order : list string) (rp : gmap string (list runningProcess)) (w : World)
    (ad : gmap string time.Duration) (activity : string)
    (procs : list runningProcess) (s : schedule) (ap : timePeriod) :
  rangeOf rp order →
  ActivityDuration (ctl w) !! time.WeekdayOf (LastControlTime (ctl w))
    = Some ad →
  rp !! activity = Some procs →
  scheduleOf (Activities (ctl w))
    (time.WeekdayOf (LastControlTime (ctl w))) activity = Some s →
  default 0 (ad !! activity) ≤ MaxDuration s →
  ap ∈ AllowedPeriods s →
  Begin ap ≤ dayTimeOf (LastControlTime (ctl w)) →
  dayTimeOf (LastControlTime (ctl w)) < End ap →
  ∃ w', controlActivities order rp w = Returned tt w' ∧
    killed w' = killed w ++ newKills w w' ∧
    ∀ k, k ∈ newKills w w' → killActivity k ≠ activity.
Proof.
  intros Hr Hb Hp Hs Hle Hap Hbegin Hend.
  destruct (controlActivities_decision order rp w ad Hr Hb)
    as (w' & Hrun & Hk & Hdec).
  exists w'. split; [done|]. split; [done|].
  specialize (Hdec activity procs Hp). rewrite Hs in Hdec.
  assert (Hgt : (default 0 (ad !! activity) >? MaxDuration s) = false).
  { destruct (Z.gtb_spec (default 0 (ad !! activity)) (MaxDuration s));
      [lia|done]. }
  assert (Hfound : foundValidPeriod (dayTimeOf (LastControlTime (ctl w)))
                     (AllowedPeriods s) = true).
  { apply foundValidPeriod_spec. by exists ap. }
  rewrite Hgt, Hfound in Hdec.
  intros k Hin Hact.
  assert (Hin' : k ∈ killsFor activity (newKills w w'))
    by by apply elem_of_killsFor.
  rewrite Hdec in Hin'. by apply elem_of_nil in Hin'.
Qed.

(** "GTA" at 2 minutes of 15, on Monday at 10:00, allowed all day. *)
Lemma allowed_activity_is_not_killed_witness :
  ∃ w', controlActivities (keysOf Sample.classified) Sample.classified
          (Sample.controller [Sample.gtaRule 0 2359] [Sample.gta]
             (Sample.monday 10 0) (Sample.monday 10 0)
             (Sample.counted time.Monday "GTA" 2)) = Returned tt w' ∧
    ∀ k, k ∈ newKills
               (Sample.controller [Sample.gtaRule 0 2359] [Sample.gta]
                  (Sample.monday 10 0) (Sample.monday 10 0)
                  (Sample.counted time.Monday "GTA" 2)) w' →
         killActivity k ≠ "GTA".
Proof.
  destruct (allowed_activity_is_not_killed
              (keysOf Sample.classified) Sample.classified
              (Sample.controller [Sample.gtaRule 0 2359] [Sample.gta]
                 (Sample.monday 10 0) (Sample.monday 10 0)
                 (Sample.counted time.Monday "GTA" 2))
              {[ "GTA" := 2 * time.Minute_ns ]} "GTA" [Sample.gta]
              {| AllowedPeriods := [{| Begin := 0; End := 2359 |}];
                 MaxDuration := 15 * time.Minute_ns |}
              {| Begin := 0; End := 2359 |}
              (rangeOf_keysOf Sample.classified) eq_refl eq_refl eq_refl)
    as (w' & Hrun & _ & Hnone).
  - vm_compute. discriminate.
  - apply list_elem_of_here.
  - vm_compute. discriminate.
  - vm_compute. reflexivity.
  - exists w'. split; [exact Hrun | exact Hnone].
Defined.

(** X10. [controlActivities] never touches the counters, [LastControlTime]
    or the sampling interval.  Without the bucket of the current weekday it
    changes nothing at all; with it, it appends to the rules one empty rule
    for each classified name that had none, in the order of the visit, so
    that every classified activity has a rule afterwards, and every rule
    that was found under a name before is found under it after. *)
Theorem controlActivities_only_appends_empty_rules
    (order : list string) (rp : gmap string (list runningProcess)) (w : World) :
  rangeOf rp order →
  ∃ w', controlActivities order rp w = Returned tt w' ∧
    ActivityDuration (ctl w') = ActivityDuration (ctl w) ∧
    LastControlTime (ctl w') = LastControlTime (ctl w) ∧
    SamplingInterval (ctl w') = SamplingInterval (ctl w) ∧
    (ActivityDuration (ctl w) !! time.WeekdayOf (LastControlTime (ctl w)) = None
     → w' = w) ∧
    (is_Some (ActivityDuration (ctl w)
                !! time.WeekdayOf (LastControlTime (ctl w))) →
     Activities (ctl w') =
       Activities (ctl w) ++
       (emptyRule <$>
          filter (fun a => findActivityRule (Activities (ctl w)) a = None)
            order) ∧
     ∀ a, is_Some (rp !! a) →
          is_Some (findActivityRule (Activities (ctl w')) a)) ∧
    ∀ b r, findActivityRule (Activities (ctl w)) b = Some r →
           findActivityRule (Activities (ctl w')) b = Some r.
Proof.
  intros Hr.
  destruct (ActivityDuration (ctl w) !! time.WeekdayOf (LastControlTime (ctl w)))
    as [ad|] eqn:Hb.
  - eexists. split.
    { unfold controlActivities, bind, getCtl. rewrite Hb.
      apply controlLoop_full. by eapply rangeOf_NoDup. }
    cbn [ctl killed Activities setActivities ActivityDuration LastControlTime
         SamplingInterval].
    split; [done|]. split; [done|]. split; [done|]. split; [done|].
    split.
    + intros _. split; [done|]. intros a Ha.
      rewrite findActivityRule_app.
      destruct (findActivityRule (Activities (ctl w)) a) as [r|] eqn:E;
        [by eexists|].
      rewrite findActivityRule_newRules; [by eexists| |done].
      by apply (rangeOf_elem rp order).
    + intros b r Hfind. by rewrite findActivityRule_app, Hfind.
  - exists w. split; [by apply controlActivities_no_bucket|].
    repeat split; try done.
Qed.

(** "Fortnite", classified without a rule: the empty rule is appended. *)
Lemma controlActivities_only_appends_empty_rules_witness :
  ∃ w', controlActivities (keysOf Sample.classifiedUnknown)
          Sample.classifiedUnknown Sample.unknownActivity = Returned tt w' ∧
    Activities (ctl w') =
      Activities (ctl Sample.unknownActivity) ++ [emptyRule "Fortnite"] ∧
    ActivityDuration (ctl w') = ActivityDuration (ctl Sample.unknownActivity).
Proof.
  destruct (controlActivities_only_appends_empty_rules
              (keysOf Sample.classifiedUnknown) Sample.classifiedUnknown
              Sample.unknownActivity (rangeOf_keysOf Sample.classifiedUnknown))
    as (w' & Hrun & Hcount & _ & _ & _ & Hrules & _).
  exists w'. split; [exact Hrun|]. split; [|exact Hcount].
  destruct (Hrules (ex_intro _ {[ "Fortnite" := 1 * time.Minute_ns ]} eq_refl))
    as [-> _].
  vm_compute. reflexivity.
Defined.

(** X11. The order in which Go visits the classified map changes the order
    of the kill calls and of the appended rules, nothing else: two orders of
    the same map give the same calls up to a permutation, the same rules up
    to a permutation and the same counters; and there are never more calls
    than classified activities. *)
Theorem controlActivities_any_order
    (order1 order2 : list string) (rp : gmap string (list runningProcess))
    (w : World) :
  rangeOf rp order1 → rangeOf rp order2 →
  ∃ w1 w2,
    controlActivities order1 rp w = Returned tt w1 ∧
    controlActivities order2 rp w = Returned tt w2 ∧
    newKills w w1 ≡ₚ newKills w w2 ∧
    Activities (ctl w1) ≡ₚ Activities (ctl w2) ∧
    ActivityDuration (ctl w1) = ActivityDuration (ctl w2) ∧
    (List.length (newKills w w1) ≤ size rp)%nat.
Proof.
  intros H1 H2. pose proof (rangeOf_perm rp order1 order2 H1 H2) as Hperm.
  destruct (ActivityDuration (ctl w) !! time.WeekdayOf (LastControlTime (ctl w)))
    as [ad|] eqn:Hb.
  - do 2 eexists.
    split.
    { unfold controlActivities, bind, getCtl. rewrite Hb.
      apply controlLoop_full. by eapply rangeOf_NoDup. }
    split.
    { unfold controlActivities, bind, getCtl. rewrite Hb.
      apply controlLoop_full. by eapply rangeOf_NoDup. }
    unfold newKills. cbn [killed]. rewrite !drop_app_length.
    cbn [ctl Activities setActivities ActivityDuration].
    split; [by rewrite Hperm|]. split.
    { unfold newRules. by rewrite Hperm. }
    split; [done|].
    rewrite <- (rangeOf_length rp order1 H1).
    apply flat_map_killsOf_length.
  - exists w, w. rewrite !controlActivities_no_bucket by done.
    rewrite newKills_same. repeat split; try done. simpl. lia.
Qed.

Lemma controlActivities_any_order_witness :
  ∃ w1 w2,
    controlActivities ["GTA"; "Fortnite"]
      {[ "GTA" := [Sample.gta]; "Fortnite" := [Sample.gta] ]}
      Sample.overBudgetInsideWindow = Returned tt w1 ∧
    controlActivities ["Fortnite"; "GTA"]
      {[ "GTA" := [Sample.gta]; "Fortnite" := [Sample.gta] ]}
      Sample.overBudgetInsideWindow = Returned tt w2 ∧
    newKills Sample.overBudgetInsideWindow w1
      ≡ₚ newKills Sample.overBudgetInsideWindow w2.
Proof.
  destruct (controlActivities_any_order ["GTA"; "Fortnite"] ["Fortnite"; "GTA"]
              {[ "GTA" := [Sample.gta]; "Fortnite" := [Sample.gta] ]}
              Sample.overBudgetInsideWindow)
    as (w1 & w2 & Hrun1 & Hrun2 & Hperm & _).
  - unfold rangeOf. vm_compute. first [reflexivity | apply perm_swap].
  - unfold rangeOf. vm_compute. first [reflexivity | apply perm_swap].
  - exists w1, w2. split; [exact Hrun1|]. split; [exact Hrun2 | exact Hperm].
Defined.

(** X12. A schedule without any window allows nothing: an evaluated
    activity whose schedule of the current weekday has an empty list of
    windows (as after [SetMaximumAllowedDurationPerDay] alone) is killed at
    every time of day, with the duration reason when its duration is above
    the maximum and with the time-range reason otherwise. *)
Theorem schedule_without_window_always_kills
    (order : list string) (rp : gmap string (list runningProcess)) (w : World)
    (ad : gmap string time.Duration) (activity : string)
    (procs : list runningProcess) (s : schedule) :
  rangeOf rp order →
  ActivityDuration (ctl w) !! time.WeekdayOf (LastControlTime (ctl w))
    = Some ad →
  rp !! activity = Some procs →
  scheduleOf (Activities (ctl w))
    (time.WeekdayOf (LastControlTime (ctl w))) activity = Some s →
  AllowedPeriods s = [] →
  ∃ w', controlActivities order rp w = Returned tt w' ∧
    killsFor activity (newKills w w') =
    [{| killActivity := activity; killProcesses := procs;
        killReason := if default 0 (ad !! activity) >? MaxDuration s
                      then reasonDuration else reasonTimeRange |}].
Proof.
  intros Hr Hb Hp Hs Hnil.
  destruct (controlActivities_decision order rp w ad Hr Hb)
    as (w' & Hrun & Hk & Hdec).
  exists w'. split; [done|].
  rewrite (Hdec activity procs Hp), Hs, Hnil.
  by destruct (default 0 (ad !! activity) >? MaxDuration s).
Qed.

(** "GTA" with a maximum on Monday and no window, at 2 minutes of 15. *)
Lemma schedule_without_window_always_kills_witness :
  ∃ w', controlActivities (keysOf Sample.classified) Sample.classified
          (Sample.controller
             [SetMaximumAllowedDurationPerDay [time.Monday]
                (15 * time.Minute_ns) (emptyRule "GTA")]
             [Sample.gta] (Sample.monday 10 0) (Sample.monday 10 0)
             (Sample.counted time.Monday "GTA" 2)) = Returned tt w' ∧
    killsFor "GTA"
      (newKills
         (Sample.controller
            [SetMaximumAllowedDurationPerDay [time.Monday]
               (15 * time.Minute_ns) (emptyRule "GTA")]
            [Sample.gta] (Sample.monday 10 0) (Sample.monday 10 0)
            (Sample.counted time.Monday "GTA" 2)) w')
    = [{| killActivity := "GTA"; killProcesses := [Sample.gta];
          killReason := reasonTimeRange |}].
Proof.
  exact (schedule_without_window_always_kills
           (keysOf Sample.classified) Sample.classified
           (Sample.controller
              [SetMaximumAllowedDurationPerDay [time.Monday]
                 (15 * time.Minute_ns) (emptyRule "GTA")]
              [Sample.gta] (Sample.monday 10 0) (Sample.monday 10 0)
              (Sample.counted time.Monday "GTA" 2))
           {[ "GTA" := 2 * time.Minute_ns ]} "GTA" [Sample.gta]
           {| AllowedPeriods := []; MaxDuration := 15 * time.Minute_ns |}
           (rangeOf_keysOf Sample.classified) eq_refl eq_refl eq_refl eq_refl).
Defined.

(** X13. The last minute of the day cannot be allowed by windows that stay
    within the 24-hour encoding: at 23:59 an evaluated activity whose
    windows of the current weekday all end at 2359 or before, and whose
    duration is not above the maximum, is killed with the time-range
    reason. *)
Theorem last_minute_of_day_is_outside_every_window
    (order : list string) (rp : gmap string (list runningProcess)) (w : World)
    (ad : gmap string time.Duration) (activity : string)
    (procs : list runningProcess) (s : schedule) :
  rangeOf rp order →
  ActivityDuration (ctl w) !! time.WeekdayOf (LastControlTime (ctl w))
    = Some ad →
  rp !! activity = Some procs →
  scheduleOf (Activities (ctl w))
    (time.WeekdayOf (LastControlTime (ctl w))) activity = Some s →
  time.Hour (LastControlTime (ctl w)) = 23 →
  time.Minute (LastControlTime (ctl w)) = 59 →
  (∀ ap, ap ∈ AllowedPeriods s → End ap ≤ 2359) →
  default 0 (ad !! activity) ≤ MaxDuration s →
  ∃ w', controlActivities order rp w = Returned tt w' ∧
    killsFor activity (newKills w w') =
    [{| killActivity := activity; killProcesses := procs;
        killReason := reasonTimeRange |}].
Proof.
  intros Hr Hb Hp Hs Hh Hm Hends Hle.
  destruct (controlActivities_decision order rp w ad Hr Hb)
    as (w' & Hrun & Hk & Hdec).
  exists w'. split; [done|].
  rewrite (Hdec activity procs Hp), Hs.
  assert (Hgt : (default 0 (ad !! activity) >? MaxDuration s) = false).
  { destruct (Z.gtb_spec (default 0 (ad !! activity)) (MaxDuration s));
      [lia|done]. }
  rewrite Hgt.
  destruct (foundValidPeriod (dayTimeOf (LastControlTime (ctl w)))
              (AllowedPeriods s)) eqn:Hf; [|done].
  apply foundValidPeriod_spec in Hf as (ap & Hin & _ & Hend).
  specialize (Hends ap Hin). unfold dayTimeOf in Hend.
  rewrite Hh, Hm in Hend. lia.
Qed.

(** "GTA", allowed from 0 to 2359 as in the test suite, at 23:59. *)
Lemma last_minute_of_day_is_outside_every_window_witness :
  ∃ w', controlActivities (keysOf Sample.classified) Sample.classified
          (Sample.controller [Sample.gtaRule 0 2359] [Sample.gta]
             (Sample.monday 23 59) (Sample.monday 23 59)
             (Sample.counted time.Monday "GTA" 2)) = Returned tt w' ∧
    killsFor "GTA"
      (newKills
         (Sample.controller [Sample.gtaRule 0 2359] [Sample.gta]
            (Sample.monday 23 59) (Sample.monday 23 59)
            (Sample.counted time.Monday "GTA" 2)) w')
    = [{| killActivity := "GTA"; killProcesses := [Sample.gta];
          killReason := reasonTimeRange |}].
Proof.
  apply (last_minute_of_day_is_outside_every_window
           (keysOf Sample.classified) Sample.classified
           (Sample.controller [Sample.gtaRule 0 2359] [Sample.gta]
              (Sample.monday 23 59) (Sample.monday 23 59)
              (Sample.counted time.Monday "GTA" 2))
           {[ "GTA" := 2 * time.Minute_ns ]} "GTA" [Sample.gta]
           {| AllowedPeriods := [{| Begin := 0; End := 2359 |}];
              MaxDuration := 15 * time.Minute_ns |}
           (rangeOf_keysOf Sample.classified) eq_refl eq_refl eq_refl
           eq_refl eq_refl).
  - intros ap Hin. apply list_elem_of_singleton in Hin. subst ap.
    vm_compute. discriminate.
  - vm_compute. discriminate.
Defined.

(** X14. The encoding hour * 100 + minute of [controlActivities] keeps the
    order of the clock: for times with minutes between 0 and 59, one
    encoding is below another exactly when the time is earlier in the day,
    equal encodings are equal times of day, and for hours between 0 and 23
    the encoding lies between 0 and 2359; so the time of [LastControlTime]
    is inside the window from the encoding of [b] to that of [e] exactly
    when it is at or after [b] and before [e] on the clock. *)
Theorem dayTime_encoding_keeps_clock_order (t1 t2 : time.Time) :
  0 ≤ time.Minute t1 < 60 → 0 ≤ time.Minute t2 < 60 →
  (dayTimeOf t1 < dayTimeOf t2 ↔
   time.Hour t1 < time.Hour t2
   ∨ (time.Hour t1 = time.Hour t2 ∧ time.Minute t1 < time.Minute t2)) ∧
  (dayTimeOf t1 = dayTimeOf t2 ↔
   time.Hour t1 = time.Hour t2 ∧ time.Minute t1 = time.Minute t2) ∧
  (0 ≤ time.Hour t1 < 24 → 0 ≤ dayTimeOf t1 ≤ 2359) ∧
  ∀ now, 0 ≤ time.Minute now < 60 →
    (inPeriod (dayTimeOf now)
       {| Begin := dayTimeOf t1; End := dayTimeOf t2 |} = true ↔
     (time.Hour t1 < time.Hour now
      ∨ (time.Hour t1 = time.Hour now ∧ time.Minute t1 ≤ time.Minute now))
     ∧ (time.Hour now < time.Hour t2
        ∨ (time.Hour now = time.Hour t2 ∧ time.Minute now < time.Minute t2))).
Proof.
  intros H1 H2. unfold dayTimeOf.
  split; [lia|]. split; [lia|]. split; [lia|].
  intros now Hnow. rewrite inPeriod_spec. simpl. lia.
Qed.

Lemma dayTime_encoding_keeps_clock_order_witness :
  dayTimeOf (Sample.monday 9 59) < dayTimeOf (Sample.monday 10 0) ∧
  inPeriod (dayTimeOf (Sample.monday 20 30))
    {| Begin := dayTimeOf (Sample.monday 20 0);
       End := dayTimeOf (Sample.monday 21 0) |} = true.
Proof.
  destruct (dayTime_encoding_keeps_clock_order
              (Sample.monday 9 59) (Sample.monday 10 0))
    as (Hlt & _); [vm_compute; split; [discriminate | reflexivity] ..|].
  destruct (dayTime_encoding_keeps_clock_order
              (Sample.monday 20 0) (Sample.monday 21 0))
    as (_ & _ & _ & Hin); [vm_compute; split; [discriminate | reflexivity] ..|].
  split.
  - apply Hlt. left. vm_compute. reflexivity.
  - apply (Hin (Sample.monday 20 30)).
    + vm_compute. split; [discriminate | reflexivity].
    + split.
      * right. vm_compute. split; [reflexivity|discriminate].
      * left. vm_compute. reflexivity.
Defined.

(** ** What the classification returns *)

Section ClassificationFurther.

Variable engine : regexp.Engine.

Lemma matchedBy_no_process (p : string) : matchedBy engine p [] = [].
Proof. unfold matchedBy. by destruct (regexp.Compile engine p). Qed.

Lemma patternLoop_no_process name (patterns : list string) :
  ∀ results (w : World),
    foldRange patterns (fun results processPattern =>
      matchProcesses engine name (regexp.Compile engine processPattern)
        [] results) results w = Returned results w.
Proof.
  induction patterns as [|p patterns IH]; intros results w; [done|].
  cbn [foldRange]. unfold bind. rewrite matchProcesses_no_process. apply IH.
Qed.

Lemma ruleLoop_no_process (acts : list activityRule) :
  ∀ results (w : World),
    foldRange acts (fun results activity =>
      foldRange (ProcessPatterns activity) (fun results processPattern =>
        matchProcesses engine (Name activity)
          (regexp.Compile engine processPattern) [] results) results)
      results w = Returned results w.
Proof.
  induction acts as [|a acts IH]; intros results w; [done|].
  cbn [foldRange]. unfold bind. rewrite patternLoop_no_process. apply IH.
Qed.

Lemma recordAll_no_process (acts : list activityRule) :
  ∀ results, recordAll engine acts [] results = results.
Proof.
  induction acts as [|a acts IH]; intros results; [done|].
  unfold recordAll in *. cbn [fold_left]. rewrite IH.
  assert (flat_map (fun p => matchedBy engine p []) (ProcessPatterns a) = [])
    as ->; [|done].
  induction (ProcessPatterns a) as [|p ps IHp]; [done|].
  cbn [flat_map]. by rewrite matchedBy_no_process, IHp.
Qed.

Lemma patterns_compile_or_not (patterns : list string) :
  Forall (compiles engine) patterns
  ∨ Exists (fun p => regexp.Compile engine p = None) patterns.
Proof.
  induction patterns as [|p patterns [IH|IH]].
  - left. apply Forall_nil_2.
  - destruct (regexp.Compile engine p) as [r|] eqn:E.
    + left. apply Forall_cons_2; [|done]. unfold compiles. by rewrite E.
    + right. by apply Exists_cons_hd.
  - right. by apply Exists_cons_tl.
Qed.

Lemma rules_compile_or_not (acts : list activityRule) :
  Forall (fun a => Forall (compiles engine) (ProcessPatterns a)) acts
  ∨ Exists (fun a => Exists (fun p => regexp.Compile engine p = None)
                       (ProcessPatterns a)) acts.
Proof.
  induction acts as [|a acts [IH|IH]].
  - left. apply Forall_nil_2.
  - destruct (patterns_compile_or_not (ProcessPatterns a)) as [Ha|Ha].
    + left. by apply Forall_cons_2.
    + right. by apply Exists_cons_hd.
  - right. by apply Exists_cons_tl.
Qed.

Lemma compiles_not_None (patterns : list string) :
  Forall (compiles engine) patterns →
  ¬ Exists (fun p => regexp.Compile engine p = None) patterns.
Proof.
  intros Hall Hex. apply Exists_exists in Hex as (p & Hin & Hnone).
  rewrite Forall_forall in Hall. destruct (Hall p Hin) as [r Hr]. congruence.
Qed.

(** Whenever the classification returns, it returns the map of the matches
    and leaves the world as it was; and it returns exactly when no process
    is running or every pattern compiles. *)
Lemma getRunningProcessesPerActivity_returned (w w' : World) results :
  getRunningProcessesPerActivity engine w = Returned results w' →
  w' = w ∧
  results =
    recordAll engine (Activities (ctl w)) (GetRunningProcesses (ctl w) tt) ∅ ∧
  (GetRunningProcesses (ctl w) tt = []
   ∨ Forall (fun a => Forall (compiles engine) (ProcessPatterns a))
       (Activities (ctl w))).
Proof.
  intros Hrun.
  split; [by eapply getRunningProcessesPerActivity_same_world|].
  destruct (GetRunningProcesses (ctl w) tt) as [|rp processes] eqn:Hprocs.
  - split; [|by left]. rewrite recordAll_no_process.
    unfold getRunningProcessesPerActivity, bind, getCtl in Hrun.
    rewrite Hprocs, ruleLoop_no_process in Hrun. congruence.
  - destruct (rules_compile_or_not (Activities (ctl w))) as [Hall|Hex].
    + split; [|by right].
      rewrite (getRunningProcessesPerActivity_run engine w Hall), Hprocs in Hrun.
      congruence.
    + exfalso. unfold getRunningProcessesPerActivity, bind, getCtl in Hrun.
      rewrite Hprocs in Hrun. by rewrite ruleLoop_panics in Hrun.
Qed.

Lemma elem_of_classifiedAs (acts : list activityRule)
    (processes : list runningProcess) (name : string) (rp : runningProcess) :
  rp ∈ classifiedAs engine acts processes name →
  rp ∈ processes ∧
  ∃ a p r, a ∈ acts ∧ Name a = name ∧ p ∈ ProcessPatterns a ∧
    regexp.Compile engine p = Some r ∧
    regexp.MatchString engine r (Path rp) = true.
Proof.
  unfold classifiedAs. intros Hin.
  apply list_elem_of_In, in_flat_map in Hin as (a & Ha & Hin).
  destruct (String.eqb (Name a) name) eqn:E; [|done].
  apply String.eqb_eq in E.
  apply in_flat_map in Hin as (p & Hp & Hin).
  unfold matchedBy in Hin.
  destruct (regexp.Compile engine p) as [r|] eqn:Hc; [|done].
  apply filter_In in Hin as [Hin Hm].
  split; [by apply list_elem_of_In|].
  exists a, p, r. repeat split; try done; by apply list_elem_of_In.
Qed.

Lemma findActivityRule_elem (acts : list activityRule) (a : activityRule) :
  a ∈ acts → is_Some (findActivityRule acts (Name a)).
Proof.
  induction acts as [|b acts IH]; [by intros ?%elem_of_nil|].
  intros Hin. simpl.
  destruct (String.eqb (Name b) (Name a)) eqn:E; [by eexists|].
  apply elem_of_cons in Hin as [->|Hin]; [|by apply IH].
  by rewrite String.eqb_refl in E.
Qed.

(** The entries of the classified map: lists that are not empty, under
    names of rules. *)
Lemma recordAll_entry (acts : list activityRule)
    (processes : list runningProcess) (name : string)
    (l : list runningProcess) :
  recordAll engine acts processes ∅ !! name = Some l →
  l ≠ [] ∧ l = classifiedAs engine acts processes name ∧
  is_Some (findActivityRule acts name).
Proof.
  intros Hl.
  assert (Hlisted : listed (recordAll engine acts processes ∅) name
                    = classifiedAs engine acts processes name).
  { rewrite listed_recordAll. unfold listed. by rewrite lookup_empty. }
  assert (Hne : noEmptyEntry (recordAll engine acts processes ∅)).
  { apply noEmptyEntry_recordAll. intros n. by rewrite lookup_empty. }
  assert (l ≠ []) as Hnil.
  { intros ->. by apply (Hne name). }
  unfold listed in Hlisted. rewrite Hl in Hlisted. simpl in Hlisted.
  split; [done|]. split; [done|].
  destruct l as [|rp l]; [done|].
  assert (Hin : rp ∈ classifiedAs engine acts processes name)
    by (rewrite <- Hlisted; apply list_elem_of_here).
  apply elem_of_classifiedAs in Hin as (_ & a & _ & _ & Ha & <- & _).
  by apply findActivityRule_elem.
Qed.

End ClassificationFurther.

(** X15. The classification reports nothing that is not there: whenever it
    returns, the controller is as before, every key of the map is the name
    of a rule and is bound to a list that is not empty, and every process
    listed under a name is one of the running processes, matched by a
    pattern (one that compiles) of a rule of that name. *)
Theorem classification_lists_only_matches
    (engine : regexp.Engine) (w w' : World)
    (results : gmap string (list runningProcess)) :
  getRunningProcessesPerActivity engine w = Returned results w' →
  w' = w ∧
  ∀ name l, results !! name = Some l →
    l ≠ [] ∧
    is_Some (findActivityRule (Activities (ctl w)) name) ∧
    ∀ rp, rp ∈ l →
      rp ∈ GetRunningProcesses (ctl w) tt ∧
      ∃ a p r, a ∈ Activities (ctl w) ∧ Name a = name ∧
        p ∈ ProcessPatterns a ∧ regexp.Compile engine p = Some r ∧
        regexp.MatchString engine r (Path rp) = true.
Proof.
  intros Hrun.
  apply getRunningProcessesPerActivity_returned in Hrun as (-> & -> & _).
  split; [done|]. intros name l Hl.
  apply recordAll_entry in Hl as (Hnil & -> & Hrule).
  split; [done|]. split; [done|].
  intros rp Hin. by apply elem_of_classifiedAs.
Qed.

(** The first scan of the sample controller lists the one process under
    "GTA": it is running and "GTA" has a rule. *)
Lemma classification_lists_only_matches_witness :
  is_Some (findActivityRule (Activities (ctl Sample.firstScan)) "GTA") ∧
  Sample.gta ∈ GetRunningProcesses (ctl Sample.firstScan) tt.
Proof.
  destruct (classification_lists_only_matches Sample.engine Sample.firstScan
              Sample.firstScan Sample.classified) as [_ H].
  - vm_compute. reflexivity.
  - destruct (H "GTA" [Sample.gta] eq_refl) as (_ & Hrule & Hin).
    split; [exact Hrule|].
    exact (proj1 (Hin Sample.gta (list_elem_of_here _ _))).
Defined.

(** X16. The classification returns exactly when no process is running or
    every pattern of every rule compiles; with no running process it
    returns the empty map, whatever the patterns are. *)
Theorem classification_returns_iff
    (engine : regexp.Engine) (w : World) :
  ((∃ results w', getRunningProcessesPerActivity engine w
                    = Returned results w')
   ↔ GetRunningProcesses (ctl w) tt = []
     ∨ Forall (fun a => Forall (compiles engine) (ProcessPatterns a))
         (Activities (ctl w))) ∧
  (GetRunningProcesses (ctl w) tt = [] →
   getRunningProcessesPerActivity engine w = Returned ∅ w).
Proof.
  assert (Hempty : GetRunningProcesses (ctl w) tt = [] →
                   getRunningProcessesPerActivity engine w = Returned ∅ w).
  { intros Hprocs. unfold getRunningProcessesPerActivity, bind, getCtl.
    rewrite Hprocs. apply ruleLoop_no_process. }
  split; [|exact Hempty]. split.
  - intros (results & w' & Hrun).
    by apply getRunningProcessesPerActivity_returned in Hrun as (_ & _ & ?).
  - intros [Hprocs|Hall].
    + do 2 eexists. by apply Hempty.
    + do 2 eexists. by apply getRunningProcessesPerActivity_run.
Qed.

(** The pattern "(" does no harm while no process is running. *)
Lemma classification_returns_iff_witness :
  getRunningProcessesPerActivity Sample.engine
    (Sample.controller [Sample.brokenRule] [] (Sample.monday 10 0)
       (Sample.monday 10 1) ∅)
  = Returned ∅
      (Sample.controller [Sample.brokenRule] [] (Sample.monday 10 0)
         (Sample.monday 10 1) ∅).
Proof.
  destruct (classification_returns_iff Sample.engine
              (Sample.controller [Sample.brokenRule] [] (Sample.monday 10 0)
                 (Sample.monday 10 1) ∅)) as [_ Hempty].
  exact (Hempty eq_refl).
Defined.

(** ** One scan, from the classification to the kill calls *)

Lemma newRules_nil (acts : list activityRule) (order : list string) :
  (∀ a, a ∈ order → is_Some (findActivityRule acts a)) →
  newRules acts order = [].
Proof.
  induction order as [|a order IH]; intros H; [done|].
  rewrite newRules_cons.
  destruct (H a (list_elem_of_here _ _)) as [r ->].
  apply IH. intros b Hb. by apply H, list_elem_of_further.
Qed.

Lemma killsOf_shape day dayTime ad rp acts (b : string) (k : KillCall) :
  k ∈ killsOf day dayTime ad rp acts b →
  killActivity k = b ∧ killProcesses k = default [] (rp !! b).
Proof.
  unfold killsOf.
  destruct (scheduleOf acts day b) as [s|].
  - destruct (default 0 (ad !! b) >? MaxDuration s).
    + by intros ->%list_elem_of_singleton.
    + destruct (foundValidPeriod dayTime (AllowedPeriods s)); simpl.
      * by intros ?%elem_of_nil.
      * by intros ->%list_elem_of_singleton.
  - by intros ->%list_elem_of_singleton.
Qed.

Lemma elem_of_flat_map_killsOf day dayTime ad rp acts (order : list string)
    (k : KillCall) :
  k ∈ flat_map (killsOf day dayTime ad rp acts) order →
  killActivity k ∈ order ∧
  killProcesses k = default [] (rp !! killActivity k).
Proof.
  intros Hin. apply list_elem_of_In, in_flat_map in Hin as (b & Hb & Hin).
  apply list_elem_of_In, killsOf_shape in Hin as [<- Hp].
  split; [by apply list_elem_of_In|done].
Qed.

Lemma scan_unfold (engine : regexp.Engine)
    (order1 order2 : gmap string (list runningProcess) → list string)
    (w w0 : World) (rp : gmap string (list runningProcess)) :
  getRunningProcessesPerActivity engine w = Returned rp w0 →
  scan engine order1 order2 w =
  controlActivities (order2 rp) rp (afterUpdate (order1 rp) rp w).
Proof.
  intros Hcl.
  pose proof (getRunningProcessesPerActivity_same_world engine _ _ _ Hcl) as ->.
  unfold scan. unfold bind at 1. rewrite Hcl.
  unfold bind at 1. unfold getCtl at 1.
  unfold bind at 1. by rewrite updateActivityCounters_run.
Qed.

(** [controlActivities] in one statement: the rules and the calls it adds,
    with or without the bucket of the current weekday. *)
Lemma controlActivities_full order rp (w : World) :
  NoDup order →
  ∃ new : list KillCall,
    controlActivities order rp w =
    Returned tt
      {| ctl := setActivities
                  (Activities (ctl w) ++
                   match ActivityDuration (ctl w)
                           !! time.WeekdayOf (LastControlTime (ctl w)) with
                   | Some _ => newRules (Activities (ctl w)) order
                   | None => []
                   end) (ctl w);
         killed := killed w ++ new |} ∧
    (∀ k, k ∈ new →
       killActivity k ∈ order ∧
       killProcesses k = default [] (rp !! killActivity k)) ∧
    (∀ activity, (List.length (killsFor activity new) ≤ 1)%nat) ∧
    ∀ ad, ActivityDuration (ctl w) !! time.WeekdayOf (LastControlTime (ctl w))
            = Some ad →
          new = flat_map
                  (killsOf (time.WeekdayOf (LastControlTime (ctl w)))
                     (dayTimeOf (LastControlTime (ctl w))) ad rp
                     (Activities (ctl w))) order.
Proof.
  intros Hnd.
  destruct (ActivityDuration (ctl w) !! time.WeekdayOf (LastControlTime (ctl w)))
    as [ad|] eqn:Hb.
  - eexists. split.
    { unfold controlActivities, bind, getCtl. rewrite Hb.
      by apply controlLoop_full. }
    split; [|split].
    + intros k. apply elem_of_flat_map_killsOf.
    + intros activity. rewrite killsFor_flat_map by done.
      destruct (decide (activity ∈ order)); [apply killsOf_length|simpl; lia].
    + by intros ad' [= <-].
  - exists []. split.
    { rewrite controlActivities_no_bucket by done.
      by rewrite !app_nil_r, setActivities_same, world_eta. }
    split; [by intros k ?%elem_of_nil|]. split; [intros; simpl; lia|done].
Qed.

Lemma rangeOf_empty {V} (order : list string) :
  rangeOf (∅ : gmap string V) order → order = [].
Proof.
  unfold rangeOf. rewrite map_to_list_empty. apply Permutation_nil_r.
Qed.

(** X17. A scan whose classification returns never invents a target: it
    leaves the rules as they are (every classified name has a rule, so none
    is created), sets [LastControlTime] to the time of the clock, and every
    call of the kill hook it makes names an activity that has a rule and
    passes the list classified under that name, which is not empty and
    holds running processes only; no activity is named by two calls. *)
Theorem scan_kills_only_classified_running_processes
    (engine : regexp.Engine)
    (order1 order2 : gmap string (list runningProcess) → list string)
    (w w0 : World) (rp : gmap string (list runningProcess)) :
  getRunningProcessesPerActivity engine w = Returned rp w0 →
  rangeOf rp (order2 rp) →
  ∃ w', scan engine order1 order2 w = Returned tt w' ∧
    Activities (ctl w') = Activities (ctl w) ∧
    SamplingInterval (ctl w') = SamplingInterval (ctl w) ∧
    LastControlTime (ctl w') = GetTime (ctl w) tt ∧
    killed w' = killed w ++ newKills w w' ∧
    (∀ k, k ∈ newKills w w' →
       is_Some (findActivityRule (Activities (ctl w)) (killActivity k)) ∧
       rp !! killActivity k = Some (killProcesses k) ∧
       killProcesses k ≠ [] ∧
       ∀ p, p ∈ killProcesses k → p ∈ GetRunningProcesses (ctl w) tt) ∧
    ∀ activity, (List.length (killsFor activity (newKills w w')) ≤ 1)%nat.
Proof.
  intros Hcl Hr. rewrite (scan_unfold engine order1 order2 w w0 rp Hcl).
  apply getRunningProcessesPerActivity_returned in Hcl as (_ & Hrp & _).
  assert (Hentry : ∀ name l, rp !! name = Some l →
            l ≠ [] ∧ is_Some (findActivityRule (Activities (ctl w)) name) ∧
            ∀ p, p ∈ l → p ∈ GetRunningProcesses (ctl w) tt).
  { intros name l Hl. rewrite Hrp in Hl.
    apply recordAll_entry in Hl as (Hnil & -> & Hrule).
    split; [done|]. split; [done|].
    intros p Hp. by apply elem_of_classifiedAs in Hp as [? _]. }
  destruct (controlActivities_full (order2 rp) rp
              (afterUpdate (order1 rp) rp w) (rangeOf_NoDup _ _ Hr))
    as (new & Hrun & Hshape & Hone & _).
  eexists. split; [exact Hrun|].
  cbn [ctl killed Activities setActivities ActivityDuration LastControlTime
       SamplingInterval afterUpdate setActivityDuration setLastControlTime].
  assert (Hnew : newKills w
            {| ctl := setActivities
                 (Activities (ctl w) ++
                  match countersAfter (order1 rp) rp (GetTime (ctl w) tt) (ctl w)
                          !! time.WeekdayOf (GetTime (ctl w) tt) with
                  | Some _ => newRules (Activities (ctl w)) (order2 rp)
                  | None => []
                  end)
                 (setActivityDuration
                    (countersAfter (order1 rp) rp (GetTime (ctl w) tt) (ctl w))
                    (setLastControlTime (GetTime (ctl w) tt) (ctl w)));
               killed := killed w ++ new |} = new)
    by by apply newKills_app.
  rewrite Hnew.
  split.
  { rewrite newRules_nil.
    - by destruct (_ !! _); rewrite app_nil_r.
    - intros a Ha. apply (rangeOf_elem rp (order2 rp)) in Ha as [l Hl]; [|done].
      by apply Hentry in Hl as (_ & ? & _). }
  split; [done|]. split; [done|]. split; [done|]. split; [|exact Hone].
  intros k Hk. apply Hshape in Hk as [Hin Hprocs].
  apply (rangeOf_elem rp (order2 rp)) in Hin as [l Hl]; [|done].
  rewrite Hl in Hprocs. simpl in Hprocs. rewrite Hprocs.
  destruct (Hentry _ _ Hl) as (Hnil & Hrule & Hrunning). done.
Qed.

(** The first scan after "GTA" went over its budget. *)
Lemma scan_kills_only_classified_running_processes_witness :
  ∃ w', scan Sample.engine keysOf keysOf Sample.overBudgetInsideWindow
          = Returned tt w' ∧
    Activities (ctl w') = Activities (ctl Sample.overBudgetInsideWindow) ∧
    ∀ k, k ∈ newKills Sample.overBudgetInsideWindow w' →
         killProcesses k ≠ [].
Proof.
  destruct (scan_kills_only_classified_running_processes Sample.engine
              keysOf keysOf Sample.overBudgetInsideWindow
              Sample.overBudgetInsideWindow Sample.classified)
    as (w' & Hrun & Hacts & _ & _ & _ & Hkills & _).
  - vm_compute. reflexivity.
  - apply rangeOf_keysOf.
  - exists w'. split; [exact Hrun|]. split; [exact Hacts|].
    intros k Hk. destruct (Hkills k Hk) as (_ & _ & Hnil & _). exact Hnil.
Defined.

(** X18. A scan decides on the duration it has just counted: for a
    classified activity with a schedule for the weekday of the clock,
    [GetActivityDuration] after the scan is one sampling interval above the
    value the day rollover left, and the kill for the duration is issued in
    that scan exactly when this new value is strictly above the maximum. *)
Theorem scan_decides_on_incremented_duration
    (engine : regexp.Engine)
    (order1 order2 : gmap string (list runningProcess) → list string)
    (w w0 : World) (rp : gmap string (list runningProcess))
    (activity : string) (procs : list runningProcess) (s : schedule) :
  getRunningProcessesPerActivity engine w = Returned rp w0 →
  rangeOf rp (order1 rp) → rangeOf rp (order2 rp) →
  rp !! activity = Some procs →
  scheduleOf (Activities (ctl w))
    (time.WeekdayOf (GetTime (ctl w) tt)) activity = Some s →
  ∃ w' d, scan engine order1 order2 w = Returned tt w' ∧
    GetActivityDuration activity w' = Returned d w' ∧
    d = time.add
          (counterIn (rolled (ctl w) (GetTime (ctl w) tt))
             (time.WeekdayOf (GetTime (ctl w) tt)) activity)
          (SamplingInterval (ctl w)) ∧
    ({| killActivity := activity; killProcesses := procs;
        killReason := reasonDuration |} ∈ newKills w w'
     ↔ MaxDuration s < d).
Proof.
  intros Hcl Hr1 Hr2 Hp Hs.
  rewrite (scan_unfold engine order1 order2 w w0 rp Hcl).
  assert (Hne : rp ≠ ∅).
  { intros ->. by rewrite lookup_empty in Hp. }
  set (now := GetTime (ctl w) tt) in *.
  set (ad1 := bump (SamplingInterval (ctl w)) (order1 rp)
                (default ∅ (rolled (ctl w) now !! time.WeekdayOf now))).
  assert (Hb : ActivityDuration (ctl (afterUpdate (order1 rp) rp w))
                 !! time.WeekdayOf
                      (LastControlTime (ctl (afterUpdate (order1 rp) rp w)))
               = Some ad1).
  { cbn [afterUpdate ctl ActivityDuration LastControlTime setActivityDuration
         setLastControlTime]. fold now.
    rewrite countersAfter_nonempty by done. apply lookup_insert_eq. }
  assert (Hd : default 0 (ad1 !! activity)
               = time.add (counterIn (rolled (ctl w) now)
                             (time.WeekdayOf now) activity)
                   (SamplingInterval (ctl w))).
  { unfold ad1. rewrite bump_lookup by by eapply rangeOf_NoDup.
    rewrite decide_True.
    2:{ apply (rangeOf_elem rp (order1 rp)); [done|]. by eexists. }
    cbn [default]. by rewrite counterIn_default. }
  destruct (controlActivities_full (order2 rp) rp
              (afterUpdate (order1 rp) rp w) (rangeOf_NoDup _ _ Hr2))
    as (new & Hrun & _ & _ & Hnew).
  specialize (Hnew ad1 Hb).
  cbn [afterUpdate ctl Activities LastControlTime setActivityDuration
       setLastControlTime] in Hnew. fold now in Hnew.
  do 2 eexists. split; [exact Hrun|]. split.
  { rewrite GetActivityDuration_counterIn.
    cbn [afterUpdate ctl killed Activities setActivities ActivityDuration
         LastControlTime setActivityDuration setLastControlTime]. reflexivity. }
  fold now. rewrite countersAfter_nonempty by done. fold ad1.
  rewrite counterIn_insert_bucket. split; [exact Hd|].
  unfold newKills. cbn [killed afterUpdate]. rewrite drop_app_length.
  set (kd := {| killActivity := activity; killProcesses := procs;
                killReason := reasonDuration |}).
  assert (Hmem : kd ∈ new ↔ kd ∈ killsFor activity new).
  { rewrite elem_of_killsFor. simpl. tauto. }
  rewrite Hmem, Hnew, killsFor_flat_map by by eapply rangeOf_NoDup.
  rewrite decide_True.
  2:{ apply (rangeOf_elem rp (order2 rp)); [done|]. by eexists. }
  unfold killsOf, mkKill. rewrite Hs, Hp. cbn [default].
  change (match ad1 !! activity with Some x => x | None => 0 end)
    with (default 0 (ad1 !! activity)).
  destruct reasons_distinct as (_ & _ & Hdt).
  destruct (default 0 (ad1 !! activity) >? MaxDuration s) eqn:Hgt.
  - apply Z.gtb_lt in Hgt. split; [done|]. intros _. apply list_elem_of_here.
  - assert (default 0 (ad1 !! activity) ≤ MaxDuration s) as Hle.
    { destruct (Z.gtb_spec (default 0 (ad1 !! activity)) (MaxDuration s));
        [done|lia]. }
    split; [|lia]. intros Hin. exfalso.
    destruct (foundValidPeriod _ _).
    + by apply elem_of_nil in Hin.
    + apply list_elem_of_singleton in Hin. unfold kd in Hin. by injection Hin.
Qed.

(** The test suite's scan from 15 to 16 minutes: the kill is issued in the
    scan that counts the sixteenth minute. *)
Lemma scan_decides_on_incremented_duration_witness :
  ∃ w', scan Sample.engine keysOf keysOf
          (Sample.controller [Sample.gtaRule 0 2359] [Sample.gta]
             (Sample.monday 10 1) (Sample.monday 10 2)
             (Sample.counted time.Monday "GTA" 15)) = Returned tt w' ∧
    GetActivityDuration "GTA" w' = Returned (16 * time.Minute_ns) w' ∧
    Sample.killGta reasonDuration
    ∈ newKills
        (Sample.controller [Sample.gtaRule 0 2359] [Sample.gta]
           (Sample.monday 10 1) (Sample.monday 10 2)
           (Sample.counted time.Monday "GTA" 15)) w'.
Proof.
  destruct (scan_decides_on_incremented_duration Sample.engine keysOf keysOf
              (Sample.controller [Sample.gtaRule 0 2359] [Sample.gta]
                 (Sample.monday 10 1) (Sample.monday 10 2)
                 (Sample.counted time.Monday "GTA" 15))
              (Sample.controller [Sample.gtaRule 0 2359] [Sample.gta]
                 (Sample.monday 10 1) (Sample.monday 10 2)
                 (Sample.counted time.Monday "GTA" 15))
              Sample.classified "GTA" [Sample.gta]
              {| AllowedPeriods := [{| Begin := 0; End := 2359 |}];
                 MaxDuration := 15 * time.Minute_ns |})
    as (w' & d & Hrun & Hread & Hd & Hkill).
  - vm_compute. reflexivity.
  - apply rangeOf_keysOf.
  - apply rangeOf_keysOf.
  - reflexivity.
  - reflexivity.
  - exists w'. split; [exact Hrun|].
    assert (d = 16 * time.Minute_ns) as Hd16
      by (rewrite Hd; vm_compute; reflexivity).
    split; [by rewrite <- Hd16|].
    apply Hkill. rewrite Hd16. vm_compute. reflexivity.
Defined.

(** X19. A scan in which nothing can be classified, because no process is
    running or because there is no rule, returns, even when patterns do not
    compile; it calls the kill hook for nothing, keeps the rules, sets
    [LastControlTime] to the time of the clock and leaves the counters as
    the day rollover leaves them. *)
Theorem scan_without_match_kills_nothing
    (engine : regexp.Engine)
    (order1 order2 : gmap string (list runningProcess) → list string)
    (w : World) :
  GetRunningProcesses (ctl w) tt = [] ∨ Activities (ctl w) = [] →
  rangeOf (∅ : gmap string (list runningProcess)) (order2 ∅) →
  ∃ w', scan engine order1 order2 w = Returned tt w' ∧
    killed w' = killed w ∧
    Activities (ctl w') = Activities (ctl w) ∧
    LastControlTime (ctl w') = GetTime (ctl w) tt ∧
    ActivityDuration (ctl w') = rolled (ctl w) (GetTime (ctl w) tt).
Proof.
  intros Hnothing Hr.
  assert (Hcl : getRunningProcessesPerActivity engine w = Returned ∅ w).
  { unfold getRunningProcessesPerActivity, bind, getCtl.
    destruct Hnothing as [-> | ->]; [apply ruleLoop_no_process|done]. }
  rewrite (scan_unfold engine order1 order2 w w ∅ Hcl).
  apply rangeOf_empty in Hr.
  destruct (controlActivities_full (order2 ∅) ∅
              (afterUpdate (order1 ∅) ∅ w)) as (new & Hrun & Hshape & _).
  { rewrite Hr. apply NoDup_nil_2. }
  assert (new = []) as ->.
  { destruct new as [|k new]; [done|].
    destruct (Hshape k (list_elem_of_here _ _)) as [Hin _].
    rewrite Hr in Hin. by apply elem_of_nil in Hin. }
  eexists. split; [exact Hrun|].
  cbn [ctl killed Activities setActivities ActivityDuration LastControlTime
       afterUpdate setActivityDuration setLastControlTime].
  rewrite Hr. split; [by rewrite app_nil_r|]. split; [|done].
  unfold newRules. rewrite filter_nil, fmap_nil.
  by destruct (_ !! _); rewrite app_nil_r.
Qed.

(** The pattern "(" and no running process, across midnight: the scan
    returns, kills nothing and drops the bucket of Tuesday. *)
Lemma scan_without_match_kills_nothing_witness :
  ∃ w', scan Sample.engine keysOf keysOf
          (Sample.controller [Sample.brokenRule] [] (Sample.monday 23 59)
             (Sample.tuesday 0 0) (Sample.counted time.Tuesday "GTA" 30))
        = Returned tt w' ∧
    killed w' = [] ∧
    ActivityDuration (ctl w') !! time.Tuesday = None.
Proof.
  destruct (scan_without_match_kills_nothing Sample.engine keysOf keysOf
              (Sample.controller [Sample.brokenRule] [] (Sample.monday 23 59)
                 (Sample.tuesday 0 0) (Sample.counted time.Tuesday "GTA" 30)))
    as (w' & Hrun & Hk & _ & _ & Hcount).
  - left. reflexivity.
  - apply rangeOf_keysOf.
  - exists w'. split; [exact Hrun|]. split; [exact Hk|].
    rewrite Hcount. vm_compute. reflexivity.
Defined.

(** ** Rules that share a name *)

Lemma classifiedAs_app (engine : regexp.Engine) (acts later : list activityRule)
    (processes : list runningProcess) (name : string) :
  classifiedAs engine (acts ++ later) processes name =
  classifiedAs engine acts processes name
  ++ classifiedAs engine later processes name.
Proof. unfold classifiedAs. apply flat_map_app. Qed.

(** X20. Nothing keeps two rules from having the same name, and the two
    halves of a scan treat them differently.  When rules are appended to a
    list in which [name] already has a rule, the classification lists under
    [name] the matches of the former rules followed by the matches of the
    appended rules of that name, while [controlActivities] still decides on
    [name] with the schedules of the first rule alone: its calls for [name]
    are the same with and without the appended rules. *)
Theorem duplicate_rule_adds_patterns_not_schedules
    (engine : regexp.Engine) (w : World) (later : list activityRule)
    (name : string) (order : list string)
    (rp results results2 : gmap string (list runningProcess))
    (ad : gmap string time.Duration) :
  let w2 := {| ctl := setActivities (Activities (ctl w) ++ later) (ctl w);
               killed := killed w |} in
  is_Some (findActivityRule (Activities (ctl w)) name) →
  getRunningProcessesPerActivity engine w = Returned results w →
  getRunningProcessesPerActivity engine w2 = Returned results2 w2 →
  rangeOf rp order →
  ActivityDuration (ctl w) !! time.WeekdayOf (LastControlTime (ctl w))
    = Some ad →
  is_Some (rp !! name) →
  listed results2 name =
    listed results name
    ++ classifiedAs engine later (GetRunningProcesses (ctl w) tt) name ∧
  ∃ w' w2',
    controlActivities order rp w = Returned tt w' ∧
    controlActivities order rp w2 = Returned tt w2' ∧
    killsFor name (newKills w2 w2') = killsFor name (newKills w w').
Proof.
  intros w2 [r Hfind] Hcl Hcl2 Hr Hb [procs Hp].
  apply getRunningProcessesPerActivity_returned in Hcl as (_ & -> & _).
  apply getRunningProcessesPerActivity_returned in Hcl2 as (_ & -> & _).
  split.
  - rewrite !listed_recordAll. unfold listed. rewrite lookup_empty.
    cbn [default app]. apply classifiedAs_app.
  - destruct (controlActivities_decision order rp w ad Hr Hb)
      as (w' & Hrun & _ & Hdec).
    destruct (controlActivities_decision order rp w2 ad Hr Hb)
      as (w2' & Hrun2 & _ & Hdec2).
    exists w', w2'. split; [done|]. split; [done|].
    rewrite (Hdec name procs Hp), (Hdec2 name procs Hp).
    cbn [w2 ctl Activities setActivities LastControlTime].
    unfold scheduleOf. by rewrite findActivityRule_app, Hfind.
Qed.

(** A second rule "GTA", without any schedule, is appended to the rule that
    allows "GTA" all day: its pattern adds the process once more to the
    list, and "GTA", at 2 minutes, is still allowed. *)
Lemma duplicate_rule_adds_patterns_not_schedules_witness :
  ∃ w2',
    controlActivities (keysOf Sample.classified) Sample.classified
      {| ctl := setActivities
                  ([Sample.gtaRule 0 2359] ++ [Sample.twoPatternRule])
                  (ctl (Sample.controller [Sample.gtaRule 0 2359] [Sample.gta]
                          (Sample.monday 10 0) (Sample.monday 10 0)
                          (Sample.counted time.Monday "GTA" 2)));
         killed := [] |} = Returned tt w2' ∧
    killsFor "GTA"
      (newKills
         {| ctl := setActivities
                     ([Sample.gtaRule 0 2359] ++ [Sample.twoPatternRule])
                     (ctl (Sample.controller [Sample.gtaRule 0 2359]
                             [Sample.gta] (Sample.monday 10 0)
                             (Sample.monday 10 0)
                             (Sample.counted time.Monday "GTA" 2)));
            killed := [] |} w2') = [].
Proof.
  destruct (duplicate_rule_adds_patterns_not_schedules Sample.engine
              (Sample.controller [Sample.gtaRule 0 2359] [Sample.gta]
                 (Sample.monday 10 0) (Sample.monday 10 0)
                 (Sample.counted time.Monday "GTA" 2))
              [Sample.twoPatternRule] "GTA"
              (keysOf Sample.classified) Sample.classified
              {[ "GTA" := [Sample.gta] ]}
              {[ "GTA" := [Sample.gta; Sample.gta; Sample.gta] ]}
              {[ "GTA" := 2 * time.Minute_ns ]})
    as (_ & w' & w2' & Hrun & Hrun2 & Hsame).
  - eexists. reflexivity.
  - vm_compute. reflexivity.
  - vm_compute. reflexivity.
  - apply rangeOf_keysOf.
  - reflexivity.
  - eexists. reflexivity.
  - exists w2'. split; [exact Hrun2|]. refine (eq_trans Hsame _).
    vm_compute in Hrun. injection Hrun as <-. vm_compute. reflexivity.
Defined.
